(** * Alerting script and metrics exporter: a shallow embedding

  The development follows the two programs of the repository:

  - [alert.py]: the Teams notifier ([TeamsAlerter]), the Prometheus
    poller ([MetricMonitor]) and the Flask endpoint [POST /alert];
  - [custom_exporter.py]: the exporter that republishes weather,
    crypto and exchange-rate readings as Prometheus metrics.

  Python objects are modelled by the type [pyval], Python floats by the
  IEEE-754 binary64 instance of the standard library's [spec_float],
  exceptions by an error result, and the mutable objects of each program
  by a state record threaded through a state-and-exception monad.  The
  outside world (HTTP replies, the clock, the interpreter's string to
  float conversion) is an explicit environment. *)

From Stdlib Require Import ZArith List String Ascii Bool Lia SpecFloat RelationClasses.
Import ListNotations.

Local Open Scope string_scope.
Local Open Scope Z_scope.

(* ===================================================================== *)
(** * Python values and the operations the two programs apply to them     *)
(* ===================================================================== *)

Module Py.

(** ** Floats: IEEE-754 binary64 *)

Definition prec : Z := 53.
Definition emax : Z := 1024.

Definition float := spec_float.

(** The float nearest to an integer (round to nearest, ties to even). *)
Definition float_of_Z (z : Z) : float := binary_normalize prec emax z 0 false.

Definition fadd : float -> float -> float := SFadd prec emax.
Definition fsub : float -> float -> float := SFsub prec emax.
Definition fdiv : float -> float -> float := SFdiv prec emax.
Definition feqb : float -> float -> bool := SFeqb.
Definition fltb : float -> float -> bool := SFltb.

Definition is_infinite (x : float) : bool :=
  match x with S754_infinity _ => true | _ => false end.

Definition is_finite (x : float) : bool :=
  match x with S754_zero _ | S754_finite _ _ _ => true | _ => false end.

(** ** Exceptions *)

Inductive exn :=
| KeyError | TypeError | ValueError | IndexError | AttributeError
| OverflowError | ZeroDivisionError
| RequestException      (* requests: connection errors and timeouts *)
| HTTPError             (* requests: raise_for_status *)
| JSONDecodeError       (* requests: response.json() on a bad body *)
| BadRequest            (* werkzeug: request.json on an unparsable body *)
| UnsupportedMediaType  (* werkzeug: request.json on a non-JSON content type *)
| KeyboardInterrupt | SystemExit.

(** [except Exception] catches every class but the two that derive from
    [BaseException] only. *)
Definition is_Exception (e : exn) : bool :=
  match e with
  | KeyboardInterrupt | SystemExit => false
  | _ => true
  end.

Inductive result (A : Type) :=
| Ok (a : A)
| Raise (e : exn).
Arguments Ok {A} a.
Arguments Raise {A} e.

Definition rbind {A B} (r : result A) (k : A -> result B) : result B :=
  match r with
  | Ok a => k a
  | Raise e => Raise e
  end.

(** An operation's exceptions are all caught by [except Exception]. *)
Definition catchable {A} (r : result A) : Prop :=
  forall e, r = Raise e -> is_Exception e = true.

(** ** Objects *)

#[warnings="-register-all"]
Inductive pyval :=
| PyNone
| PyBool (b : bool)
| PyInt (z : Z)
| PyFloat (x : float)
| PyStr (s : string)
| PyList (l : list pyval)
| PyDict (d : list (string * pyval)).

(** Dictionaries have string keys (they come from JSON); the binding
    found first is the dictionary's value for the key. *)
Fixpoint lookup (k : string) (d : list (string * pyval)) : option pyval :=
  match d with
  | [] => None
  | (k', v) :: d' => if String.eqb k k' then Some v else lookup k d'
  end.

(** [bool(v)] *)
Definition truthy (v : pyval) : bool :=
  match v with
  | PyNone => false
  | PyBool b => b
  | PyInt z => negb (Z.eqb z 0)
  | PyFloat x => negb (feqb x (S754_zero false))
  | PyStr s => negb (String.eqb s EmptyString)
  | PyList l => match l with [] => false | _ => true end
  | PyDict d => match d with [] => false | _ => true end
  end.

(** [bool(x)] for a float: zero of either sign is false, NaN is true. *)
Definition float_truthy (x : float) : bool := truthy (PyFloat x).

(** [v[k]] with a string key *)
Definition getitem (v : pyval) (k : string) : result pyval :=
  match v with
  | PyDict d => match lookup k d with Some x => Ok x | None => Raise KeyError end
  | _ => Raise TypeError
  end.

(** [v.get(k, default)] *)
Definition get_method (v : pyval) (k : string) (default : pyval) : result pyval :=
  match v with
  | PyDict d => match lookup k d with Some x => Ok x | None => Ok default end
  | _ => Raise AttributeError
  end.

Fixpoint chars (s : string) : list pyval :=
  match s with
  | EmptyString => []
  | String c s' => PyStr (String c EmptyString) :: chars s'
  end.

(** [v[i]] with a non-negative integer literal *)
Definition getindex (v : pyval) (i : nat) : result pyval :=
  match v with
  | PyList l => match nth_error l i with Some x => Ok x | None => Raise IndexError end
  | PyStr s => match nth_error (chars s) i with Some x => Ok x | None => Raise IndexError end
  | PyDict _ => Raise KeyError
  | _ => Raise TypeError
  end.

(** The double-quote character, as a one-character string. *)
Definition dquote : string := String (ascii_of_nat 34) EmptyString.

(** [s1 in s2] on strings *)
Fixpoint contains (needle hay : string) : bool :=
  if String.prefix needle hay then true
  else match hay with
       | EmptyString => false
       | String _ hay' => contains needle hay'
       end.

Definition is_str (k : string) (v : pyval) : bool :=
  match v with PyStr s => String.eqb s k | _ => false end.

(** [k in v] with a string [k] *)
Definition contains_key (k : string) (v : pyval) : result bool :=
  match v with
  | PyDict d => Ok (match lookup k d with Some _ => true | None => false end)
  | PyList l => Ok (existsb (is_str k) l)
  | PyStr s => Ok (contains k s)
  | _ => Raise TypeError
  end.

(** The elements [for x in v] visits. *)
Definition iterate (v : pyval) : result (list pyval) :=
  match v with
  | PyList l => Ok l
  | PyDict d => Ok (map (fun kv => PyStr (fst kv)) d)
  | PyStr s => Ok (chars s)
  | _ => Raise TypeError
  end.

(** [s.lower()].  Letters A to Z are mapped to a to z and every other
    byte is kept: no character outside ASCII lower-cases to one of the
    letters of the three words the endpoint looks for. *)
Definition lower_ascii (c : ascii) : ascii :=
  let n := nat_of_ascii c in
  if (Nat.leb 65 n && Nat.leb n 90)%bool then ascii_of_nat (n + 32) else c.

Fixpoint lower (s : string) : string :=
  match s with
  | EmptyString => EmptyString
  | String c s' => String (lower_ascii c) (lower s')
  end.

(** [v.lower()] *)
Definition lower_method (v : pyval) : result string :=
  match v with
  | PyStr s => Ok (lower s)
  | _ => Raise AttributeError
  end.

(** [float(z)] of an integer: [OverflowError] when it does not fit. *)
Definition float_of_int (z : Z) : result float :=
  let x := float_of_Z z in
  if is_infinite x then Raise OverflowError else Ok x.

(** [float(v)].  The conversion of a string is the interpreter's and is
    taken as a parameter; [None] stands for its [ValueError]. *)
Definition to_float (float_of_str : string -> option float) (v : pyval)
  : result float :=
  match v with
  | PyBool b => Ok (float_of_Z (if b then 1 else 0))
  | PyInt z => float_of_int z
  | PyFloat x => Ok x
  | PyStr s => match float_of_str s with Some x => Ok x | None => Raise ValueError end
  | _ => Raise TypeError
  end.

(** The integer an [int] or [bool] stands for in arithmetic. *)
Definition as_int (v : pyval) : option Z :=
  match v with
  | PyBool b => Some (if b then 1 else 0)
  | PyInt z => Some z
  | _ => None
  end.

(** An integer as an exact (not rounded) dyadic, for the correctly
    rounded quotient of two integers. *)
Definition exact_of_Z (z : Z) : float :=
  match z with
  | Z0 => S754_zero false
  | Zpos p => S754_finite false p 0
  | Zneg p => S754_finite true p 0
  end.

(** [v / n] for a positive integer literal [n]: true division.  A float
    is divided by the float of [n]; an integer gives the correctly
    rounded quotient, or [OverflowError] when that is out of range. *)
Definition truediv_int (v : pyval) (n : positive) : result float :=
  match v with
  | PyFloat x =>
      rbind (float_of_int (Zpos n)) (fun y => Ok (fdiv x y))
  | PyBool _ | PyInt _ =>
      match as_int v with
      | Some z =>
          let q := fdiv (exact_of_Z z) (exact_of_Z (Zpos n)) in
          if is_infinite q then Raise OverflowError else Ok q
      | None => Raise TypeError
      end
  | _ => Raise TypeError
  end.

(** The float an operand of mixed arithmetic is converted to. *)
Definition as_float (v : pyval) : option (result float) :=
  match v with
  | PyFloat x => Some (Ok x)
  | PyBool _ | PyInt _ =>
      match as_int v with
      | Some z => Some (float_of_int z)
      | None => None
      end
  | _ => None
  end.

(** [a + b]: exact on integers, rounded on floats, and concatenation on
    two strings or two lists. *)
Definition add (a b : pyval) : result pyval :=
  match as_int a, as_int b with
  | Some x, Some y => Ok (PyInt (x + y))
  | _, _ =>
      match a, b with
      | PyStr x, PyStr y => Ok (PyStr (x ++ y))
      | PyList x, PyList y => Ok (PyList (x ++ y))
      | _, _ =>
          match as_float a, as_float b with
          | Some ra, Some rb =>
              rbind ra (fun x => rbind rb (fun y => Ok (PyFloat (fadd x y))))
          | _, _ => Raise TypeError
          end
      end
  end.

(** [x % n] for a float [x] and a positive integer literal [n].  The
    remainder of the division of magnitudes is exact; it takes the sign
    of [x], and a negative remainder is then moved into [0, n). *)
Definition float_mod (x : float) (n : positive) : float :=
  match x with
  | S754_nan | S754_infinity _ => S754_nan
  | S754_zero _ => S754_zero false
  | S754_finite sx m e =>
      let k :=
        match e with
        | Zneg p => Z.modulo (Zpos m) (Zpos n * 2 ^ Zpos p)
        | _ => Z.modulo (Zpos m * 2 ^ e) (Zpos n)
        end in
      let e' := match e with Zneg _ => e | _ => 0 end in
      if k =? 0 then S754_zero false
      else if sx
           then fadd (binary_normalize prec emax (- k) e' false) (float_of_Z (Zpos n))
           else binary_normalize prec emax k e' false
  end.

(** ** Text built by f-strings

    An f-string is kept as its pieces: the literal parts and the
    formatted values with their format specification. *)
Inductive piece :=
| Lit (s : string)
| Fmt (spec : string) (v : pyval)
| FmtTime (spec : string) (t : Z)
| FmtExn (e : exn).

(** The empty format specification of [{v}]. *)
Definition plain : string := EmptyString.

Inductive text :=
| Obj (v : pyval)           (* the object itself *)
| FString (ps : list piece).

Definition Str (s : string) : text := Obj (PyStr s).

(** ** State and exceptions

    A computation takes the program state and gives a result or an
    exception together with the new state: what was mutated before an
    exception stays mutated. *)
Definition M (S A : Type) : Type := S -> result A * S.

Definition ret {S A} (a : A) : M S A := fun s => (Ok a, s).

Definition raise {S A} (e : exn) : M S A := fun s => (Raise e, s).

Definition bind {S A B} (m : M S A) (k : A -> M S B) : M S B :=
  fun s =>
    match m s with
    | (Ok a, s') => k a s'
    | (Raise e, s') => (Raise e, s')
    end.

Definition lift {S A} (r : result A) : M S A := fun s => (r, s).

Definition modify {S} (f : S -> S) : M S unit := fun s => (Ok tt, f s).

Definition gets {S A} (f : S -> A) : M S A := fun s => (Ok (f s), s).

(** [try: body  except Exception as e: handler e] *)
Definition try_except {S A} (body : M S A) (handler : exn -> M S A) : M S A :=
  fun s =>
    match body s with
    | (Ok a, s') => (Ok a, s')
    | (Raise e, s') => if is_Exception e then handler e s' else (Raise e, s')
    end.

(** [for x in xs: body x] *)
Fixpoint for_each {S A} (xs : list A) (body : A -> M S unit) : M S unit :=
  match xs with
  | [] => ret tt
  | x :: xs' => bind (body x) (fun _ => for_each xs' body)
  end.

(** [while True: body], unrolled [n] times.  The loop has no [break]:
    it is left only by an exception, so [Ok tt] after [n] rounds means
    that the loop is still running. *)
Fixpoint while_true {S} (n : nat) (body : M S unit) : M S unit :=
  match n with
  | O => ret tt
  | Datatypes.S k => bind body (fun _ => while_true k body)
  end.

(** Computation [m] relates every state it starts in to the state it
    ends in, whether it returns or raises. *)
Definition respects {S A} (R : S -> S -> Prop) (m : M S A) : Prop :=
  forall s, R s (snd (m s)).

(** ** HTTP as the [requests] library shows it *)

(** A call either fails in transport (connection error, timeout) or
    yields a response with a status code and a body; [body = None] is a
    body that [response.json()] cannot decode. *)
Inductive http_reply :=
| Failed
| Replied (status : Z) (body : option pyval).

(** [requests.get(...)] / [requests.post(...)]: the response object. *)
Definition request (r : http_reply) : result (Z * option pyval) :=
  match r with
  | Failed => Raise RequestException
  | Replied status body => Ok (status, body)
  end.

(** [response.raise_for_status()]: client and server error codes raise. *)
Definition raise_for_status (status : Z) : result unit :=
  if (400 <=? status) && (status <? 600) then Raise HTTPError else Ok tt.

(** [response.json()] *)
Definition response_json (body : option pyval) : result pyval :=
  match body with
  | Some v => Ok v
  | None => Raise JSONDecodeError
  end.

Declare Scope py_scope.
Delimit Scope py_scope with py.
Notation "x <- m ;; k" := (bind m (fun x => k))
  (at level 61, m at next level, right associativity) : py_scope.
Notation "m ;;; k" := (bind m (fun _ => k))
  (at level 61, right associativity) : py_scope.

End Py.

(* ===================================================================== *)
(** * alert.py                                                            *)
(* ===================================================================== *)

Module Alert.
Import Py.
Local Open Scope py_scope.

Definition MONITORING_INTERVAL : Z := 30.

(** ** The outside world *)

Record env := {
  (** the reply of the metrics backend to the [n]-th GET of the process,
      which carries the given query *)
  prometheus : nat -> string -> http_reply;
  (** the reply of the chat webhook to the [n]-th POST of the process *)
  webhook : nat -> http_reply;
  (** [datetime.now()] at the [n]-th reading of the clock *)
  clock : nat -> Z;
  (** [float(s)] on strings *)
  float_of_str : string -> option float
}.

(** ** Program state *)

(** One invocation of [send_alert] with its four arguments. *)
Record alert_call := {
  title : string;
  message : text;
  alert_type : string;
  facts : option (list (string * text))
}.

(** The message card handed to [requests.post]. *)
Record card := {
  themeColor : string;
  summary : string;
  activityTitle : string;
  activitySubtitle : Z;
  card_text : text;
  card_facts : list (string * text);   (* name, and the value under [str] *)
  potentialAction : list (string * string)
}.

(** An entry of [alert_history]. *)
Record history_entry := {
  h_title : string;
  h_time : Z;
  h_status : string
}.

Inductive level := INFO | ERROR.

Record state := {
  alert_history : list history_entry;   (* TeamsAlerter.alert_history *)
  sends : list alert_call;              (* invocations of send_alert, oldest first *)
  posted : list card;                   (* cards submitted to the webhook, oldest first *)
  n_get : nat;                          (* GETs issued to the metrics backend *)
  n_clock : nat;                        (* readings of the clock *)
  log : list (level * list piece);      (* logger output, oldest first *)
  slept : list Z                        (* time.sleep calls, oldest first *)
}.

Definition initial_state : state :=
  {| alert_history := []; sends := []; posted := []; n_get := 0%nat;
     n_clock := 0%nat; log := []; slept := [] |}.

Definition add_history (h : history_entry) (s : state) : state :=
  {| alert_history := alert_history s ++ [h]; sends := sends s; posted := posted s;
     n_get := n_get s; n_clock := n_clock s; log := log s; slept := slept s |}.

Definition add_send (c : alert_call) (s : state) : state :=
  {| alert_history := alert_history s; sends := sends s ++ [c]; posted := posted s;
     n_get := n_get s; n_clock := n_clock s; log := log s; slept := slept s |}.

Definition add_posted (c : card) (s : state) : state :=
  {| alert_history := alert_history s; sends := sends s; posted := posted s ++ [c];
     n_get := n_get s; n_clock := n_clock s; log := log s; slept := slept s |}.

Definition count_get (s : state) : state :=
  {| alert_history := alert_history s; sends := sends s; posted := posted s;
     n_get := S (n_get s); n_clock := n_clock s; log := log s; slept := slept s |}.

Definition count_clock (s : state) : state :=
  {| alert_history := alert_history s; sends := sends s; posted := posted s;
     n_get := n_get s; n_clock := S (n_clock s); log := log s; slept := slept s |}.

Definition add_log (l : level) (msg : list piece) (s : state) : state :=
  {| alert_history := alert_history s; sends := sends s; posted := posted s;
     n_get := n_get s; n_clock := n_clock s; log := log s ++ [(l, msg)];
     slept := slept s |}.

Definition add_sleep (secs : Z) (s : state) : state :=
  {| alert_history := alert_history s; sends := sends s; posted := posted s;
     n_get := n_get s; n_clock := n_clock s; log := log s;
     slept := slept s ++ [secs] |}.

(** ** Primitive effects *)

Definition logger_info (msg : list piece) : M state unit := modify (add_log INFO msg).
Definition logger_error (msg : list piece) : M state unit := modify (add_log ERROR msg).

(** [time.sleep(secs)] *)
Definition sleep (secs : Z) : M state unit := modify (add_sleep secs).

Section WithEnv.

Variable E : env.

(** [datetime.now()] *)
Definition datetime_now : M state Z :=
  fun s => (Ok (clock E (n_clock s)), count_clock s).

(** [requests.post(self.webhook_url, ..., data=json.dumps(payload), timeout=10)]:
    the status code of the response.  Every card is serialisable (its
    values are strings, f-strings and objects decoded from JSON), so
    [json.dumps] does not fail. *)
Definition requests_post (payload : card) : M state Z :=
  fun s =>
    match request (webhook E (List.length (posted s))) with
    | Ok (status, _) => (Ok status, add_posted payload s)
    | Raise e => (Raise e, add_posted payload s)
    end.

(** [requests.get(f"{self.prometheus_url}/api/v1/query", params={'query': query}, timeout=10)] *)
Definition requests_get (query : string) : M state (Z * option pyval) :=
  fun s => (request (prometheus E (n_get s) query), count_get s).

(** ** TeamsAlerter *)

(** [colors.get(alert_type, "0076D7")] *)
Definition colors_get (alert_type : string) : string :=
  if String.eqb alert_type "info" then "0076D7"
  else if String.eqb alert_type "warning" then "FF8C00"
  else if String.eqb alert_type "error" then "D83B01"
  else if String.eqb alert_type "success" then "107C10"
  else "0076D7".

Definition actions : list (string * string) :=
  [("📊 Open Grafana", "http://localhost:3000");
   ("📈 Open Prometheus", "http://localhost:9090")].

(** [send_alert].  The first step records the invocation in [sends];
    the card leaves out the constant fields [@type], [@context] and
    [markdown], and keeps the time of the subtitle as a number. *)
Definition send_alert (title : string) (message : text) (alert_type : string)
  (facts : option (list (string * text))) : M state bool :=
  modify (add_send {| title := title; message := message;
                      alert_type := alert_type; facts := facts |}) ;;;
  let color := colors_get alert_type in
  now <- datetime_now ;;
  let payload :=
    {| themeColor := color;
       summary := title;
       activityTitle := title;
       activitySubtitle := now;
       card_text := message;
       card_facts := match facts with Some d => d | None => [] end;
       potentialAction := actions |} in
  try_except
    (status_code <- requests_post payload ;;
     if status_code =? 200 then
       logger_info [Lit "✅ Alert sent: "; Fmt plain (PyStr title)] ;;;
       t <- datetime_now ;;
       modify (add_history {| h_title := title; h_time := t; h_status := "sent" |}) ;;;
       ret true
     else
       logger_error [Lit "❌ Failed to send alert: "; Fmt plain (PyInt status_code)] ;;;
       ret false)
    (fun e =>
       logger_error [Lit "❌ Error sending alert: "; FmtExn e] ;;;
       ret false).

Definition database_alert (metric value threshold message : text) : M state bool :=
  send_alert "🚨 Database Alert" message "error"
    (Some [("Metric", metric); ("Current Value", value);
           ("Threshold", threshold); ("Component", Str "PostgreSQL")]).

Definition system_alert (metric value threshold message : text) : M state bool :=
  send_alert "⚠️ System Alert" message "warning"
    (Some [("Metric", metric); ("Current Value", value);
           ("Threshold", threshold); ("Component", Str "System Resources")]).

Definition api_alert (metric value message : text) : M state bool :=
  send_alert "🌐 API Alert" message "info"
    (Some [("Metric", metric); ("Current Value", value);
           ("Component", Str "External APIs")]).

Definition success_alert (service message : text) : M state bool :=
  t <- datetime_now ;;
  send_alert "✅ Service Recovered" message "success"
    (Some [("Service", service); ("Status", Str "Recovered");
           ("Time", FString [FmtTime "%H:%M:%S" t])]).

(** ** MetricMonitor *)

(** The eight query expressions of [check_alerts]. *)
Definition q_connections : string :=
  "pg_stat_activity_count{datname=" ++ dquote ++ "postgres" ++ dquote ++ "}".
Definition q_db_size : string :=
  "pg_database_size{datname=" ++ dquote ++ "postgres" ++ dquote
  ++ "} / 1024 / 1024 / 1024".
Definition q_cpu_usage : string :=
  "100 - (avg by (instance) (rate(node_cpu_seconds_total{mode=" ++ dquote
  ++ "idle" ++ dquote ++ "}[5m])) * 100)".
Definition q_memory_usage : string :=
  "(1 - (node_memory_MemAvailable_bytes / node_memory_MemTotal_bytes)) * 100".
Definition q_temperature : string :=
  "weather_temperature_celsius{city=" ++ dquote ++ "Astana" ++ dquote ++ "}".
Definition q_btc_price : string := "crypto_bitcoin_price_usd".
Definition q_postgres_up : string := "pg_up".
Definition q_node_up : string := "up{job=" ++ dquote ++ "node" ++ dquote ++ "}".

(** A float against an integer literal.  Python compares the two by
    value; every literal below is exactly representable. *)
Definition gt_int (x : float) (n : Z) : bool := fltb (float_of_Z n) x.
Definition lt_int (x : float) (n : Z) : bool := fltb x (float_of_Z n).
Definition eq_int (x : float) (n : Z) : bool := feqb x (float_of_Z n).

Definition query_prometheus (query : string) : M state (option float) :=
  try_except
    (response <- requests_get query ;;
     lift (raise_for_status (fst response)) ;;;
     data <- lift (response_json (snd response)) ;;
     d <- lift (getitem data "data") ;;
     result <- lift (getitem d "result") ;;
     if truthy result then
       r0 <- lift (getindex result 0) ;;
       value <- lift (getitem r0 "value") ;;
       v1 <- lift (getindex value 1) ;;
       x <- lift (to_float (float_of_str E) v1) ;;
       ret (Some x)
     else ret None)
    (fun e =>
       logger_error [Lit "Error querying Prometheus: "; FmtExn e] ;;;
       ret None).

(** [if cond: body] where the value of [body] is dropped *)
Definition when {A} (cond : bool) (body : M state A) : M state unit :=
  if cond then body ;;; ret tt else ret tt.

(** [v and p(v)] for the value of a query: [None] and zero are false. *)
Definition and_then (v : option float) (p : float -> bool) : bool :=
  match v with
  | Some x => float_truthy x && p x
  | None => false
  end.

(** [v == 0] for the value of a query: [None == 0] is false. *)
Definition equals_zero (v : option float) : bool :=
  match v with
  | Some x => eq_int x 0
  | None => false
  end.

(** The float a truthy query value holds (the branch is taken only
    then), for use in the arguments of the alert. *)
Definition the (v : option float) : pyval :=
  match v with
  | Some x => PyFloat x
  | None => PyNone
  end.

Definition check_alerts : M state unit :=
  logger_info [Lit "🔍 Checking metrics for alerts..."] ;;;
  (* 1. Database Alerts *)
  connections <- query_prometheus q_connections ;;
  when (and_then connections (fun x => gt_int x 50))
    (database_alert (Str "Active Connections") (Obj (the connections)) (Obj (PyInt 50))
       (FString [Lit "High database connections: "; Fmt plain (the connections)])) ;;;
  db_size <- query_prometheus q_db_size ;;
  when (and_then db_size (fun x => gt_int x 1))
    (database_alert (Str "Database Size")
       (FString [Fmt ".2f" (the db_size); Lit " GB"]) (Str "1 GB")
       (FString [Lit "Database size is large: "; Fmt ".2f" (the db_size); Lit " GB"])) ;;;
  (* 2. System Alerts *)
  cpu_usage <- query_prometheus q_cpu_usage ;;
  when (and_then cpu_usage (fun x => gt_int x 80))
    (system_alert (Str "CPU Usage")
       (FString [Fmt ".1f" (the cpu_usage); Lit "%"]) (Str "80%")
       (FString [Lit "High CPU usage: "; Fmt ".1f" (the cpu_usage); Lit "%"])) ;;;
  memory_usage <- query_prometheus q_memory_usage ;;
  when (and_then memory_usage (fun x => gt_int x 85))
    (system_alert (Str "Memory Usage")
       (FString [Fmt ".1f" (the memory_usage); Lit "%"]) (Str "85%")
       (FString [Lit "High memory usage: "; Fmt ".1f" (the memory_usage); Lit "%"])) ;;;
  (* 3. Custom API Alerts *)
  temperature <- query_prometheus q_temperature ;;
  when (and_then temperature (fun x => gt_int x 30))
    (api_alert (Str "Weather Temperature")
       (FString [Fmt plain (the temperature); Lit "°C"])
       (FString [Lit "High temperature in Astana: "; Fmt plain (the temperature); Lit "°C"])) ;;;
  btc_price <- query_prometheus q_btc_price ;;
  when (and_then btc_price (fun x => lt_int x 40000))
    (api_alert (Str "Bitcoin Price")
       (FString [Lit "$"; Fmt ",.2f" (the btc_price)])
       (FString [Lit "Bitcoin price dropped: $"; Fmt ",.2f" (the btc_price)])) ;;;
  (* 4. Service Status Alerts *)
  postgres_up <- query_prometheus q_postgres_up ;;
  when (equals_zero postgres_up)
    (database_alert (Str "PostgreSQL Status") (Str "DOWN") (Str "UP")
       (Str "PostgreSQL database is down!")) ;;;
  node_up <- query_prometheus q_node_up ;;
  when (equals_zero node_up)
    (system_alert (Str "Node Exporter") (Str "DOWN") (Str "UP")
       (Str "Node Exporter is not running!")).

(** One round of the loop of [start_monitoring]; [check] is
    [self.check_alerts]. *)
Definition monitoring_round (check : M state unit) : M state unit :=
  try_except
    (check ;;;
     sleep MONITORING_INTERVAL)
    (fun e =>
       logger_error [Lit "Monitoring error: "; FmtExn e] ;;;
       sleep 10).

(** [start_monitoring], its loop unrolled [n] times. *)
Definition start_monitoring_with (check : M state unit) (n : nat) : M state unit :=
  logger_info [Lit "🚀 Starting continuous monitoring..."] ;;;
  while_true n (monitoring_round check).

Definition start_monitoring (n : nat) : M state unit :=
  start_monitoring_with check_alerts n.

(** ** The alert server *)

(** What [request.json] gives: the decoded body, or the [BadRequest] that
    Flask raises from the property when the body is not valid JSON. *)
Inductive request_body :=
| Json (v : pyval)
| Unparsable.

Definition request_json (b : request_body) : result pyval :=
  match b with
  | Json v => Ok v
  | Unparsable => Raise BadRequest
  end.

(** The body given to [jsonify]. *)
Inductive reply_body :=
| ErrorText (msg : string)     (* {"error": msg} *)
| ErrorOf (e : exn)            (* {"error": str(e)} *)
| Success.                     (* {"status": "success"} *)

Definition process_prometheus_alert (alert : pyval) : M state unit :=
  labels <- lift (getitem alert "labels") ;;
  alertname <- lift (get_method labels "alertname" (PyStr "Unknown")) ;;
  status <- lift (getitem alert "status") ;;
  annotations <- lift (getitem alert "annotations") ;;
  description <- lift (get_method annotations "description" (PyStr EmptyString)) ;;
  if is_str "resolved" status then
    success_alert (Obj alertname)
      (FString [Lit "Alert resolved: "; Fmt plain description]) ;;;
    ret tt
  else
    name <- lift (lower_method alertname) ;;
    if contains "database" name then
      database_alert (Obj alertname) (Str "Problem detected") (Str "Normal")
        (Obj description) ;;;
      ret tt
    else
      name' <- lift (lower_method alertname) ;;
      cpu_or_memory <-
        (if contains "cpu" name' then ret true
         else name'' <- lift (lower_method alertname) ;;
              ret (contains "memory" name'')) ;;
      if cpu_or_memory : bool then
        system_alert (Obj alertname) (Str "Problem detected") (Str "Normal")
          (Obj description) ;;;
        ret tt
      else
        api_alert (Obj alertname) (Str "Problem detected") (Obj description) ;;;
        ret tt.

Definition handle_alert (body : request_body) : M state (reply_body * Z) :=
  try_except
    (data <- lift (request_json body) ;;
     invalid <-
       (if negb (truthy data) then ret true
        else present <- lift (contains_key "alerts" data) ;;
             ret (negb present)) ;;
     if invalid : bool then
       ret (ErrorText "Invalid alert data", 400)
     else
       alerts <- lift (getitem data "alerts") ;;
       elements <- lift (iterate alerts) ;;
       for_each elements process_prometheus_alert ;;;
       ret (Success, 200))
    (fun e =>
       logger_error [Lit "Error processing alert: "; FmtExn e] ;;;
       ret (ErrorOf e, 500)).

End WithEnv.

(** ** The rule set, as a table

    [check_alerts] evaluates eight rules in a fixed order.  The table
    names them and records, for each, its query, the domain of the
    wrapper it notifies through, the [Metric] fact that identifies its
    notifications, and its comparison. *)

Inductive rule :=
| Connections | DbSize | CpuUsage | MemoryUsage
| Temperature | BtcPrice | PostgresUp | NodeUp.

Definition rules : list rule :=
  [Connections; DbSize; CpuUsage; MemoryUsage;
   Temperature; BtcPrice; PostgresUp; NodeUp].

(** The position of the rule's query among the GETs of one tick. *)
Definition rule_index (r : rule) : nat :=
  match r with
  | Connections => 0 | DbSize => 1 | CpuUsage => 2 | MemoryUsage => 3
  | Temperature => 4 | BtcPrice => 5 | PostgresUp => 6 | NodeUp => 7
  end%nat.

Definition rule_query (r : rule) : string :=
  match r with
  | Connections => q_connections
  | DbSize => q_db_size
  | CpuUsage => q_cpu_usage
  | MemoryUsage => q_memory_usage
  | Temperature => q_temperature
  | BtcPrice => q_btc_price
  | PostgresUp => q_postgres_up
  | NodeUp => q_node_up
  end.

Inductive domain := Database | System | ExternalApi.

Definition rule_domain (r : rule) : domain :=
  match r with
  | Connections | DbSize | PostgresUp => Database
  | CpuUsage | MemoryUsage | NodeUp => System
  | Temperature | BtcPrice => ExternalApi
  end.

(** database -> error, system -> warning, external API -> info *)
Definition domain_category (d : domain) : string :=
  match d with
  | Database => "error"
  | System => "warning"
  | ExternalApi => "info"
  end.

Definition rule_metric (r : rule) : string :=
  match r with
  | Connections => "Active Connections"
  | DbSize => "Database Size"
  | CpuUsage => "CPU Usage"
  | MemoryUsage => "Memory Usage"
  | Temperature => "Weather Temperature"
  | BtcPrice => "Bitcoin Price"
  | PostgresUp => "PostgreSQL Status"
  | NodeUp => "Node Exporter"
  end.

(** The value is strictly past the rule's threshold in the failing
    direction (for a liveness probe: it is 0). *)
Definition past_threshold (r : rule) (x : float) : bool :=
  match r with
  | Connections => gt_int x 50
  | DbSize => gt_int x 1
  | CpuUsage => gt_int x 80
  | MemoryUsage => gt_int x 85
  | Temperature => gt_int x 30
  | BtcPrice => lt_int x 40000
  | PostgresUp | NodeUp => eq_int x 0
  end.

(** The six rules whose condition starts with the truth value of the
    reading; the two liveness rules compare with [== 0] only. *)
Definition truthiness_guarded (r : rule) : bool :=
  match r with
  | PostgresUp | NodeUp => false
  | _ => true
  end.

(** The condition under which the tick notifies for the rule. *)
Definition fires (r : rule) (v : option float) : bool :=
  match v with
  | Some x =>
      (if truthiness_guarded r then float_truthy x else true) && past_threshold r x
  | None => false
  end.

(** The notification of a rule, as [send_alert] receives it. *)
Definition rule_call (r : rule) (v : option float) : alert_call :=
  let facts3 (component : string) (value threshold : text) :=
    Some [("Metric", Str (rule_metric r)); ("Current Value", value);
          ("Threshold", threshold); ("Component", Str component)] in
  let facts2 (value : text) :=
    Some [("Metric", Str (rule_metric r)); ("Current Value", value);
          ("Component", Str "External APIs")] in
  match r with
  | Connections =>
      {| title := "🚨 Database Alert";
         message := FString [Lit "High database connections: "; Fmt plain (the v)];
         alert_type := "error";
         facts := facts3 "PostgreSQL" (Obj (the v)) (Obj (PyInt 50)) |}
  | DbSize =>
      {| title := "🚨 Database Alert";
         message := FString [Lit "Database size is large: "; Fmt ".2f" (the v); Lit " GB"];
         alert_type := "error";
         facts := facts3 "PostgreSQL" (FString [Fmt ".2f" (the v); Lit " GB"]) (Str "1 GB") |}
  | CpuUsage =>
      {| title := "⚠️ System Alert";
         message := FString [Lit "High CPU usage: "; Fmt ".1f" (the v); Lit "%"];
         alert_type := "warning";
         facts := facts3 "System Resources" (FString [Fmt ".1f" (the v); Lit "%"]) (Str "80%") |}
  | MemoryUsage =>
      {| title := "⚠️ System Alert";
         message := FString [Lit "High memory usage: "; Fmt ".1f" (the v); Lit "%"];
         alert_type := "warning";
         facts := facts3 "System Resources" (FString [Fmt ".1f" (the v); Lit "%"]) (Str "85%") |}
  | Temperature =>
      {| title := "🌐 API Alert";
         message := FString [Lit "High temperature in Astana: "; Fmt plain (the v); Lit "°C"];
         alert_type := "info";
         facts := facts2 (FString [Fmt plain (the v); Lit "°C"]) |}
  | BtcPrice =>
      {| title := "🌐 API Alert";
         message := FString [Lit "Bitcoin price dropped: $"; Fmt ",.2f" (the v)];
         alert_type := "info";
         facts := facts2 (FString [Lit "$"; Fmt ",.2f" (the v)]) |}
  | PostgresUp =>
      {| title := "🚨 Database Alert";
         message := Str "PostgreSQL database is down!";
         alert_type := "error";
         facts := facts3 "PostgreSQL" (Str "DOWN") (Str "UP") |}
  | NodeUp =>
      {| title := "⚠️ System Alert";
         message := Str "Node Exporter is not running!";
         alert_type := "warning";
         facts := facts3 "System Resources" (Str "DOWN") (Str "UP") |}
  end.

(** The notifications one tick sends for a rule, given its reading. *)
Definition rule_sends (r : rule) (v : option float) : list alert_call :=
  if fires r v then [rule_call r v] else [].

(** The fact of a notification under a given name. *)
Fixpoint fact (name : string) (d : list (string * text)) : option text :=
  match d with
  | [] => None
  | (k, v) :: d' => if String.eqb name k then Some v else fact name d'
  end.

(** The notification is one of rule [r]: its [Metric] fact is the rule's. *)
Definition for_rule (r : rule) (c : alert_call) : bool :=
  match facts c with
  | Some d =>
      match fact "Metric" d with
      | Some (Obj (PyStr m)) => String.eqb m (rule_metric r)
      | _ => false
      end
  | None => false
  end.

(** A state that has issued [n] GETs and nothing else. *)
Definition at_get (n : nat) : state :=
  {| alert_history := []; sends := []; posted := []; n_get := n;
     n_clock := 0%nat; log := []; slept := [] |}.

(** MetricSource: what [query_prometheus] returns for the query issued
    as the [n]-th GET, a value or [None] for an absent one. *)
Definition metric_source (E : env) (n : nat) (query : string) : option float :=
  match fst (query_prometheus E query (at_get n)) with
  | Ok v => v
  | Raise _ => None
  end.

(** The reading of a rule in the tick that starts in state [s]. *)
Definition reading (E : env) (s : state) (r : rule) : option float :=
  metric_source E (rule_index r + n_get s) (rule_query r).

(** The invocations of [send_alert] made by the tick that starts in [s]. *)
Definition tick_sends (E : env) (s : state) : list alert_call :=
  skipn (List.length (sends s)) (sends (snd (check_alerts E s))).

(** How many of them are notifications of rule [r]. *)
Definition notified (E : env) (s : state) (r : rule) : nat :=
  List.length (filter (for_rule r) (tick_sends E s)).

(** The causes of an absent reading, read off a reply. *)
Definition http_error_status (status : Z) : bool :=
  (400 <=? status) && (status <? 600).

Definition non_2xx (status : Z) : bool :=
  negb ((200 <=? status) && (status <? 300)).

(** The result list of a decoded body, when the body has the shape
    [{"data": {"result": ...}}]. *)
Definition result_of (body : pyval) : option pyval :=
  match getitem body "data" with
  | Ok d => match getitem d "result" with Ok r => Some r | Raise _ => None end
  | Raise _ => None
  end.

(** The first result's sample value [result[0]['value'][1]] as a float. *)
Definition first_value (E : env) (res : pyval) : option float :=
  match getindex res 0 with
  | Ok r0 =>
      match getitem r0 "value" with
      | Ok value =>
          match getindex value 1 with
          | Ok v1 =>
              match to_float (float_of_str E) v1 with
              | Ok x => Some x
              | Raise _ => None
              end
          | Raise _ => None
          end
      | Raise _ => None
      end
  | Raise _ => None
  end.

(** A body is malformed when it is not JSON, lacks the result list, or
    has a non-empty result list without a leading numeric sample. *)
Definition malformed (E : env) (body : option pyval) : bool :=
  match body with
  | None => true
  | Some b =>
      match result_of b with
      | None => true
      | Some res =>
          if truthy res
          then match first_value E res with Some _ => false | None => true end
          else false
      end
  end.

(** The result set is empty (or otherwise false as a condition). *)
Definition empty_result (body : option pyval) : bool :=
  match body with
  | Some b => match result_of b with Some res => negb (truthy res) | None => false end
  | None => false
  end.

(** A reply that leaves the reading absent: no reply at all, an HTTP
    error status, a malformed body, or an empty result set. *)
Definition absent_cause (E : env) (reply : http_reply) : bool :=
  match reply with
  | Failed => true
  | Replied status body =>
      http_error_status status || malformed E body || empty_result body
  end.

Definition rule_eqb (a b : rule) : bool := Nat.eqb (rule_index a) (rule_index b).

(** The webhook answers the next card with status 200. *)
Definition sent_ok (E : env) (s : state) : bool :=
  match webhook E (List.length (posted s)) with
  | Replied status _ => status =? 200
  | Failed => false
  end.

(** The state one round of the monitoring loop ends in. *)
Definition round_outcome (check : M state unit) (s : state) : state :=
  match check s with
  | (Ok _, s') => add_sleep MONITORING_INTERVAL s'
  | (Raise e, s') =>
      add_sleep 10 (add_log ERROR [Lit "Monitoring error: "; FmtExn e] s')
  end.

(** ** The routing of inbound alerts, as a classification *)

Inductive wrapper := DatabaseAlert | SystemAlert | ApiAlert | SuccessAlert.

Definition wrapper_title (w : wrapper) : string :=
  match w with
  | DatabaseAlert => "🚨 Database Alert"
  | SystemAlert => "⚠️ System Alert"
  | ApiAlert => "🌐 API Alert"
  | SuccessAlert => "✅ Service Recovered"
  end.

Definition wrapper_category (w : wrapper) : string :=
  match w with
  | DatabaseAlert => "error"
  | SystemAlert => "warning"
  | ApiAlert => "info"
  | SuccessAlert => "success"
  end.

(** The alert name, status and description of a batch element that has
    its three keys. *)
Definition element_fields (alert : pyval) : option (pyval * pyval * pyval) :=
  match getitem alert "labels" with
  | Ok labels =>
      match get_method labels "alertname" (PyStr "Unknown") with
      | Ok alertname =>
          match getitem alert "status" with
          | Ok status =>
              match getitem alert "annotations" with
              | Ok annotations =>
                  match get_method annotations "description" (PyStr EmptyString) with
                  | Ok description => Some (alertname, status, description)
                  | Raise _ => None
                  end
              | Raise _ => None
              end
          | Raise _ => None
          end
      | Raise _ => None
      end
  | Raise _ => None
  end.

(** The classification by substring of the lower-cased alert name. *)
Definition classify (alertname : string) : wrapper :=
  if contains "database" (lower alertname) then DatabaseAlert
  else if contains "cpu" (lower alertname) || contains "memory" (lower alertname)
       then SystemAlert
       else ApiAlert.

(** The wrapper an element is routed to; [None] for an element that
    cannot be processed. *)
Definition route (alert : pyval) : option wrapper :=
  match element_fields alert with
  | Some (alertname, status, _) =>
      if is_str "resolved" status then Some SuccessAlert
      else match alertname with
           | PyStr name => Some (classify name)
           | _ => None
           end
  | None => None
  end.

(** The text an element's notification carries. *)
Definition routed_message (w : wrapper) (description : pyval) : text :=
  match w with
  | SuccessAlert => FString [Lit "Alert resolved: "; Fmt plain description]
  | _ => Obj description
  end.

(** The name under which a notification reports its subject. *)
Definition subject (c : alert_call) : option text :=
  match facts c with
  | Some d =>
      match fact "Metric" d with
      | Some m => Some m
      | None => fact "Service" d
      end
  | None => None
  end.

(** Notification [c] is the one element [alert] is routed to. *)
Definition routed (alert : pyval) (c : alert_call) : Prop :=
  exists w alertname status description,
    element_fields alert = Some (alertname, status, description) /\
    route alert = Some w /\
    title c = wrapper_title w /\
    alert_type c = wrapper_category w /\
    message c = routed_message w description /\
    subject c = Some (Obj alertname).

(** The status code the endpoint answers with. *)
Definition status_code (E : env) (body : request_body) (s : state) : option Z :=
  match fst (handle_alert E body s) with
  | Ok (_, code) => Some code
  | Raise _ => None
  end.

(** The decoded body is an object with a top-level ["alerts"] key. *)
Definition has_alerts_key (v : pyval) : bool :=
  match v with
  | PyDict d => match lookup "alerts" d with Some _ => true | None => false end
  | _ => false
  end.

(** The request of the specification's routing test. *)
Definition high_cpu_alert : pyval :=
  PyDict [("labels", PyDict [("alertname", PyStr "HighCPUUsage")]);
          ("status", PyStr "firing");
          ("annotations", PyDict [("description", PyStr "cpu hot")])].

Definition high_cpu_request : request_body :=
  Json (PyDict [("alerts", PyList [high_cpu_alert])]).

(** ** Concrete surroundings for examples *)

(** Decimal digits read as an integer: what [float] gives on such a
    string. *)
Fixpoint digits_value (s : string) (acc : Z) : option Z :=
  match s with
  | EmptyString => Some acc
  | String c s' =>
      let n := nat_of_ascii c in
      if (Nat.leb 48 n && Nat.leb n 57)%bool
      then digits_value s' (10 * acc + Z.of_nat (n - 48))
      else None
  end.

Definition float_of_digits (s : string) : option float :=
  match s with
  | EmptyString => None
  | _ => option_map float_of_Z (digits_value s 0)
  end.

(** A response body of the metrics backend with one sample. *)
Definition sample_body (value : string) : pyval :=
  PyDict [("status", PyStr "success");
          ("data", PyDict [("resultType", PyStr "vector");
                           ("result", PyList [PyDict [("metric", PyDict []);
                                                      ("value", PyList [PyInt 1700000000;
                                                                        PyStr value])]])])].

(** A response body of the metrics backend with no sample. *)
Definition empty_body : pyval :=
  PyDict [("status", PyStr "success");
          ("data", PyDict [("resultType", PyStr "vector"); ("result", PyList [])])].

(** A world in which every query has the given reply and the webhook
    accepts every card. *)
Definition constant_world (reply : string -> http_reply) : env :=
  {| prometheus := fun _ q => reply q;
     webhook := fun _ => Replied 200 None;
     clock := fun n => Z.of_nat n;
     float_of_str := float_of_digits |}.

(** Every query is answered with the sample ["0"]. *)
Definition zero_world : env :=
  constant_world (fun _ => Replied 200 (Some (sample_body "0"))).

(** Every query is answered with the sample ["75"]. *)
Definition busy_world : env :=
  constant_world (fun _ => Replied 200 (Some (sample_body "75"))).

(** Every query is answered with the sample ["75"] under status 300. *)
Definition multiple_choices_world : env :=
  constant_world (fun _ => Replied 300 (Some (sample_body "75"))).

(** Every query is answered with an empty result set. *)
Definition quiet_world : env :=
  constant_world (fun _ => Replied 200 (Some empty_body)).

(** The webhook answers every card with status 503. *)
Definition failing_webhook_world : env :=
  {| prometheus := fun _ _ => Replied 200 (Some empty_body);
     webhook := fun _ => Replied 503 None;
     clock := fun n => Z.of_nat n;
     float_of_str := float_of_digits |}.

(** A check that always raises. *)
Definition failing_check : M state unit := raise ValueError.

(** A resolved alert, a firing database alert and an element without
    its ["status"] key. *)
Definition resolved_disk_alert : pyval :=
  PyDict [("labels", PyDict [("alertname", PyStr "Disk")]);
          ("status", PyStr "resolved");
          ("annotations", PyDict [])].

Definition database_down_alert : pyval :=
  PyDict [("labels", PyDict [("alertname", PyStr "DatabaseDown")]);
          ("status", PyStr "firing");
          ("annotations", PyDict [("description", PyStr "no connection")])].

Definition no_status_alert : pyval :=
  PyDict [("labels", PyDict [("alertname", PyStr "Broken")]);
          ("annotations", PyDict [])].

(** ** The rest of the script *)

(** [test_all_alerts] *)
Definition test_all_alerts (E : env) : M state unit :=
  logger_info [Lit "🧪 Testing all alert types..."] ;;;
  database_alert E (Str "Active Connections") (Obj (PyInt 95)) (Obj (PyInt 50))
    (Str "Database connections are above threshold") ;;;
  sleep 2 ;;;
  system_alert E (Str "CPU Usage") (Str "85%") (Str "80%")
    (Str "High CPU usage detected") ;;;
  sleep 2 ;;;
  api_alert E (Str "Weather Temperature") (Str "35°C")
    (Str "High temperature in Astana") ;;;
  sleep 2 ;;;
  success_alert E (Str "PostgreSQL") (Str "Database connections returned to normal") ;;;
  logger_info [Lit "✅ All test alerts sent!"].

(** The card [send_alert] builds at clock reading [now]. *)
Definition card_of (c : alert_call) (now : Z) : card :=
  {| themeColor := colors_get (alert_type c);
     summary := title c;
     activityTitle := title c;
     activitySubtitle := now;
     card_text := message c;
     card_facts := match facts c with Some d => d | None => [] end;
     potentialAction := actions |}.

(** The wrapper a notification went through, by its title and category. *)
Definition wrapper_of (c : alert_call) : option wrapper :=
  if String.eqb (title c) (wrapper_title DatabaseAlert)
     && String.eqb (alert_type c) "error" then Some DatabaseAlert
  else if String.eqb (title c) (wrapper_title SystemAlert)
          && String.eqb (alert_type c) "warning" then Some SystemAlert
  else if String.eqb (title c) (wrapper_title ApiAlert)
          && String.eqb (alert_type c) "info" then Some ApiAlert
  else if String.eqb (title c) (wrapper_title SuccessAlert)
          && String.eqb (alert_type c) "success" then Some SuccessAlert
  else None.

(** The reply makes the query raise inside its [try] block. *)
Definition query_raises (E : env) (reply : http_reply) : bool :=
  match reply with
  | Failed => true
  | Replied status body => http_error_status status || malformed E body
  end.

(** State [s'] continues state [s]: the notifications, the cards and the
    history of [s] are kept and only appended to, one card per
    notification, and every new history entry is marked ["sent"] and
    carries the title of one of the new cards. *)
Definition continues (s s' : state) : Prop :=
  exists calls cards entries,
    sends s' = (sends s ++ calls)%list /\
    posted s' = (posted s ++ cards)%list /\
    alert_history s' = (alert_history s ++ entries)%list /\
    List.length cards = List.length calls /\
    (List.length entries <= List.length cards)%nat /\
    Forall (fun h => h_status h = "sent" /\ In (h_title h) (map summary cards)) entries.

(** The counters of queries and sleeps are the same in both states. *)
Definition same_counters (s s' : state) : Prop :=
  n_get s' = n_get s /\ slept s' = slept s.

(** The history has grown by as many entries as notifications were sent. *)
Definition all_recorded (s s' : state) : Prop :=
  (List.length (alert_history s') + List.length (sends s)
   = List.length (alert_history s) + List.length (sends s'))%nat.

(** The history is the same in both states. *)
Definition same_history (s s' : state) : Prop :=
  alert_history s' = alert_history s.

(** The webhook accepts no card: every POST fails or is answered with a
    status other than 200. *)
Definition never_accepts (E : env) : Prop :=
  forall k, match webhook E k with
            | Replied status _ => status <> 200
            | Failed => True
            end.

(** The webhook answers every card with status 200. *)
Definition always_accepts (E : env) : Prop :=
  forall k, exists body, webhook E k = Replied 200 body.

(** The replies of the metrics backend do not depend on when a query is
    issued. *)
Definition steady (E : env) : Prop :=
  forall n m q, prometheus E n q = prometheus E m q.

(** A world in which the webhook is unreachable and every query yields
    the sample ["75"]. *)
Definition unreachable_webhook_world : env :=
  {| prometheus := fun _ _ => Replied 200 (Some (sample_body "75"));
     webhook := fun _ => Failed;
     clock := fun n => Z.of_nat n;
     float_of_str := float_of_digits |}.

(** A firing alert whose name is a number, and a resolved one. *)
Definition numeric_name_alert (status : string) : pyval :=
  PyDict [("labels", PyDict [("alertname", PyInt 7)]);
          ("status", PyStr status);
          ("annotations", PyDict [("description", PyStr "seven")])].

End Alert.

(* ===================================================================== *)
(** * custom_exporter.py                                                  *)
(* ===================================================================== *)

Module Exporter.
Import Py.
Local Open Scope py_scope.

(** ** The outside world *)

Record env := {
  (** the reply to the [n]-th GET of the process, sent to the given URL *)
  http : nat -> string -> http_reply;
  (** [time.time()] at the [n]-th reading of the clock *)
  time_time : nat -> float;
  (** [float(s)] on strings *)
  float_of_str : string -> option float
}.

(** ** The metrics registry and the program state *)

Inductive level := INFO | ERROR.

Record state := {
  (** gauges by metric name and label values; [None]: no such child *)
  gauges : string -> list string -> option float;
  (** [api_response_time]: the observations, oldest first, by [api_name] *)
  api_response_time : list (string * float);
  (** [error_counter]: the number of [inc()] calls by [api_name] *)
  error_counter : string -> Z;
  (** the module-level [start_time] *)
  start_time : float;
  n_get : nat;                          (* GETs issued *)
  n_clock : nat;                        (* readings of the clock *)
  log : list (level * list piece);      (* logger output, oldest first *)
  slept : list Z                        (* time.sleep calls, oldest first *)
}.

Definition map_gauges
  (f : (string -> list string -> option float) -> string -> list string -> option float)
  (s : state) : state :=
  {| gauges := f (gauges s); api_response_time := api_response_time s;
     error_counter := error_counter s; start_time := start_time s;
     n_get := n_get s; n_clock := n_clock s; log := log s; slept := slept s |}.

Definition add_observation (name : string) (amount : float) (s : state) : state :=
  {| gauges := gauges s; api_response_time := api_response_time s ++ [(name, amount)];
     error_counter := error_counter s; start_time := start_time s;
     n_get := n_get s; n_clock := n_clock s; log := log s; slept := slept s |}.

Definition map_errors (f : (string -> Z) -> string -> Z) (s : state) : state :=
  {| gauges := gauges s; api_response_time := api_response_time s;
     error_counter := f (error_counter s); start_time := start_time s;
     n_get := n_get s; n_clock := n_clock s; log := log s; slept := slept s |}.

Definition count_get (s : state) : state :=
  {| gauges := gauges s; api_response_time := api_response_time s;
     error_counter := error_counter s; start_time := start_time s;
     n_get := S (n_get s); n_clock := n_clock s; log := log s; slept := slept s |}.

Definition count_clock (s : state) : state :=
  {| gauges := gauges s; api_response_time := api_response_time s;
     error_counter := error_counter s; start_time := start_time s;
     n_get := n_get s; n_clock := S (n_clock s); log := log s; slept := slept s |}.

Definition add_log (l : level) (msg : list piece) (s : state) : state :=
  {| gauges := gauges s; api_response_time := api_response_time s;
     error_counter := error_counter s; start_time := start_time s;
     n_get := n_get s; n_clock := n_clock s; log := log s ++ [(l, msg)];
     slept := slept s |}.

Definition add_sleep (secs : Z) (s : state) : state :=
  {| gauges := gauges s; api_response_time := api_response_time s;
     error_counter := error_counter s; start_time := start_time s;
     n_get := n_get s; n_clock := n_clock s; log := log s;
     slept := slept s ++ [secs] |}.

Fixpoint labels_eqb (a b : list string) : bool :=
  match a, b with
  | [], [] => true
  | x :: a', y :: b' => String.eqb x y && labels_eqb a' b'
  | _, _ => false
  end.

Definition update_gauge (name : string) (lbls : list string) (x : float)
  (g : string -> list string -> option float) : string -> list string -> option float :=
  fun name' lbls' =>
    if String.eqb name name' && labels_eqb lbls lbls' then Some x else g name' lbls'.

Definition update_counter (name : string) (c : string -> Z) : string -> Z :=
  fun name' => if String.eqb name name' then c name' + 1 else c name'.

(** ** Primitive effects *)

Definition logger_info (msg : list piece) : M state unit := modify (add_log INFO msg).
Definition logger_error (msg : list piece) : M state unit := modify (add_log ERROR msg).

(** [time.sleep(secs)] *)
Definition sleep (secs : Z) : M state unit := modify (add_sleep secs).

(** A child that is new starts at zero. *)
Definition create_child (name : string) (lbls : list string)
  (g : string -> list string -> option float) : string -> list string -> option float :=
  fun name' lbls' =>
    if String.eqb name name' && labels_eqb lbls lbls'
    then match g name' lbls' with
         | Some x => Some x
         | None => Some (S754_zero false)
         end
    else g name' lbls'.

(** [g.labels(...)]: the child for the label values, created when new. *)
Definition labels (name : string) (lbls : list string) : M state unit :=
  modify (map_gauges (create_child name lbls)).

(** [error_counter.labels(api_name=name).inc()] *)
Definition counter_inc (name : string) : M state unit :=
  modify (map_errors (update_counter name)).

(** [api_response_time.labels(api_name=name).observe(amount)] *)
Definition observe (name : string) (amount : float) : M state unit :=
  modify (add_observation name amount).

Section WithEnv.

Variable E : env.

(** [child.set(value)]: the gauge takes [float(value)]. *)
Definition set (name : string) (lbls : list string) (value : pyval) : M state unit :=
  x <- lift (to_float (float_of_str E) value) ;;
  modify (map_gauges (update_gauge name lbls x)).

(** [time.time()] *)
Definition time_now : M state float :=
  fun s => (Ok (time_time E (n_clock s)), count_clock s).

(** [requests.get(url, ..., timeout=10)] *)
Definition requests_get (url : string) : M state (Z * option pyval) :=
  fun s => (request (http E (n_get s) url), count_get s).

(** ** The four fetches *)

Definition weather_url : string := "https://api.open-meteo.com/v1/forecast".
Definition crypto_url : string :=
  "https://api.coingecko.com/api/v3/simple/price?ids=bitcoin,ethereum&vs_currencies=usd&include_market_cap=true".
Definition usd_url : string := "https://api.exchangerate.host/latest?base=USD&symbols=KZT".
Definition eur_url : string := "https://api.exchangerate.host/latest?base=EUR&symbols=KZT".

Definition astana : list string := ["Astana"; "Kazakhstan"].

Definition fetch_weather_data : M state bool :=
  try_except
    (start_time <- time_now ;;
     response <- requests_get weather_url ;;
     lift (raise_for_status (fst response)) ;;;
     data <- lift (response_json (snd response)) ;;
     current <- lift (getitem data "current_weather") ;;
     hourly <- lift (getitem data "hourly") ;;
     labels "weather_temperature_celsius" astana ;;;
     temperature <- lift (getitem current "temperature") ;;
     set "weather_temperature_celsius" astana temperature ;;;
     labels "weather_windspeed_kmh" astana ;;;
     windspeed <- lift (getitem current "windspeed") ;;
     set "weather_windspeed_kmh" astana windspeed ;;;
     labels "weather_humidity_percent" astana ;;;
     humidity <- lift (getitem hourly "relativehumidity_2m") ;;
     humidity0 <- lift (getindex humidity 0) ;;
     set "weather_humidity_percent" astana humidity0 ;;;
     labels "weather_visibility_km" astana ;;;
     visibility <- lift (getitem hourly "visibility") ;;
     visibility0 <- lift (getindex visibility 0) ;;
     km <- lift (truediv_int visibility0 1000) ;;
     set "weather_visibility_km" astana (PyFloat km) ;;;
     set "weather_api_status" [] (PyInt 1) ;;;
     now <- time_now ;;
     observe "weather" (fsub now start_time) ;;;
     logger_info [Lit "✅ Weather data fetched successfully"] ;;;
     ret true)
    (fun e =>
       set "weather_api_status" [] (PyInt 0) ;;;
       counter_inc "weather" ;;;
       logger_error [Lit "❌ Weather API error: "; FmtExn e] ;;;
       ret false).

Definition fetch_crypto_data : M state bool :=
  try_except
    (start_time <- time_now ;;
     response <- requests_get crypto_url ;;
     lift (raise_for_status (fst response)) ;;;
     data <- lift (response_json (snd response)) ;;
     bitcoin <- lift (getitem data "bitcoin") ;;
     bitcoin_usd <- lift (getitem bitcoin "usd") ;;
     set "crypto_bitcoin_price_usd" [] bitcoin_usd ;;;
     ethereum <- lift (getitem data "ethereum") ;;
     ethereum_usd <- lift (getitem ethereum "usd") ;;
     set "crypto_ethereum_price_usd" [] ethereum_usd ;;;
     bitcoin' <- lift (getitem data "bitcoin") ;;
     bitcoin_cap <- lift (getitem bitcoin' "usd_market_cap") ;;
     ethereum' <- lift (getitem data "ethereum") ;;
     ethereum_cap <- lift (getitem ethereum' "usd_market_cap") ;;
     total_market_cap <- lift (add bitcoin_cap ethereum_cap) ;;
     set "crypto_total_market_cap" [] total_market_cap ;;;
     set "crypto_api_status" [] (PyInt 1) ;;;
     now <- time_now ;;
     observe "crypto" (fsub now start_time) ;;;
     logger_info [Lit "✅ Crypto data fetched successfully"] ;;;
     ret true)
    (fun e =>
       set "crypto_api_status" [] (PyInt 0) ;;;
       counter_inc "crypto" ;;;
       logger_error [Lit "❌ Crypto API error: "; FmtExn e] ;;;
       ret false).

Definition fetch_exchange_rates : M state bool :=
  try_except
    (start_time <- time_now ;;
     response <- requests_get usd_url ;;
     lift (raise_for_status (fst response)) ;;;
     data <- lift (response_json (snd response)) ;;
     rates <- lift (getitem data "rates") ;;
     usd_rate <- lift (getitem rates "KZT") ;;
     set "exchange_rate_usd_kzt" [] usd_rate ;;;
     response_eur <- requests_get eur_url ;;
     lift (raise_for_status (fst response_eur)) ;;;
     data_eur <- lift (response_json (snd response_eur)) ;;
     rates_eur <- lift (getitem data_eur "rates") ;;
     eur_rate <- lift (getitem rates_eur "KZT") ;;
     set "exchange_rate_eur_kzt" [] eur_rate ;;;
     now <- time_now ;;
     observe "exchange" (fsub now start_time) ;;;
     logger_info [Lit "✅ Exchange rates fetched successfully"] ;;;
     ret true)
    (fun e =>
       counter_inc "exchange" ;;;
       logger_error [Lit "❌ Exchange rates API error: "; FmtExn e] ;;;
       ret false).

Definition fetch_static_data : M state bool :=
  try_except
    (labels "city_population" astana ;;;
     set "city_population" astana (PyInt 1300000) ;;;
     t <- time_now ;;
     set "current_unix_timestamp" [] (PyFloat t) ;;;
     t' <- time_now ;;
     set "random_metric_value" [] (PyFloat (float_mod t' 100)) ;;;
     logger_info [Lit "✅ Static data updated"] ;;;
     ret true)
    (fun e =>
       logger_error [Lit "❌ Static data error: "; FmtExn e] ;;;
       ret false).

(** ** The main loop *)

(** The [try] block of one round of [main_loop]. *)
Definition main_loop_body : M state unit :=
  now <- time_now ;;
  start <- gets start_time ;;
  set "exporter_uptime_seconds" [] (PyFloat (fsub now start)) ;;;
  fetch_weather_data ;;;
  fetch_crypto_data ;;;
  fetch_exchange_rates ;;;
  fetch_static_data ;;;
  logger_info [Lit "✅ All metrics updated successfully"].

(** One round of the loop of [main_loop]: [true] when the loop goes
    on, [false] after [break].

    [block] is the [try] block as it runs and [pause] the
    [time.sleep(20)] that follows the [try] statement.  No statement of
    the program raises [KeyboardInterrupt]: Python raises it in the
    main thread wherever Ctrl-C finds the process, in the middle of a
    fetch or of the sleep.  A run that is cut short in this way is a
    block, or a pause, that ends in [Raise KeyboardInterrupt] with
    whatever it had done so far; a run that is left alone is
    [main_loop_body] followed by [sleep 20]. *)
Definition main_loop_round (block pause : M state unit) : M state bool :=
  fun s =>
    match block s with
    | (Ok _, s') => (pause ;;; ret true) s'
    | (Raise KeyboardInterrupt, s') =>
        (logger_info [Lit "🛑 Exporter stopped by user"] ;;; ret false) s'
    | (Raise e, s') =>
        if is_Exception e
        then (logger_error [Lit "❌ Unexpected error in main loop: "; FmtExn e] ;;;
              pause ;;; ret true) s'
        else (Raise e, s')
    end.

(** The loop of [main_loop], unrolled at most [n] times: [Ok true] when
    the loop is still running after [n] rounds, [Ok false] when it has
    been left by [break] and [main_loop] has returned. *)
Fixpoint main_loop_with (block pause : M state unit) (n : nat) : M state bool :=
  match n with
  | O => ret true
  | S k =>
      go_on <- main_loop_round block pause ;;
      if go_on : bool then main_loop_with block pause k else ret false
  end.

(** [main_loop] in a run that no interrupt reaches. *)
Definition main_loop (n : nat) : M state bool :=
  main_loop_with main_loop_body (sleep 20) n.

(** The [try] block of a round in which Ctrl-C arrives while the crypto
    fetch waits for its reply: the uptime gauge is set, the weather
    fetch has returned, and the crypto fetch has read the clock and
    issued its request.  The handler of the fetch, [except Exception],
    does not catch the interrupt. *)
Definition interrupted_in_crypto : M state unit :=
  now <- time_now ;;
  start <- gets start_time ;;
  set "exporter_uptime_seconds" [] (PyFloat (fsub now start)) ;;;
  fetch_weather_data ;;;
  time_now ;;;
  modify count_get ;;;
  raise KeyboardInterrupt.

End WithEnv.

(** ** What a successful fetch reads from a reply *)

(** The raw first hourly visibility value of a weather body. *)
Definition raw_visibility (body : pyval) : option pyval :=
  match getitem body "hourly" with
  | Ok hourly =>
      match getitem hourly "visibility" with
      | Ok visibility =>
          match getindex visibility 0 with
          | Ok v0 => Some v0
          | Raise _ => None
          end
      | Raise _ => None
      end
  | Raise _ => None
  end.

(** The rate [data['rates']['KZT']] of an exchange-rate body. *)
Definition kzt_rate (body : pyval) : option pyval :=
  match getitem body "rates" with
  | Ok rates =>
      match getitem rates "KZT" with
      | Ok rate => Some rate
      | Raise _ => None
      end
  | Raise _ => None
  end.

Definition http_error_status (status : Z) : bool :=
  (400 <=? status) && (status <? 600).

Definition non_2xx (status : Z) : bool :=
  negb ((200 <=? status) && (status <? 300)).

(** The state in which the weather fetch of a round starts: the uptime
    gauge has been set. *)
Definition before_weather (E : env) (s : state) : state :=
  snd ((now <- time_now E ;;
        start <- gets start_time ;;
        set E "exporter_uptime_seconds" [] (PyFloat (fsub now start))) s).

(** The reply the weather fetch of the round starting in [s] receives. *)
Definition weather_reply (E : env) (s : state) : http_reply :=
  http E (n_get s) weather_url.

(** A numeric entry [body[outer][inner]] of a decoded body. *)
Definition entry (E : env) (body : pyval) (outer inner : string) : option float :=
  match getitem body outer with
  | Ok o =>
      match getitem o inner with
      | Ok v => match to_float (float_of_str E) v with Ok x => Some x | Raise _ => None end
      | Raise _ => None
      end
  | Raise _ => None
  end.

(** The first hourly humidity of a weather body. *)
Definition first_humidity (E : env) (body : pyval) : option float :=
  match getitem body "hourly" with
  | Ok hourly =>
      match getitem hourly "relativehumidity_2m" with
      | Ok h =>
          match getindex h 0 with
          | Ok h0 =>
              match to_float (float_of_str E) h0 with Ok x => Some x | Raise _ => None end
          | Raise _ => None
          end
      | Raise _ => None
      end
  | Raise _ => None
  end.

(** The visibility in kilometres of a weather body. *)
Definition visibility_km (body : pyval) : option float :=
  match raw_visibility body with
  | Some v0 => match truediv_int v0 1000 with Ok km => Some km | Raise _ => None end
  | None => None
  end.

Definition is_some {A} (o : option A) : bool :=
  match o with Some _ => true | None => false end.

(** The body has the four readings the weather fetch takes from it. *)
Definition weather_well_formed (E : env) (body : pyval) : bool :=
  is_some (entry E body "current_weather" "temperature")
  && is_some (entry E body "current_weather" "windspeed")
  && is_some (first_humidity E body)
  && is_some (visibility_km body).

(** The weather fetch fails on this reply: no reply at all (connection
    error, timeout), an HTTP error status, or a malformed body. *)
Definition weather_fails (E : env) (reply : http_reply) : bool :=
  match reply with
  | Failed => true
  | Replied status body =>
      http_error_status status
      || match body with
         | Some b => negb (weather_well_formed E b)
         | None => true
         end
  end.

(** ** Concrete surroundings for examples *)

Definition weather_body : pyval :=
  PyDict [("current_weather", PyDict [("temperature", PyFloat (float_of_Z 21));
                                      ("windspeed", PyFloat (float_of_Z 12))]);
          ("hourly", PyDict [("relativehumidity_2m", PyList [PyInt 40; PyInt 42]);
                             ("visibility", PyList [PyFloat (float_of_Z 24140);
                                                    PyFloat (float_of_Z 24000)])])].

Definition crypto_body : pyval :=
  PyDict [("bitcoin", PyDict [("usd", PyInt 65000); ("usd_market_cap", PyInt 1280000000000)]);
          ("ethereum", PyDict [("usd", PyInt 3500); ("usd_market_cap", PyInt 420000000000)])].

Definition rates_body (rate : Z) : pyval :=
  PyDict [("base", PyStr "USD"); ("rates", PyDict [("KZT", PyFloat (float_of_Z rate))])].

(** The replies of the three services when all is well. *)
Definition good_reply (url : string) : http_reply :=
  if String.eqb url weather_url then Replied 200 (Some weather_body)
  else if String.eqb url crypto_url then Replied 200 (Some crypto_body)
  else if String.eqb url usd_url then Replied 200 (Some (rates_body 480))
  else Replied 200 (Some (rates_body 520)).

Definition world_of (reply : string -> http_reply) : env :=
  {| http := fun _ url => reply url;
     time_time := fun n => float_of_Z (1700000000 + Z.of_nat n);
     float_of_str := fun _ => None |}.

Definition good_world : env := world_of good_reply.

(** The weather service times out; the others answer. *)
Definition weather_down_world : env :=
  world_of (fun url => if String.eqb url weather_url then Failed else good_reply url).

(** The weather service answers under status 300 with a complete body. *)
Definition weather_choices_world : env :=
  world_of (fun url => if String.eqb url weather_url
                       then Replied 300 (Some weather_body) else good_reply url).

(** The registry when the process starts: the gauges without labels
    stand at zero. *)
Definition initial_state (E : env) : state :=
  {| gauges := fun name lbls =>
                 match lbls with
                 | [] =>
                     if existsb (String.eqb name)
                          ["crypto_bitcoin_price_usd"; "crypto_ethereum_price_usd";
                           "crypto_total_market_cap"; "exchange_rate_usd_kzt";
                           "exchange_rate_eur_kzt"; "weather_api_status";
                           "crypto_api_status"; "exporter_uptime_seconds";
                           "current_unix_timestamp"; "random_metric_value"]
                     then Some (S754_zero false) else None
                 | _ => None
                 end;
     api_response_time := [];
     error_counter := fun _ => 0;
     start_time := time_time E 0;
     n_get := 0%nat; n_clock := 1%nat; log := []; slept := [] |}.

(** ** Which metrics each fetch owns *)

Definition weather_gauges : list string :=
  ["weather_temperature_celsius"; "weather_windspeed_kmh"; "weather_humidity_percent";
   "weather_visibility_km"; "weather_api_status"].

Definition crypto_gauges : list string :=
  ["crypto_bitcoin_price_usd"; "crypto_ethereum_price_usd"; "crypto_total_market_cap";
   "crypto_api_status"].

Definition exchange_gauges : list string :=
  ["exchange_rate_usd_kzt"; "exchange_rate_eur_kzt"].

Definition static_gauges : list string :=
  ["city_population"; "current_unix_timestamp"; "random_metric_value"].

(** Every gauge outside [owned] reads the same in both states. *)
Definition gauges_outside (owned : list string) (s s' : state) : Prop :=
  forall name lbls, ~ In name owned -> gauges s' name lbls = gauges s name lbls.

(** The sleeps and the start time are the same in both states. *)
Definition same_pace (s s' : state) : Prop :=
  slept s' = slept s /\ start_time s' = start_time s.

(** The entry [body[outer][inner]] of a decoded body, as it is. *)
Definition item (body : pyval) (outer inner : string) : option pyval :=
  match getitem body outer with
  | Ok o => match getitem o inner with Ok v => Some v | Raise _ => None end
  | Raise _ => None
  end.

(** The rate a reply of the exchange-rate service yields, when the
    fetch can use it. *)
Definition rate_of (E : env) (reply : http_reply) : option float :=
  match reply with
  | Replied status (Some body) =>
      if http_error_status status then None
      else match kzt_rate body with
           | Some rate =>
               match to_float (float_of_str E) rate with
               | Ok x => Some x
               | Raise _ => None
               end
           | None => None
           end
  | _ => None
  end.

(** The error counters after a fetch that returned [b], for the label
    the fetch counts its errors under. *)
Definition counted (label : string) (b : bool) (s s' : state) : Prop :=
  forall name,
    error_counter s' name =
      error_counter s name + (if b then 0 else if String.eqb label name then 1 else 0).

(** A weather body whose first hourly visibility is [null]. *)
Definition weather_body_without_visibility : pyval :=
  PyDict [("current_weather", PyDict [("temperature", PyFloat (float_of_Z 21));
                                      ("windspeed", PyFloat (float_of_Z 12))]);
          ("hourly", PyDict [("relativehumidity_2m", PyList [PyInt 40]);
                             ("visibility", PyList [PyNone])])].

Definition hazy_world : env :=
  world_of (fun url => if String.eqb url weather_url
                       then Replied 200 (Some weather_body_without_visibility)
                       else good_reply url).

(** The crypto service answers 503; the EUR rate is missing. *)
Definition crypto_down_world : env :=
  world_of (fun url => if String.eqb url crypto_url then Replied 503 None
                       else good_reply url).

Definition eur_down_world : env :=
  world_of (fun url => if String.eqb url eur_url then Failed else good_reply url).

Definition usd_down_world : env :=
  world_of (fun url => if String.eqb url usd_url then Failed else good_reply url).

End Exporter.

(* ===================================================================== *)
(** * Properties                                                          *)
(* ===================================================================== *)

Import Py.
Local Open Scope list_scope.
Local Open Scope Z_scope.

(** ** Exceptions of the primitive operations *)

Lemma getitem_catchable v k : catchable (getitem v k).
Proof.
  intros e; destruct v; simpl; try (intros [= <-]; reflexivity).
  destruct (lookup k d); intros [= <-]; reflexivity.
Qed.

Lemma get_method_catchable v k d : catchable (get_method v k d).
Proof.
  intros e; destruct v; simpl; try (intros [= <-]; reflexivity).
  destruct (lookup k d0); intros [= <-].
Qed.

Lemma getindex_catchable v i : catchable (getindex v i).
Proof.
  intros e; destruct v; simpl; try (intros [= <-]; reflexivity).
  - destruct (nth_error (chars s) i); intros [= <-]; reflexivity.
  - destruct (nth_error l i); intros [= <-]; reflexivity.
Qed.

Lemma float_of_int_catchable z : catchable (float_of_int z).
Proof.
  intros e. unfold float_of_int.
  destruct (is_infinite (float_of_Z z)); intros [= <-]; reflexivity.
Qed.

Lemma to_float_catchable f v : catchable (to_float f v).
Proof.
  intros e; destruct v; simpl; try (intros [= <-]; reflexivity).
  - apply float_of_int_catchable.
  - destruct (f s); intros [= <-]; reflexivity.
Qed.

Lemma truediv_int_catchable v n : catchable (truediv_int v n).
Proof.
  intros e; destruct v; simpl; try (intros [= <-]; reflexivity).
  - destruct (is_infinite _); intros [= <-]; reflexivity.
  - destruct (is_infinite _); intros [= <-]; reflexivity.
  - unfold float_of_int. destruct (is_infinite _); simpl; intros [= <-]; reflexivity.
Qed.

Lemma add_catchable a b : catchable (add a b).
Proof.
  intros e. unfold add, as_float, float_of_int, rbind.
  destruct a, b; simpl;
    repeat match goal with
           | |- context [is_infinite ?x] => destruct (is_infinite x)
           end;
    intros [= <-]; reflexivity.
Qed.

Lemma request_catchable r : catchable (request r).
Proof. intros e; destruct r; simpl; intros [= <-]; reflexivity. Qed.

Lemma raise_for_status_catchable st : catchable (raise_for_status st).
Proof.
  intros e; unfold raise_for_status.
  destruct ((400 <=? st) && (st <? 600))%bool; intros [= <-]; reflexivity.
Qed.

Lemma response_json_catchable b : catchable (response_json b).
Proof. intros e; destruct b; simpl; intros [= <-]; reflexivity. Qed.

Lemma lower_method_catchable v : catchable (lower_method v).
Proof. intros e; destruct v; simpl; intros [= <-]; reflexivity. Qed.

Lemma contains_key_catchable k v : catchable (contains_key k v).
Proof. intros e; destruct v; simpl; intros [= <-]; reflexivity. Qed.

Lemma iterate_catchable v : catchable (iterate v).
Proof. intros e; destruct v; simpl; intros [= <-]; reflexivity. Qed.

Lemma request_json_catchable b : catchable (Alert.request_json b).
Proof. intros e; destruct b; simpl; intros [= <-]; reflexivity. Qed.

(** In a goal that runs a [try] block, [caught H] replaces the test of
    the handler by [true] for the operation that raised in [H]. *)
Ltac caught H :=
  first [ apply getitem_catchable in H | apply get_method_catchable in H
        | apply getindex_catchable in H | apply to_float_catchable in H
        | apply truediv_int_catchable in H | apply add_catchable in H
        | apply request_catchable in H | apply raise_for_status_catchable in H
        | apply response_json_catchable in H | apply lower_method_catchable in H
        | apply contains_key_catchable in H | apply iterate_catchable in H
        | apply request_json_catchable in H ];
  rewrite H.

(** Case analysis on the next operation that can raise. *)
Ltac next_op :=
  match goal with
  | |- context [match ?r with Ok _ => _ | Raise _ => _ end] =>
      let H := fresh "Hop" in
      destruct r eqn:H; cbn [fst snd]; [ | caught H ]
  end.

(** Case analysis on the next operation, keeping the equation of the
    operation that raised. *)
Ltac next_op_keep :=
  match goal with
  | |- context [match ?r with Ok _ => _ | Raise _ => _ end] =>
      let H := fresh "Hop" in let H' := fresh "Hraise" in
      destruct r eqn:H; cbn [fst snd]; [ | pose proof H as H'; caught H ]
  end.

Ltac run_keep := repeat (next_op_keep; cbn [fst snd]).

Ltac use_ops H :=
  repeat match goal with
         | H1 : ?r = Ok _ |- _ => rewrite H1 in H; clear H1
         | H1 : ?r = Raise _ |- _ => rewrite H1 in H; clear H1
         end.

(** ** The monad *)

Lemma bind_run {S A B} (m : M S A) (k : A -> M S B) s a :
  fst (m s) = Ok a -> bind m k s = k a (snd (m s)).
Proof. unfold bind. destruct (m s) as [r s']. simpl. intros ->. reflexivity. Qed.

Lemma bind_raise {S A B} (m : M S A) (k : A -> M S B) s e :
  fst (m s) = Raise e -> bind m k s = (Raise e, snd (m s)).
Proof. unfold bind. destruct (m s) as [r s']. simpl. intros ->. reflexivity. Qed.

(** ** The notifier *)

Section Notifier.
Import Alert.

Lemma send_alert_spec E t m a f s :
  fst (send_alert E t m a f s) = Ok (sent_ok E s) /\
  sends (snd (send_alert E t m a f s)) =
    sends s ++ [{| title := t; message := m; alert_type := a; facts := f |}] /\
  n_get (snd (send_alert E t m a f s)) = n_get s /\
  List.length (posted (snd (send_alert E t m a f s))) = S (List.length (posted s)) /\
  slept (snd (send_alert E t m a f s)) = slept s.
Proof.
  unfold send_alert, sent_ok, bind, try_except, modify, datetime_now, requests_post,
    request, ret, logger_info, logger_error.
  cbn [fst snd posted add_send count_clock].
  destruct (webhook E (List.length (posted s))) as [|status body]; cbn.
  - rewrite length_app. cbn. repeat split; try reflexivity. lia.
  - destruct (status =? 200); cbn; rewrite length_app; cbn;
      repeat split; try reflexivity; lia.
Qed.

Lemma send_alert_history E t m a f s :
  alert_history (snd (send_alert E t m a f s)) =
    if sent_ok E s
    then alert_history s ++
           [{| h_title := t; h_time := clock E (S (n_clock s)); h_status := "sent" |}]
    else alert_history s.
Proof.
  unfold send_alert, sent_ok, bind, try_except, modify, datetime_now, requests_post,
    request, ret, logger_info, logger_error.
  cbn [fst snd posted add_send count_clock].
  destruct (webhook E (List.length (posted s))) as [|status body]; cbn.
  - reflexivity.
  - destruct (status =? 200); reflexivity.
Qed.

(** C4.  A call of [send_alert] never raises.  When the webhook answers
    200 it returns [True] and the history grows by exactly one entry
    (the card's title); when the webhook answers any other status, or
    the transport fails, it returns [False] and the history is as
    before. *)
Theorem send_alert_outcome E t m a f s :
  (forall body, webhook E (List.length (posted s)) = Replied 200 body ->
     fst (send_alert E t m a f s) = Ok true /\
     exists h, h_title h = t /\
               alert_history (snd (send_alert E t m a f s)) = alert_history s ++ [h]) /\
  (webhook E (List.length (posted s)) = Failed \/
   (exists status body, webhook E (List.length (posted s)) = Replied status body /\
                        status <> 200) ->
     fst (send_alert E t m a f s) = Ok false /\
     alert_history (snd (send_alert E t m a f s)) = alert_history s).
Proof.
  destruct (send_alert_spec E t m a f s) as (Hr & _).
  pose proof (send_alert_history E t m a f s) as Hh.
  split.
  - intros body Hw. unfold sent_ok in *. rewrite Hw in *. cbn in *.
    split; [exact Hr|]. eexists. split; [|exact Hh]. reflexivity.
  - intros [Hw | (status & body & Hw & Hne)]; unfold sent_ok in *; rewrite Hw in *.
    + split; assumption.
    + apply Z.eqb_neq in Hne. rewrite Hne in *. split; assumption.
Qed.

End Notifier.

Lemma send_alert_outcome_witness :
  (fst (Alert.send_alert Alert.quiet_world "t" (Str "m") "info" None Alert.initial_state)
     = Ok true /\
   exists h, Alert.h_title h = "t" /\
     Alert.alert_history
       (snd (Alert.send_alert Alert.quiet_world "t" (Str "m") "info" None Alert.initial_state))
     = Alert.alert_history Alert.initial_state ++ [h]) /\
  (fst (Alert.send_alert Alert.failing_webhook_world "t" (Str "m") "info" None
          Alert.initial_state) = Ok false /\
   Alert.alert_history
     (snd (Alert.send_alert Alert.failing_webhook_world "t" (Str "m") "info" None
             Alert.initial_state))
   = Alert.alert_history Alert.initial_state).
Proof.
  split.
  - apply (proj1 (send_alert_outcome Alert.quiet_world "t" (Str "m") "info" None
                    Alert.initial_state) None).
    reflexivity.
  - apply (proj2 (send_alert_outcome Alert.failing_webhook_world "t" (Str "m") "info" None
                    Alert.initial_state)).
    right. exists 503, None. split; [reflexivity | lia].
Defined.

(** ** The metric source and the rule evaluator *)

Section Monitor.
Import Alert.

Lemma query_prometheus_spec E q s :
  fst (query_prometheus E q s) = Ok (metric_source E (n_get s) q) /\
  sends (snd (query_prometheus E q s)) = sends s /\
  posted (snd (query_prometheus E q s)) = posted s /\
  alert_history (snd (query_prometheus E q s)) = alert_history s /\
  slept (snd (query_prometheus E q s)) = slept s /\
  n_get (snd (query_prometheus E q s)) = S (n_get s).
Proof.
  unfold metric_source, query_prometheus, try_except, bind, requests_get, lift, ret,
    logger_error, modify.
  cbn [fst snd n_get at_get].
  repeat (first [ next_op | destruct (truthy _) ]; cbn [fst snd]);
    repeat split; reflexivity.
Qed.

(** The reading is absent exactly when the reply is one of the causes. *)
Lemma metric_source_absent E n q :
  metric_source E n q = None <-> absent_cause E (prometheus E n q) = true.
Proof.
  unfold metric_source, query_prometheus, try_except, bind, requests_get, lift, ret,
    logger_error, modify, absent_cause, malformed, empty_result, result_of, first_value.
  cbn [fst snd n_get at_get].
  destruct (prometheus E n q) as [|status body]; cbn [request fst snd].
  - split; reflexivity.
  - unfold raise_for_status, http_error_status.
    destruct ((400 <=? status) && (status <? 600))%bool; cbn [fst snd is_Exception orb].
    + split; reflexivity.
    + destruct body as [b|]; cbn [response_json fst snd is_Exception orb].
      * repeat (first [ next_op | destruct (truthy _) ]; cbn [fst snd negb orb]);
          split; first [ reflexivity | discriminate ].
      * split; reflexivity.
Qed.

Lemma when_send_spec E (c : bool) t m a f s :
  fst (when c (send_alert E t m a f) s) = Ok tt /\
  sends (snd (when c (send_alert E t m a f) s)) =
    sends s ++ (if c then [{| title := t; message := m; alert_type := a; facts := f |}]
                else []) /\
  n_get (snd (when c (send_alert E t m a f) s)) = n_get s /\
  slept (snd (when c (send_alert E t m a f) s)) = slept s.
Proof.
  unfold when. destruct c.
  - destruct (send_alert_spec E t m a f s) as (Hr & Hs & Hn & _ & Hsl).
    rewrite (bind_run _ _ _ _ Hr). cbn. auto.
  - cbn. rewrite app_nil_r. auto.
Qed.

(** One step of the tick: a query, with the facts about the state it
    leaves rewritten to speak of the state the tick started in. *)
Ltac step_query s0 Hs Hn Hsl :=
  match goal with
  | |- context [bind (query_prometheus ?E' ?q) ?k s0] =>
      let Hr := fresh "Hr" in let Hs' := fresh "Hs" in let Hn' := fresh "Hn" in
      let Hsl' := fresh "Hsl" in let s1 := fresh "s" in
      destruct (query_prometheus_spec E' q s0) as (Hr & Hs' & _ & _ & Hsl' & Hn');
      rewrite (bind_run (query_prometheus E' q) k s0 _ Hr);
      clear Hr;
      set (s1 := snd (query_prometheus E' q s0)) in *;
      clearbody s1;
      rewrite Hs in Hs'; rewrite Hn in Hn'; rewrite Hsl in Hsl'; rewrite ?Hn;
      clear Hs Hn Hsl; clear s0;
      rename Hs' into Hs; rename Hn' into Hn; rename Hsl' into Hsl; rename s1 into s0
  end.

(** One step of the tick: a guarded notification. *)
Ltac step_when s0 Hs Hn Hsl :=
  match goal with
  | |- context [bind (when ?c (send_alert ?E' ?t ?m ?a ?f)) ?k s0] =>
      let Hr := fresh "Hr" in let Hs' := fresh "Hs" in let Hn' := fresh "Hn" in
      let Hsl' := fresh "Hsl" in let s1 := fresh "s" in
      destruct (when_send_spec E' c t m a f s0) as (Hr & Hs' & Hn' & Hsl');
      rewrite (bind_run (when c (send_alert E' t m a f)) k s0 _ Hr);
      clear Hr;
      set (s1 := snd (when c (send_alert E' t m a f) s0)) in *;
      clearbody s1;
      rewrite Hs in Hs'; rewrite Hn in Hn'; rewrite Hsl in Hsl';
      clear Hs Hn Hsl; clear s0;
      rename Hs' into Hs; rename Hn' into Hn; rename Hsl' into Hsl; rename s1 into s0
  end.

(** A tick returns normally, and the notifications it sends are those
    of the rule table, in the order of the rules. *)
Lemma check_alerts_spec E s :
  fst (check_alerts E s) = Ok tt /\
  sends (snd (check_alerts E s)) =
    sends s ++ List.concat (map (fun r => rule_sends r (reading E s r)) rules) /\
  n_get (snd (check_alerts E s)) = (8 + n_get s)%nat /\
  slept (snd (check_alerts E s)) = slept s.
Proof.
  unfold check_alerts, database_alert, system_alert, api_alert.
  rewrite (bind_run (logger_info _) _ s tt eq_refl).
  set (s0 := snd (logger_info _ s)).
  assert (Hs : sends s0 = sends s) by reflexivity.
  assert (Hn : n_get s0 = n_get s) by reflexivity.
  assert (Hsl : slept s0 = slept s) by reflexivity.
  clearbody s0.
  do 7 (step_query s0 Hs Hn Hsl; step_when s0 Hs Hn Hsl).
  step_query s0 Hs Hn Hsl.
  match goal with
  | |- context [when ?c (send_alert _ ?t ?m ?a ?f) s0] =>
      destruct (when_send_spec E c t m a f s0) as (Hr & Hs' & Hn' & Hsl')
  end.
  rewrite Hr, Hs', Hn', Hsl', Hs, Hn, Hsl.
  split; [reflexivity|]. split; [|split; reflexivity].
  cbn [List.concat map rules]. rewrite app_nil_r.
  repeat rewrite <- app_assoc. reflexivity.
Qed.

Lemma tick_sends_table E s :
  tick_sends E s = List.concat (map (fun r => rule_sends r (reading E s r)) rules).
Proof.
  unfold tick_sends.
  destruct (check_alerts_spec E s) as (_ & -> & _).
  rewrite skipn_app, skipn_all, Nat.sub_diag. reflexivity.
Qed.

Lemma for_rule_call r r' v : for_rule r (rule_call r' v) = rule_eqb r r'.
Proof. destruct r, r'; reflexivity. Qed.

Lemma filter_rule_sends r r' v :
  filter (for_rule r) (rule_sends r' v) = if rule_eqb r r' then rule_sends r' v else [].
Proof.
  unfold rule_sends. destruct (fires r' v); cbn [filter].
  - rewrite for_rule_call. destruct (rule_eqb r r'); reflexivity.
  - destruct (rule_eqb r r'); reflexivity.
Qed.

(** The notifications of one rule in a tick. *)
Lemma tick_filter E s r :
  filter (for_rule r) (tick_sends E s) = rule_sends r (reading E s r).
Proof.
  rewrite tick_sends_table. cbn [rules map List.concat].
  repeat rewrite filter_app. repeat rewrite filter_rule_sends.
  destruct r; cbn [rule_eqb rule_index Nat.eqb app filter]; rewrite ?app_nil_r;
    reflexivity.
Qed.

Lemma notified_fires E s r :
  notified E s r = if fires r (reading E s r) then 1%nat else 0%nat.
Proof.
  unfold notified. rewrite tick_filter. unfold rule_sends.
  destruct (fires r (reading E s r)); reflexivity.
Qed.

Lemma rule_call_category r v :
  alert_type (rule_call r v) = domain_category (rule_domain r).
Proof. destruct r; reflexivity. Qed.

Lemma float_truthy_nonzero x :
  float_truthy x = match x with S754_zero _ => false | _ => true end.
Proof. destruct x as [sx|sx| |sx m e]; try reflexivity; destruct sx; reflexivity. Qed.

(** Past a positive threshold, a value is not zero. *)
Lemma past_threshold_truthy r x :
  r <> BtcPrice -> truthiness_guarded r = true ->
  past_threshold r x = true -> float_truthy x = true.
Proof.
  intros Hr Hg Hp. rewrite float_truthy_nonzero.
  destruct x as [sx|sx| |sx m e]; try reflexivity.
  destruct r; try discriminate Hg; try (exfalso; apply Hr; reflexivity);
    vm_compute in Hp; discriminate Hp.
Qed.

Lemma fires_past r x :
  past_threshold r x = true ->
  (r = BtcPrice -> float_truthy x = true) ->
  fires r (Some x) = true.
Proof.
  intros Hp Hb. unfold fires. rewrite Hp, andb_true_r.
  destruct (truthiness_guarded r) eqn:Hg; [|reflexivity].
  destruct r; try discriminate Hg;
    try (apply (past_threshold_truthy _ x) in Hp; [exact Hp | discriminate | reflexivity]).
  apply Hb. reflexivity.
Qed.

(** C1, as amended.  For every rule of the table: when the reading is
    present and strictly past the threshold in the failing direction
    and, for the bitcoin price rule, is not zero, one tick of
    [check_alerts] notifies exactly once for the rule, through the
    wrapper of the rule's domain (database: error, system: warning,
    external API: info). *)
Theorem breach_notifies_once E s r x :
  reading E s r = Some x ->
  past_threshold r x = true ->
  (r = BtcPrice -> float_truthy x = true) ->
  notified E s r = 1%nat /\
  filter (for_rule r) (tick_sends E s) = [rule_call r (Some x)] /\
  forall c, In c (tick_sends E s) -> for_rule r c = true ->
            alert_type c = domain_category (rule_domain r).
Proof.
  intros Hv Hp Hb.
  pose proof (fires_past r x Hp Hb) as Hf.
  assert (Hfil : filter (for_rule r) (tick_sends E s) = [rule_call r (Some x)]).
  { rewrite tick_filter, Hv. unfold rule_sends. rewrite Hf. reflexivity. }
  split; [|split].
  - unfold notified. rewrite Hfil. reflexivity.
  - exact Hfil.
  - intros c Hin Hc.
    assert (Hin' : In c (filter (for_rule r) (tick_sends E s))).
    { apply filter_In. split; assumption. }
    rewrite Hfil in Hin'. destruct Hin' as [<-|[]].
    apply rule_call_category.
Qed.

(** C3, as amended.  A rule whose reading is absent is not notified in
    the tick; and the reading of a query is absent exactly when the
    request fails in transport, the reply has an HTTP error status
    (400 to 599), the body is malformed, or the result set is empty. *)
Theorem absent_reading_is_silent E s r :
  (reading E s r = None -> notified E s r = 0%nat) /\
  (forall n q, absent_cause E (prometheus E n q) = true <-> metric_source E n q = None).
Proof.
  split.
  - intros Hv. rewrite notified_fires, Hv. reflexivity.
  - intros n q. symmetry. apply metric_source_absent.
Qed.

(** C9.  A reading of zero (of either sign) counts as no reading for
    the six rules guarded by the truth value of the reading: none of
    them notifies, although zero is strictly below the bitcoin
    threshold.  The two liveness rules notify on zero. *)
Theorem zero_reading E s r sx :
  reading E s r = Some (S754_zero sx) ->
  notified E s r = (if truthiness_guarded r then 0 else 1)%nat /\
  filter (for_rule r) (tick_sends E s) =
    (if truthiness_guarded r then rule_sends r None else [rule_call r (Some (S754_zero sx))]) /\
  past_threshold BtcPrice (S754_zero sx) = true /\
  (truthiness_guarded r = false <-> r = PostgresUp \/ r = NodeUp).
Proof.
  intros Hv. rewrite notified_fires, tick_filter, Hv.
  repeat split.
  - destruct r; reflexivity.
  - destruct r; reflexivity.
  - destruct r; try discriminate; auto.
  - intros [-> | ->]; reflexivity.
Qed.

End Monitor.

Lemma breach_notifies_once_witness :
  Alert.notified Alert.busy_world Alert.initial_state Alert.Connections = 1%nat /\
  filter (Alert.for_rule Alert.Connections)
         (Alert.tick_sends Alert.busy_world Alert.initial_state)
    = [Alert.rule_call Alert.Connections (Some (float_of_Z 75))] /\
  forall c, In c (Alert.tick_sends Alert.busy_world Alert.initial_state) ->
            Alert.for_rule Alert.Connections c = true ->
            Alert.alert_type c = "error"%string.
Proof.
  apply (breach_notifies_once Alert.busy_world Alert.initial_state Alert.Connections
           (float_of_Z 75)).
  - vm_compute. reflexivity.
  - vm_compute. reflexivity.
  - discriminate.
Defined.

(** C1, as stated, fails: a bitcoin price of zero is a present reading
    strictly below the threshold of 40000, and the tick sends nothing
    for the rule. *)
Lemma zero_price_not_notified :
  Alert.reading Alert.zero_world Alert.initial_state Alert.BtcPrice
    = Some (S754_zero false) /\
  Alert.past_threshold Alert.BtcPrice (S754_zero false) = true /\
  Alert.notified Alert.zero_world Alert.initial_state Alert.BtcPrice = 0%nat.
Proof. vm_compute. repeat split. Qed.

Lemma absent_reading_is_silent_witness :
  Alert.notified Alert.quiet_world Alert.initial_state Alert.CpuUsage = 0%nat /\
  Alert.metric_source Alert.quiet_world 2 Alert.q_cpu_usage = None.
Proof.
  split.
  - apply (proj1 (absent_reading_is_silent Alert.quiet_world Alert.initial_state
                    Alert.CpuUsage)).
    vm_compute. reflexivity.
  - apply (proj2 (absent_reading_is_silent Alert.quiet_world Alert.initial_state
                    Alert.CpuUsage) 2%nat Alert.q_cpu_usage).
    vm_compute. reflexivity.
Defined.

(** C3, as stated, fails on its list of causes: a reply under status
    300, which is not a 2xx status, with a well-formed body gives a
    present reading, and the rule is notified. *)
Lemma status_300_reading_is_present :
  Alert.prometheus Alert.multiple_choices_world 0 Alert.q_connections
    = Replied 300 (Some (Alert.sample_body "75")) /\
  Alert.non_2xx 300 = true /\
  Alert.metric_source Alert.multiple_choices_world 0 Alert.q_connections
    = Some (float_of_Z 75) /\
  Alert.notified Alert.multiple_choices_world Alert.initial_state Alert.Connections = 1%nat.
Proof. vm_compute. repeat split. Qed.

Lemma zero_reading_witness :
  Alert.notified Alert.zero_world Alert.initial_state Alert.BtcPrice = 0%nat /\
  filter (Alert.for_rule Alert.BtcPrice)
         (Alert.tick_sends Alert.zero_world Alert.initial_state) = [] /\
  Alert.past_threshold Alert.BtcPrice (S754_zero false) = true /\
  (Alert.truthiness_guarded Alert.BtcPrice = false <->
   Alert.BtcPrice = Alert.PostgresUp \/ Alert.BtcPrice = Alert.NodeUp).
Proof.
  apply (zero_reading Alert.zero_world Alert.initial_state Alert.BtcPrice false).
  vm_compute. reflexivity.
Defined.

(** ** The monitoring loop *)

Section MonitorLoop.
Import Alert.

Lemma monitoring_round_spec (check : M state unit) :
  (forall s e, fst (check s) = Raise e -> is_Exception e = true) ->
  forall s, monitoring_round check s = (Ok tt, round_outcome check s).
Proof.
  intros Hcheck s.
  unfold monitoring_round, round_outcome, try_except, bind, sleep, logger_error, modify.
  specialize (Hcheck s).
  destruct (check s) as [[[]|e] s']; cbn [fst snd] in *.
  - reflexivity.
  - rewrite (Hcheck e eq_refl). reflexivity.
Qed.

Lemma while_true_running (body : M state unit) :
  (forall s, fst (body s) = Ok tt) ->
  forall n s, fst (while_true n body s) = Ok tt.
Proof.
  intros Hbody n. induction n as [|n IH]; intros s; cbn [while_true].
  - reflexivity.
  - rewrite (bind_run body _ s tt (Hbody s)). apply IH.
Qed.

Lemma check_alerts_round E s :
  monitoring_round (check_alerts E) s =
    (Ok tt, add_sleep MONITORING_INTERVAL (snd (check_alerts E s))).
Proof.
  rewrite monitoring_round_spec.
  - unfold round_outcome. destruct (check_alerts_spec E s) as (Hr & _).
    destruct (check_alerts E s) as [r s']. cbn [fst snd] in *. rewrite Hr. reflexivity.
  - intros s0 e He. destruct (check_alerts_spec E s0) as (Hr & _). congruence.
Qed.

Lemma monitoring_rounds_sleep E n :
  forall s,
    fst (while_true n (monitoring_round (check_alerts E)) s) = Ok tt /\
    slept (snd (while_true n (monitoring_round (check_alerts E)) s)) =
      slept s ++ repeat MONITORING_INTERVAL n.
Proof.
  induction n as [|n IH]; intros s; cbn [while_true repeat].
  - cbn. rewrite app_nil_r. auto.
  - rewrite (bind_run (monitoring_round (check_alerts E)) _ s tt)
      by (rewrite check_alerts_round; reflexivity).
    rewrite check_alerts_round. cbn [snd].
    destruct (IH (add_sleep MONITORING_INTERVAL (snd (check_alerts E s)))) as (Hr & Hs).
    split; [exact Hr|]. rewrite Hs. cbn [slept add_sleep].
    destruct (check_alerts_spec E s) as (_ & _ & _ & ->).
    rewrite <- app_assoc. reflexivity.
Qed.

(** The loop after one more round: the round runs in the state the
    rounds before it have left. *)
Lemma while_true_last {S} (body : M S unit) :
  (forall s, fst (body s) = Ok tt) ->
  forall n s, while_true (Datatypes.S n) body s = body (snd (while_true n body s)).
Proof.
  intros Hbody n. induction n as [|n IH]; intros s.
  - cbn [while_true]. rewrite (bind_run body _ s tt (Hbody s)). cbn [ret snd].
    specialize (Hbody s). destruct (body s) as [r s']. cbn [fst snd] in *.
    rewrite Hbody. reflexivity.
  - change (while_true (Datatypes.S (Datatypes.S n)) body s)
      with (bind body (fun _ => while_true (Datatypes.S n) body) s).
    rewrite (bind_run body _ s tt (Hbody s)). rewrite IH.
    cbn [while_true]. rewrite (bind_run body _ s tt (Hbody s)). reflexivity.
Qed.

Lemma monitoring_rounds_queries E n :
  forall s,
    n_get (snd (while_true n (monitoring_round (check_alerts E)) s)) =
      (n_get s + 8 * n)%nat.
Proof.
  induction n as [|n IH]; intros s; cbn [while_true].
  - cbn. lia.
  - rewrite (bind_run (monitoring_round (check_alerts E)) _ s tt)
      by (rewrite check_alerts_round; reflexivity).
    rewrite check_alerts_round. cbn [snd]. rewrite IH. cbn [n_get add_sleep].
    destruct (check_alerts_spec E s) as (_ & _ & -> & _). lia.
Qed.

(** C7.  Provided the check raises nothing but [Exception]s, a round of
    the loop of [start_monitoring] always ends normally: after a check
    that returned it has slept the 30-second interval, after a check
    that raised it has logged the error and slept 10 seconds.  The loop
    itself starts from the state with its start-up line logged, and its
    round [n + 1] calls the check in the state the first [n] rounds have
    left and then sleeps 30 seconds, or logs the error and sleeps 10
    seconds when the check raised.  Hence the loop is still running
    after any number of rounds: it neither returns nor lets an
    exception out.  With [check_alerts] itself every round is one
    evaluation followed by the 30-second sleep, so [n] rounds are [n]
    evaluations of eight queries each and [n] sleeps of 30 seconds. *)
Theorem monitoring_never_stops (check : M state unit) n s :
  (forall s' e, fst (check s') = Raise e -> is_Exception e = true) ->
  monitoring_round check s = (Ok tt, round_outcome check s) /\
  round_outcome check s =
    match check s with
    | (Ok _, s') => add_sleep 30 s'
    | (Raise e, s') => add_sleep 10 (add_log ERROR [Lit "Monitoring error: "; FmtExn e] s')
    end /\
  fst (start_monitoring_with check n s) = Ok tt /\
  start_monitoring_with check 0 s =
    (Ok tt, add_log INFO [Lit "🚀 Starting continuous monitoring..."] s) /\
  start_monitoring_with check (Datatypes.S n) s =
    (Ok tt,
     match check (snd (start_monitoring_with check n s)) with
     | (Ok _, s') => add_sleep 30 s'
     | (Raise e, s') => add_sleep 10 (add_log ERROR [Lit "Monitoring error: "; FmtExn e] s')
     end) /\
  forall E,
    fst (start_monitoring E n s) = Ok tt /\
    start_monitoring E (Datatypes.S n) s =
      (Ok tt, add_sleep 30 (snd (check_alerts E (snd (start_monitoring E n s))))) /\
    slept (snd (start_monitoring E n s)) = slept s ++ repeat 30 n /\
    n_get (snd (start_monitoring E n s)) = (n_get s + 8 * n)%nat.
Proof.
  intros Hcheck.
  assert (Hround : forall s0, fst (monitoring_round check s0) = Ok tt).
  { intros s0. rewrite monitoring_round_spec by exact Hcheck. reflexivity. }
  split; [|split; [|split; [|split; [|split]]]].
  - apply monitoring_round_spec, Hcheck.
  - reflexivity.
  - unfold start_monitoring_with.
    rewrite (bind_run (logger_info _) _ s tt eq_refl).
    apply while_true_running. exact Hround.
  - reflexivity.
  - unfold start_monitoring_with.
    rewrite !(bind_run (logger_info _) _ s tt eq_refl).
    rewrite (while_true_last _ Hround).
    apply monitoring_round_spec, Hcheck.
  - intros E. unfold start_monitoring, start_monitoring_with.
    rewrite (bind_run (logger_info _) _ s tt eq_refl).
    match goal with
    | |- context [while_true n _ ?s0] =>
        destruct (monitoring_rounds_sleep E n s0) as (Hr & Hs);
        pose proof (monitoring_rounds_queries E n s0) as Hq
    end.
    split; [exact Hr|].
    split; [|split; [rewrite Hs; reflexivity | rewrite Hq; reflexivity]].
    rewrite (bind_run (logger_info _) _ s tt eq_refl).
    rewrite while_true_last
      by (intros s0; rewrite check_alerts_round; reflexivity).
    apply check_alerts_round.
Qed.

End MonitorLoop.

Lemma monitoring_never_stops_witness :
  Alert.monitoring_round Alert.failing_check Alert.initial_state
    = (Ok tt, Alert.round_outcome Alert.failing_check Alert.initial_state) /\
  Alert.round_outcome Alert.failing_check Alert.initial_state
    = Alert.add_sleep 10
        (Alert.add_log Alert.ERROR [Lit "Monitoring error: "; FmtExn ValueError]
           Alert.initial_state) /\
  fst (Alert.start_monitoring_with Alert.failing_check 2 Alert.initial_state) = Ok tt /\
  Alert.start_monitoring_with Alert.failing_check 0 Alert.initial_state =
    (Ok tt, Alert.add_log Alert.INFO [Lit "🚀 Starting continuous monitoring..."]
              Alert.initial_state) /\
  Alert.start_monitoring_with Alert.failing_check 3 Alert.initial_state =
    (Ok tt,
     Alert.add_sleep 10
       (Alert.add_log Alert.ERROR [Lit "Monitoring error: "; FmtExn ValueError]
          (snd (Alert.start_monitoring_with Alert.failing_check 2 Alert.initial_state)))) /\
  forall E,
    fst (Alert.start_monitoring E 2 Alert.initial_state) = Ok tt /\
    Alert.start_monitoring E 3 Alert.initial_state =
      (Ok tt,
       Alert.add_sleep 30
         (snd (Alert.check_alerts E (snd (Alert.start_monitoring E 2 Alert.initial_state))))) /\
    Alert.slept (snd (Alert.start_monitoring E 2 Alert.initial_state))
      = Alert.slept Alert.initial_state ++ repeat 30 2 /\
    Alert.n_get (snd (Alert.start_monitoring E 2 Alert.initial_state))
      = (Alert.n_get Alert.initial_state + 8 * 2)%nat.
Proof.
  apply (monitoring_never_stops Alert.failing_check 2 Alert.initial_state).
  intros s' e H. cbn in H. injection H as <-. reflexivity.
Defined.

(** ** The alert server *)

Section Ingress.
Import Alert.

Lemma lift_run {A B} (r : result A) (k : A -> M state B) s :
  bind (lift r) k s = match r with Ok a => k a s | Raise e => (Raise e, s) end.
Proof. unfold bind, lift. destruct r; reflexivity. Qed.

Ltac split_fields H :=
  repeat match type of H with
         | context [match ?r with Ok _ => _ | Raise _ => _ end] =>
             destruct r eqn:?; try discriminate H
         end.

Lemma wrapper_call_spec E w (metric : pyval) (description : pyval) s :
  w <> SuccessAlert ->
  let run :=
    match w with
    | DatabaseAlert =>
        database_alert E (Obj metric) (Str "Problem detected") (Str "Normal") (Obj description)
    | SystemAlert =>
        system_alert E (Obj metric) (Str "Problem detected") (Str "Normal") (Obj description)
    | _ => api_alert E (Obj metric) (Str "Problem detected") (Obj description)
    end in
  exists b c,
    fst (run s) = Ok b /\
    sends (snd (run s)) = sends s ++ [c] /\
    List.length (posted (snd (run s))) = S (List.length (posted s)) /\
    title c = wrapper_title w /\ alert_type c = wrapper_category w /\
    message c = Obj description /\ subject c = Some (Obj metric).
Proof.
  intros Hw run. subst run.
  destruct w; try (exfalso; apply Hw; reflexivity);
    unfold database_alert, system_alert, api_alert;
    match goal with
    | |- context [send_alert E ?t ?m ?a ?f s] =>
        destruct (send_alert_spec E t m a f s) as (Hr & Hs & _ & Hp & _)
    end;
    eexists; eexists; (split; [exact Hr|]); (split; [exact Hs|]); (split; [exact Hp|]);
    repeat split.
Qed.

Lemma success_alert_spec E (service : pyval) (description : pyval) s :
  let run := success_alert E (Obj service)
               (FString [Lit "Alert resolved: "; Fmt plain description]) in
  exists b c,
    fst (run s) = Ok b /\
    sends (snd (run s)) = sends s ++ [c] /\
    List.length (posted (snd (run s))) = S (List.length (posted s)) /\
    title c = wrapper_title SuccessAlert /\ alert_type c = wrapper_category SuccessAlert /\
    message c = routed_message SuccessAlert description /\
    subject c = Some (Obj service).
Proof.
  intros run. subst run. unfold success_alert.
  rewrite (bind_run (datetime_now E) _ s _ eq_refl).
  match goal with
  | |- context [send_alert E ?t ?m ?a ?f ?s0] =>
      destruct (send_alert_spec E t m a f s0) as (Hr & Hs & _ & Hp & _)
  end.
  eexists; eexists; (split; [exact Hr|]); (split; [exact Hs|]); (split; [exact Hp|]).
  repeat split.
Qed.

Lemma process_routed E alert w s :
  route alert = Some w ->
  fst (process_prometheus_alert E alert s) = Ok tt /\
  exists c,
    sends (snd (process_prometheus_alert E alert s)) = sends s ++ [c] /\
    List.length (posted (snd (process_prometheus_alert E alert s)))
      = S (List.length (posted s)) /\
    routed alert c.
Proof.
  intros Hroute.
  assert (Hroute' := Hroute).
  unfold route in Hroute.
  destruct (element_fields alert) as [[[alertname status] description]|] eqn:Hfields;
    [|discriminate].
  assert (Hfields' := Hfields).
  unfold element_fields in Hfields.
  split_fields Hfields. injection Hfields as -> -> ->.
  unfold process_prometheus_alert.
  repeat (rewrite lift_run;
          match goal with
          | H : ?r = Ok _ |- context [match ?r with Ok _ => _ | Raise _ => _ end] =>
              rewrite H
          end).
  destruct (is_str "resolved" status) eqn:Hres.
  - injection Hroute as <-.
    destruct (success_alert_spec E alertname description s)
      as (b & c & Hr & Hs & Hp & Ht & Ha & Hm & Hsub).
    cbn beta iota zeta in Hr, Hs, Hp.
    rewrite (bind_run _ _ _ _ Hr). cbn [ret fst snd].
    split; [reflexivity|]. exists c. split; [exact Hs|]. split; [exact Hp|].
    exists SuccessAlert, alertname, status, description. repeat split; assumption.
  - destruct alertname as [| | | |name| |]; try discriminate Hroute.
    injection Hroute as <-.
    assert (Hcall : forall w', w' = classify name -> w' <> SuccessAlert).
    { intros w' ->. unfold classify.
      destruct (contains "database" (lower name));
        [|destruct (contains "cpu" (lower name) || contains "memory" (lower name))];
        discriminate. }
    pose proof (fun w' H => wrapper_call_spec E w' (PyStr name) description s (Hcall w' H))
      as Hspec.
    cbv [bind lift ret lower_method]. unfold classify in *.
    destruct (contains "database" (lower name)) eqn:Hdb;
      [|destruct (contains "cpu" (lower name)) eqn:Hcpu;
        [|destruct (contains "memory" (lower name)) eqn:Hmem]];
      cbn [orb] in *;
      destruct (Hspec _ eq_refl) as (b & c & Hr & Hs & Hp & Ht & Ha & Hm & Hsub);
      cbn beta iota zeta in Hr, Hs, Hp;
      match type of Hr with
      | fst ?run = _ => destruct run as [r s']
      end;
      cbn [fst snd] in *; subst r;
      (split; [reflexivity|]); exists c; (split; [exact Hs|]); (split; [exact Hp|]);
      eexists _, (PyStr name), status, description;
      (split; [exact Hfields'|]); (split; [exact Hroute'|]);
      repeat split; assumption.
Qed.

Lemma process_unroutable E alert s :
  route alert = None ->
  exists e, process_prometheus_alert E alert s = (Raise e, s) /\ is_Exception e = true.
Proof.
  unfold route, element_fields, process_prometheus_alert.
  intros Hroute. cbv [bind lift ret].
  destruct (getitem alert "labels") as [labels|e] eqn:H1;
    [|exists e; split; [reflexivity | exact (getitem_catchable _ _ _ H1)]].
  destruct (get_method labels "alertname" (PyStr "Unknown")) as [alertname|e] eqn:H2;
    [|exists e; split; [reflexivity | exact (get_method_catchable _ _ _ _ H2)]].
  destruct (getitem alert "status") as [status|e] eqn:H3;
    [|exists e; split; [reflexivity | exact (getitem_catchable _ _ _ H3)]].
  destruct (getitem alert "annotations") as [annotations|e] eqn:H4;
    [|exists e; split; [reflexivity | exact (getitem_catchable _ _ _ H4)]].
  destruct (get_method annotations "description" (PyStr EmptyString)) as [description|e] eqn:H5;
    [|exists e; split; [reflexivity | exact (get_method_catchable _ _ _ _ H5)]].
  destruct (is_str "resolved" status); [discriminate|].
  destruct alertname; try discriminate Hroute;
    exists AttributeError; split; reflexivity.
Qed.

Lemma for_each_routed E l :
  Forall (fun a => route a <> None) l ->
  forall s,
    fst (for_each l (process_prometheus_alert E) s) = Ok tt /\
    exists calls,
      sends (snd (for_each l (process_prometheus_alert E) s)) = sends s ++ calls /\
      Forall2 routed l calls /\
      List.length (posted (snd (for_each l (process_prometheus_alert E) s)))
        = (List.length (posted s) + List.length l)%nat.
Proof.
  induction 1 as [|a l Ha Hl IH]; intros s; cbn [for_each].
  - split; [reflexivity|]. exists []. cbn. rewrite app_nil_r, Nat.add_0_r. auto.
  - destruct (route a) as [w|] eqn:Hw; [|contradiction].
    destruct (process_routed E a w s Hw) as (Hr & c & Hs & Hp & Hc).
    rewrite (bind_run _ _ _ _ Hr).
    destruct (IH (snd (process_prometheus_alert E a s))) as (Hr' & calls & Hs' & Hf & Hp').
    split; [exact Hr'|]. exists (c :: calls).
    rewrite Hs', Hs, Hp', Hp, <- app_assoc. cbn. repeat split; auto; lia.
Qed.

Lemma for_each_stops E pre bad post :
  Forall (fun a => route a <> None) pre ->
  route bad = None ->
  forall s,
    exists e,
      fst (for_each (pre ++ bad :: post) (process_prometheus_alert E) s) = Raise e /\
      is_Exception e = true /\
      exists calls,
        sends (snd (for_each (pre ++ bad :: post) (process_prometheus_alert E) s))
          = sends s ++ calls /\
        Forall2 routed pre calls /\
        List.length (posted (snd (for_each (pre ++ bad :: post)
                                     (process_prometheus_alert E) s)))
          = (List.length (posted s) + List.length pre)%nat.
Proof.
  intros Hpre Hbad. induction Hpre as [|a l Ha Hl IH]; intros s; cbn [for_each app].
  - destruct (process_unroutable E bad s Hbad) as (e & He & Hc).
    exists e. rewrite (bind_raise _ _ s e) by (rewrite He; reflexivity).
    rewrite He. cbn [fst snd]. split; [reflexivity|]. split; [exact Hc|].
    exists []. cbn. rewrite app_nil_r, Nat.add_0_r. auto.
  - destruct (route a) as [w|] eqn:Hw; [|contradiction].
    destruct (process_routed E a w s Hw) as (Hr & c & Hs & Hp & Hc).
    rewrite (bind_run _ _ _ _ Hr).
    destruct (IH (snd (process_prometheus_alert E a s)))
      as (e & He & Hex & calls & Hs' & Hf & Hp').
    exists e. split; [exact He|]. split; [exact Hex|]. exists (c :: calls).
    rewrite Hs', Hs, Hp', Hp, <- app_assoc. cbn. repeat split; auto; lia.
Qed.

Lemma handle_alert_list E d l s :
  lookup "alerts" d = Some (PyList l) ->
  handle_alert E (Json (PyDict d)) s =
    match for_each l (process_prometheus_alert E) s with
    | (Ok _, s') => (Ok (Success, 200), s')
    | (Raise e, s') =>
        if is_Exception e
        then (Ok (ErrorOf e, 500), add_log ERROR [Lit "Error processing alert: "; FmtExn e] s')
        else (Raise e, s')
    end.
Proof.
  intros Hd.
  unfold handle_alert, try_except. cbv [bind lift ret request_json contains_key getitem iterate].
  assert (Ht : truthy (PyDict d) = true) by (destruct d; [discriminate | reflexivity]).
  rewrite Ht, Hd. cbn [negb].
  destruct (for_each l (process_prometheus_alert E) s) as [[[]|e] s']; [reflexivity|].
  destruct (is_Exception e); reflexivity.
Qed.

(** C2, as amended.  [POST /alert] answers 400 whenever the body decodes
    to an object without a top-level ["alerts"] key or to any value
    that is false as a condition; in particular posting [{}] answers
    400.  A body that fails to decode as JSON makes [request.json]
    raise inside the [try] block, and the answer is 500. *)
Theorem invalid_body_status E s :
  (forall d, lookup "alerts" d = None -> status_code E (Json (PyDict d)) s = Some 400) /\
  (forall v, truthy v = false -> status_code E (Json v) s = Some 400) /\
  status_code E (Json (PyDict [])) s = Some 400 /\
  status_code E Unparsable s = Some 500.
Proof.
  unfold status_code, handle_alert, try_except.
  cbv [bind lift ret request_json contains_key].
  repeat split.
  - intros d Hd. rewrite Hd. destruct (truthy (PyDict d)); reflexivity.
  - intros v Hv. rewrite Hv. reflexivity.
Qed.

(** C5.  Every element the endpoint can process sends exactly one
    notification, through the wrapper it is routed to, with the alert
    name as subject: the recovery wrapper when the status is
    ["resolved"] (its text is the description after ["Alert resolved: "]);
    otherwise, by the lower-cased alert name, the database wrapper when
    it contains ["database"], else the system wrapper when it contains
    ["cpu"] or ["memory"], else the API wrapper, each with the
    description as text.  The firing alert ["HighCPUUsage"] goes
    through the system wrapper and the request is answered 200. *)
Theorem alerts_are_routed E s :
  (forall alert w,
     route alert = Some w ->
     fst (process_prometheus_alert E alert s) = Ok tt /\
     exists c, sends (snd (process_prometheus_alert E alert s)) = sends s ++ [c] /\
               routed alert c) /\
  (forall alert alertname status description,
     element_fields alert = Some (alertname, status, description) ->
     route alert =
       if is_str "resolved" status then Some SuccessAlert
       else match alertname with
            | PyStr name =>
                Some (if contains "database" (lower name) then DatabaseAlert
                      else if contains "cpu" (lower name) || contains "memory" (lower name)
                           then SystemAlert
                           else ApiAlert)
            | _ => None
            end) /\
  (status_code E high_cpu_request s = Some 200 /\
   exists c, sends (snd (handle_alert E high_cpu_request s)) = sends s ++ [c] /\
             title c = wrapper_title SystemAlert /\
             alert_type c = "warning" /\
             message c = Str "cpu hot" /\
             subject c = Some (Str "HighCPUUsage")).
Proof.
  split; [|split].
  - intros alert w Hw.
    destruct (process_routed E alert w s Hw) as (Hr & c & Hs & _ & Hc).
    split; [exact Hr|]. exists c. auto.
  - intros alert alertname status description Hf. unfold route. rewrite Hf. reflexivity.
  - unfold status_code, high_cpu_request.
    rewrite (handle_alert_list E [("alerts", PyList [high_cpu_alert])] [high_cpu_alert] s
               eq_refl).
    cbn [for_each].
    destruct (process_routed E high_cpu_alert SystemAlert s eq_refl)
      as (Hr & c & Hs & _ & (w & n & st & de & Hf & Hw & Ht & Ha & Hm & Hsub)).
    rewrite (bind_run _ _ _ _ Hr). cbn [ret fst snd].
    split; [reflexivity|]. exists c.
    injection Hf as <- <- <-. injection Hw as <-.
    repeat split; assumption.
Qed.

(** An element without its ["labels"] key, or with a ["labels"] object
    and without its ["status"] key, raises [KeyError] and is routed
    nowhere. *)
Lemma missing_key_raises E s fields :
  lookup "labels" fields = None \/
  ((exists l, lookup "labels" fields = Some (PyDict l)) /\
   lookup "status" fields = None) ->
  route (PyDict fields) = None /\
  fst (process_prometheus_alert E (PyDict fields) s) = Raise KeyError.
Proof.
  unfold route, element_fields, process_prometheus_alert.
  cbv [bind lift ret getitem].
  intros [H | [[l Hl] H]].
  - rewrite H. split; reflexivity.
  - rewrite Hl. cbn [get_method].
    destruct (lookup "alertname" l); rewrite H; split; reflexivity.
Qed.

(** C10.  A batch is processed element by element in list order.  When
    an element cannot be processed (it raises), the request is answered
    500, and yet every element before it has been routed: its
    notification was sent, and its card was submitted to the webhook. *)
Theorem batch_is_not_atomic E s d pre bad post :
  lookup "alerts" d = Some (PyList (pre ++ bad :: post)) ->
  Forall (fun a => route a <> None) pre ->
  route bad = None ->
  (status_code E (Json (PyDict d)) s = Some 500 /\
   exists calls,
     sends (snd (handle_alert E (Json (PyDict d)) s)) = sends s ++ calls /\
     Forall2 routed pre calls /\
     List.length (posted (snd (handle_alert E (Json (PyDict d)) s)))
       = (List.length (posted s) + List.length pre)%nat) /\
  (forall fields,
     lookup "labels" fields = None \/
     ((exists l, lookup "labels" fields = Some (PyDict l)) /\
      lookup "status" fields = None) ->
     route (PyDict fields) = None /\
     fst (process_prometheus_alert E (PyDict fields) s) = Raise KeyError).
Proof.
  intros Hd Hpre Hbad. split.
  - unfold status_code.
    rewrite (handle_alert_list E d _ s Hd).
    destruct (for_each_stops E pre bad post Hpre Hbad s)
      as (e & He & Hex & calls & Hs & Hf & Hp).
    destruct (for_each (pre ++ bad :: post) (process_prometheus_alert E) s) as [r s'].
    cbn [fst snd] in *. subst r. rewrite Hex. cbn [fst snd].
    split; [reflexivity|]. exists calls. auto.
  - apply missing_key_raises.
Qed.

End Ingress.

Lemma invalid_body_status_witness :
  Alert.status_code Alert.quiet_world
    (Alert.Json (PyDict [("status", PyStr "firing")])) Alert.initial_state = Some 400 /\
  Alert.status_code Alert.quiet_world (Alert.Json PyNone) Alert.initial_state = Some 400.
Proof.
  destruct (invalid_body_status Alert.quiet_world Alert.initial_state) as (H1 & H2 & _).
  split.
  - apply H1. reflexivity.
  - apply H2. reflexivity.
Defined.

(** C2, as stated, fails: a body that is not JSON is answered 500, and so
    is a body that decodes to a number, which has no ["alerts"] key. *)
Lemma unparsable_body_is_500 :
  Alert.status_code Alert.quiet_world Alert.Unparsable Alert.initial_state = Some 500 /\
  Alert.has_alerts_key (PyInt 5) = false /\
  Alert.status_code Alert.quiet_world (Alert.Json (PyInt 5)) Alert.initial_state = Some 500.
Proof. vm_compute. repeat split. Qed.

Lemma alerts_are_routed_witness :
  fst (Alert.process_prometheus_alert Alert.quiet_world Alert.resolved_disk_alert
         Alert.initial_state) = Ok tt /\
  exists c,
    Alert.sends (snd (Alert.process_prometheus_alert Alert.quiet_world
                        Alert.resolved_disk_alert Alert.initial_state))
      = Alert.sends Alert.initial_state ++ [c] /\
    Alert.routed Alert.resolved_disk_alert c.
Proof.
  apply (proj1 (alerts_are_routed Alert.quiet_world Alert.initial_state)
           Alert.resolved_disk_alert Alert.SuccessAlert).
  reflexivity.
Defined.

Lemma batch_is_not_atomic_witness :
  let body :=
    Alert.Json (PyDict [("alerts", PyList [Alert.database_down_alert;
                                           Alert.no_status_alert;
                                           Alert.high_cpu_alert])]) in
  Alert.status_code Alert.quiet_world body Alert.initial_state = Some 500 /\
  exists calls,
    Alert.sends (snd (Alert.handle_alert Alert.quiet_world body Alert.initial_state))
      = Alert.sends Alert.initial_state ++ calls /\
    Forall2 Alert.routed [Alert.database_down_alert] calls /\
    List.length (Alert.posted (snd (Alert.handle_alert Alert.quiet_world body
                                      Alert.initial_state)))
      = (List.length (Alert.posted Alert.initial_state) + 1)%nat.
Proof.
  refine (proj1 (batch_is_not_atomic Alert.quiet_world Alert.initial_state
                   [("alerts", PyList [Alert.database_down_alert; Alert.no_status_alert;
                                       Alert.high_cpu_alert])]
                   [Alert.database_down_alert] Alert.no_status_alert
                   [Alert.high_cpu_alert] _ _ _)).
  - reflexivity.
  - constructor; [vm_compute; discriminate | constructor].
  - reflexivity.
Defined.

(** ** The exporter *)

Section Fetches.
Import Exporter.

Lemma to_float_zero f : to_float f (PyInt 0) = Ok (S754_zero false).
Proof. reflexivity. Qed.

Lemma to_float_one f : to_float f (PyInt 1) = Ok (float_of_Z 1).
Proof. reflexivity. Qed.

Lemma to_float_population f : to_float f (PyInt 1300000) = Ok (float_of_Z 1300000).
Proof. reflexivity. Qed.

Ltac unfold_fetch :=
  unfold fetch_weather_data, fetch_crypto_data, fetch_exchange_rates, fetch_static_data;
  unfold set, labels, time_now, requests_get, observe, logger_info, logger_error,
    counter_inc;
  unfold try_except, bind, lift, ret, modify, gets;
  rewrite ?to_float_zero, ?to_float_one, ?to_float_population;
  cbn [fst snd to_float].

Ltac run_fetch := repeat (next_op; rewrite ?to_float_zero; cbn [fst snd]).

Lemma fetch_crypto_frame E s :
  (exists b, fst (fetch_crypto_data E s) = Ok b) /\
  gauges (snd (fetch_crypto_data E s)) "weather_api_status" []
    = gauges s "weather_api_status" [] /\
  error_counter (snd (fetch_crypto_data E s)) "weather" = error_counter s "weather" /\
  n_get (snd (fetch_crypto_data E s)) = S (n_get s).
Proof.
  unfold_fetch. run_fetch; (split; [eexists; reflexivity|]); repeat split.
Qed.
Lemma fetch_exchange_frame E s :
  (exists b, fst (fetch_exchange_rates E s) = Ok b) /\
  gauges (snd (fetch_exchange_rates E s)) "weather_api_status" []
    = gauges s "weather_api_status" [] /\
  error_counter (snd (fetch_exchange_rates E s)) "weather" = error_counter s "weather" /\
  (S (n_get s) <= n_get (snd (fetch_exchange_rates E s)))%nat.
Proof.
  unfold_fetch. run_fetch; (split; [eexists; reflexivity|]); repeat split;
    cbn [n_get count_get count_clock map_gauges map_errors add_observation add_log];
    lia.
Qed.

Lemma fetch_static_frame E s :
  fst (fetch_static_data E s) = Ok true /\
  gauges (snd (fetch_static_data E s)) "weather_api_status" []
    = gauges s "weather_api_status" [] /\
  error_counter (snd (fetch_static_data E s)) "weather" = error_counter s "weather" /\
  n_get (snd (fetch_static_data E s)) = n_get s /\
  gauges (snd (fetch_static_data E s)) "city_population" astana
    = Some (float_of_Z 1300000).
Proof.
  unfold_fetch. repeat split.
Qed.

(** The weather fetch on a failing reply. *)
Lemma fetch_weather_failure E s :
  weather_fails E (http E (n_get s) weather_url) = true ->
  fst (fetch_weather_data E s) = Ok false /\
  gauges (snd (fetch_weather_data E s)) "weather_api_status" [] = Some (S754_zero false) /\
  error_counter (snd (fetch_weather_data E s)) "weather" = error_counter s "weather" + 1 /\
  n_get (snd (fetch_weather_data E s)) = S (n_get s).
Proof.
  intros Hfail. unfold_fetch.
  cbn [n_get count_clock].
  unfold weather_fails, weather_well_formed, entry, first_humidity, visibility_km,
    raw_visibility in Hfail.
  destruct (http E (n_get s) weather_url) as [|status [body|]];
    cbn [request fst snd response_json is_Exception] in *.
  - repeat split.
  - unfold raise_for_status. unfold http_error_status in Hfail.
    destruct ((400 <=? status) && (status <? 600))%bool;
      cbn [fst snd is_Exception orb] in *; [repeat split|].
    run_fetch; try (split; [reflexivity|]; repeat split; fail).
    exfalso.
    repeat match goal with
           | H : ?r = Ok _ |- _ => rewrite H in Hfail
           end.
    cbn in Hfail. discriminate Hfail.
  - unfold raise_for_status.
    destruct ((400 <=? status) && (status <? 600))%bool;
      cbn [fst snd is_Exception]; repeat split.
Qed.
Lemma request_ok r a : request r = Ok a -> r = Replied (fst a) (snd a).
Proof. destruct r; simpl; [discriminate|]. intros [= <-]. reflexivity. Qed.

Lemma response_json_ok b v : response_json b = Ok v -> b = Some v.
Proof. destruct b; simpl; [|discriminate]. intros [= <-]. reflexivity. Qed.

Lemma replied_body r a v :
  request r = Ok a -> response_json (snd a) = Ok v -> r = Replied (fst a) (Some v).
Proof.
  intros Hr Hj. apply request_ok in Hr. apply response_json_ok in Hj.
  rewrite Hr, Hj. reflexivity.
Qed.

Lemma fetch_exchange_success E s :
  fst (fetch_exchange_rates E s) = Ok true ->
  exists st1 b1 st2 b2 r1 r2 x1 x2,
    http E (n_get s) usd_url = Replied st1 (Some b1) /\
    http E (S (n_get s)) eur_url = Replied st2 (Some b2) /\
    kzt_rate b1 = Some r1 /\ kzt_rate b2 = Some r2 /\
    to_float (float_of_str E) r1 = Ok x1 /\
    to_float (float_of_str E) r2 = Ok x2 /\
    gauges (snd (fetch_exchange_rates E s)) "exchange_rate_usd_kzt" [] = Some x1 /\
    gauges (snd (fetch_exchange_rates E s)) "exchange_rate_eur_kzt" [] = Some x2.
Proof.
  unfold kzt_rate. unfold_fetch. cbn [n_get count_clock count_get map_gauges].
  run_fetch; intros H; try discriminate H.
  cbn [n_get count_clock count_get map_gauges] in *.
  match goal with
  | H1 : request (http E (n_get s) usd_url) = Ok ?a,
    J1 : response_json (snd ?a) = Ok ?b1,
    H2 : request (http E (S (n_get s)) eur_url) = Ok ?a',
    J2 : response_json (snd ?a') = Ok ?b2 |- _ =>
      exists (fst a), b1, (fst a'), b2;
      rewrite (replied_body _ _ _ H1 J1), (replied_body _ _ _ H2 J2)
  end.
  repeat match goal with
         | H : getitem _ _ = Ok _ |- _ => rewrite H; clear H
         end.
  do 4 eexists. repeat split; eassumption.
Qed.

Lemma fetch_weather_success E s :
  fst (fetch_weather_data E s) = Ok true ->
  exists st body v0 km,
    http E (n_get s) weather_url = Replied st (Some body) /\
    raw_visibility body = Some v0 /\
    truediv_int v0 1000 = Ok km /\
    gauges (snd (fetch_weather_data E s)) "weather_visibility_km" astana = Some km.
Proof.
  unfold raw_visibility. unfold_fetch. cbn [n_get count_clock count_get map_gauges].
  run_fetch; intros H; try discriminate H.
  cbn [n_get count_clock count_get map_gauges] in *.
  match goal with
  | H1 : request (http E (n_get s) weather_url) = Ok ?a,
    J1 : response_json (snd ?a) = Ok ?b1 |- _ =>
      exists (fst a), b1; rewrite (replied_body _ _ _ H1 J1)
  end.
  repeat match goal with
         | H : getitem _ _ = Ok _ |- _ => rewrite H; clear H
         | H : getindex _ _ = Ok _ |- _ => rewrite H; clear H
         end.
  do 2 eexists. repeat split; eassumption.
Qed.

Lemma main_loop_body_run E s :
  let s0 := before_weather E s in
  let s1 := snd (fetch_weather_data E s0) in
  let s2 := snd (fetch_crypto_data E s1) in
  let s3 := snd (fetch_exchange_rates E s2) in
  let s4 := snd (fetch_static_data E s3) in
  (exists b, fst (fetch_weather_data E s0) = Ok b) ->
  main_loop_body E s =
    (Ok tt, add_log INFO [Lit "✅ All metrics updated successfully"] s4).
Proof.
  intros s0 s1 s2 s3 s4 [b Hw].
  destruct (fetch_crypto_frame E s1) as ([b2 Hc] & _).
  destruct (fetch_exchange_frame E s2) as ([b3 Hx] & _).
  destruct (fetch_static_frame E s3) as (Hs & _).
  unfold main_loop_body.
  rewrite (bind_run (time_now E) _ s _ eq_refl).
  rewrite (bind_run (gets start_time) _ _ _ eq_refl).
  match goal with
  | |- context [bind (set E ?n ?l ?v) ?k ?s1] =>
      rewrite (bind_run (set E n l v) k s1 tt eq_refl);
      change (snd (set E n l v s1)) with s0
  end.
  rewrite (bind_run _ _ s0 _ Hw). fold s1.
  rewrite (bind_run _ _ s1 _ Hc). fold s2.
  rewrite (bind_run _ _ s2 _ Hx). fold s3.
  rewrite (bind_run _ _ s3 _ Hs). fold s4.
  reflexivity.
Qed.

(** C6, as amended.  In a round of the exporter in which the weather
    fetch fails (the request fails in transport, as on a timeout; the
    reply has an HTTP error status, 400 to 599; or the body is
    malformed), the fetch returns [False] without raising, the weather
    status gauge stands at 0 at the end of the round, the error counter
    labelled ["weather"] is one more than before, and the crypto,
    exchange-rate and static fetches of the round run after it and
    return normally. *)
Theorem weather_failure_is_contained E s :
  let s0 := before_weather E s in
  let s1 := snd (fetch_weather_data E s0) in
  let s2 := snd (fetch_crypto_data E s1) in
  let s3 := snd (fetch_exchange_rates E s2) in
  let s4 := snd (fetch_static_data E s3) in
  let s' := snd (main_loop_body E s) in
  weather_fails E (weather_reply E s) = true ->
  fst (fetch_weather_data E s0) = Ok false /\
  gauges s' "weather_api_status" [] = Some (S754_zero false) /\
  error_counter s' "weather" = error_counter s "weather" + 1 /\
  fst (main_loop_body E s) = Ok tt /\
  s' = add_log INFO [Lit "✅ All metrics updated successfully"] s4 /\
  (exists b, fst (fetch_crypto_data E s1) = Ok b) /\
  (exists b, fst (fetch_exchange_rates E s2) = Ok b) /\
  fst (fetch_static_data E s3) = Ok true /\
  (n_get s + 3 <= n_get s')%nat /\
  gauges s' "city_population" astana = Some (float_of_Z 1300000).
Proof.
  intros s0 s1 s2 s3 s4 s' Hfail.
  assert (Hn0 : n_get s0 = n_get s) by reflexivity.
  assert (He0 : error_counter s0 "weather" = error_counter s "weather") by reflexivity.
  unfold weather_reply in Hfail. rewrite <- Hn0 in Hfail.
  destruct (fetch_weather_failure E s0 Hfail) as (Hw & Hg1 & He1 & Hn1).
  destruct (fetch_crypto_frame E s1) as (Hc & Hg2 & He2 & Hn2).
  destruct (fetch_exchange_frame E s2) as (Hx & Hg3 & He3 & Hn3).
  destruct (fetch_static_frame E s3) as (Hs & Hg4 & He4 & Hn4 & Hpop).
  fold s1 in Hg1, He1, Hn1, Hg2, He2, Hn2. fold s2 in Hg2, He2, Hn2, Hg3, He3, Hn3.
  fold s3 in Hg3, He3, Hn3, Hg4, He4, Hn4, Hpop. fold s4 in Hg4, He4, Hn4, Hpop.
  assert (Hrun : main_loop_body E s =
                 (Ok tt, add_log INFO [Lit "✅ All metrics updated successfully"] s4)).
  { apply main_loop_body_run. exists false. exact Hw. }
  subst s'. rewrite Hrun. cbn [fst snd gauges error_counter n_get add_log].
  repeat split; try assumption.
  - congruence.
  - congruence.
  - lia.
Qed.

(** The weather fetch on a reply that is not a failure. *)
Lemma fetch_weather_returns E s :
  weather_fails E (http E (n_get s) weather_url) = false ->
  fst (fetch_weather_data E s) = Ok true.
Proof.
  intros Hfail.
  unfold weather_fails, weather_well_formed in Hfail.
  unfold entry, first_humidity, visibility_km, raw_visibility in *.
  unfold_fetch. cbn [n_get count_clock].
  destruct (http E (n_get s) weather_url) as [|status [body|]];
    cbn [request fst snd response_json is_Exception negb] in *;
    rewrite ?orb_true_r in Hfail; try discriminate Hfail.
  unfold raise_for_status. unfold http_error_status in Hfail.
  destruct ((400 <=? status) && (status <? 600))%bool;
    cbn [fst snd is_Exception orb negb] in *; [discriminate Hfail|].
  run_keep;
    try (exfalso; use_ops Hfail; cbn [is_some negb andb] in Hfail;
         rewrite ?andb_false_r in Hfail; cbn [is_some negb andb] in Hfail;
         discriminate Hfail).
  reflexivity.
Qed.

(** The exchange-rate fetch on two replies that yield a rate. *)
Lemma fetch_exchange_returns E s x1 x2 :
  rate_of E (http E (n_get s) usd_url) = Some x1 ->
  rate_of E (http E (S (n_get s)) eur_url) = Some x2 ->
  fst (fetch_exchange_rates E s) = Ok true /\
  gauges (snd (fetch_exchange_rates E s)) "exchange_rate_usd_kzt" [] = Some x1 /\
  gauges (snd (fetch_exchange_rates E s)) "exchange_rate_eur_kzt" [] = Some x2.
Proof.
  unfold rate_of, kzt_rate.
  unfold_fetch. cbn [n_get count_clock count_get map_gauges].
  unfold raise_for_status, http_error_status.
  destruct (http E (n_get s) usd_url) as [|st1 [b1|]]; try discriminate.
  cbn [request fst snd response_json].
  destruct ((400 <=? st1) && (st1 <? 600))%bool; [discriminate|].
  cbn [fst snd].
  destruct (getitem b1 "rates") as [r1|]; [|discriminate].
  destruct (getitem r1 "KZT") as [k1|]; [|discriminate].
  destruct (to_float (float_of_str E) k1) as [x|]; [|discriminate].
  intros [= ->]. cbn [fst snd n_get count_clock count_get map_gauges].
  destruct (http E (S (n_get s)) eur_url) as [|st2 [b2|]]; try discriminate.
  cbn [request fst snd response_json].
  destruct ((400 <=? st2) && (st2 <? 600))%bool; [discriminate|].
  cbn [fst snd].
  destruct (getitem b2 "rates") as [r2|]; [|discriminate].
  destruct (getitem r2 "KZT") as [k2|]; [|discriminate].
  destruct (to_float (float_of_str E) k2) as [y|]; [|discriminate].
  intros [= ->].
  cbn [fst snd]. repeat split.
Qed.

(** C8.  The exchange-rate fetch succeeds whenever both replies yield
    a rate, and the weather fetch whenever its reply is not a failure.
    After a successful exchange-rate fetch each of the two gauges holds
    the float of the rate [rates.KZT] of its own reply; after a
    successful weather fetch the visibility gauge holds the first raw
    hourly visibility divided by 1000.  A rate that is a float is
    stored as it is, and a float visibility is divided in binary64. *)
Theorem gauges_hold_parsed_values E s :
  (forall x1 x2,
     rate_of E (http E (n_get s) usd_url) = Some x1 ->
     rate_of E (http E (S (n_get s)) eur_url) = Some x2 ->
     fst (fetch_exchange_rates E s) = Ok true /\
     gauges (snd (fetch_exchange_rates E s)) "exchange_rate_usd_kzt" [] = Some x1 /\
     gauges (snd (fetch_exchange_rates E s)) "exchange_rate_eur_kzt" [] = Some x2) /\
  (fst (fetch_exchange_rates E s) = Ok true ->
   exists st1 b1 st2 b2 r1 r2 x1 x2,
     http E (n_get s) usd_url = Replied st1 (Some b1) /\
     http E (S (n_get s)) eur_url = Replied st2 (Some b2) /\
     kzt_rate b1 = Some r1 /\ kzt_rate b2 = Some r2 /\
     to_float (float_of_str E) r1 = Ok x1 /\
     to_float (float_of_str E) r2 = Ok x2 /\
     gauges (snd (fetch_exchange_rates E s)) "exchange_rate_usd_kzt" [] = Some x1 /\
     gauges (snd (fetch_exchange_rates E s)) "exchange_rate_eur_kzt" [] = Some x2) /\
  (forall status body,
     http E (n_get s) weather_url = Replied status (Some body) ->
     weather_fails E (Replied status (Some body)) = false ->
     fst (fetch_weather_data E s) = Ok true /\
     (exists v0 km,
        raw_visibility body = Some v0 /\ truediv_int v0 1000 = Ok km /\
        gauges (snd (fetch_weather_data E s)) "weather_visibility_km" astana = Some km)) /\
  (fst (fetch_weather_data E s) = Ok true ->
   exists st body v0 km,
     http E (n_get s) weather_url = Replied st (Some body) /\
     raw_visibility body = Some v0 /\
     truediv_int v0 1000 = Ok km /\
     gauges (snd (fetch_weather_data E s)) "weather_visibility_km" astana = Some km) /\
  (forall x, to_float (float_of_str E) (PyFloat x) = Ok x) /\
  (forall x, truediv_int (PyFloat x) 1000 = Ok (fdiv x (float_of_Z 1000))).
Proof.
  split; [|split; [|split; [|split; [|split]]]].
  - apply fetch_exchange_returns.
  - apply fetch_exchange_success.
  - intros status body Hreply Hfail.
    rewrite <- Hreply in Hfail.
    pose proof (fetch_weather_returns E s Hfail) as Hr.
    split; [exact Hr|].
    destruct (fetch_weather_success E s Hr) as (st & body' & v0 & km & Hb & Hv & Hk & Hg).
    rewrite Hreply in Hb. injection Hb as _ <-.
    exists v0, km. auto.
  - apply fetch_weather_success.
  - reflexivity.
  - reflexivity.
Qed.

End Fetches.

Lemma weather_failure_is_contained_witness :
  let s' := snd (Exporter.main_loop_body Exporter.weather_down_world
                   (Exporter.initial_state Exporter.weather_down_world)) in
  Exporter.gauges s' "weather_api_status" [] = Some (S754_zero false) /\
  Exporter.error_counter s' "weather" = 1 /\
  fst (Exporter.main_loop_body Exporter.weather_down_world
         (Exporter.initial_state Exporter.weather_down_world)) = Ok tt.
Proof.
  destruct (weather_failure_is_contained Exporter.weather_down_world
              (Exporter.initial_state Exporter.weather_down_world) eq_refl)
    as (_ & Hg & He & Hr & _).
  split; [exact Hg|]. split; [exact He | exact Hr].
Defined.

(** C6, as stated, fails on its list of failures: under status 300,
    which is not a 2xx status, a complete body is read as a success,
    the status gauge stands at 1 and the error counter is unchanged. *)
Lemma weather_status_300_is_a_success :
  let s := Exporter.initial_state Exporter.weather_choices_world in
  let s' := snd (Exporter.main_loop_body Exporter.weather_choices_world s) in
  Exporter.weather_reply Exporter.weather_choices_world s
    = Replied 300 (Some Exporter.weather_body) /\
  Exporter.non_2xx 300 = true /\
  Exporter.gauges s' "weather_api_status" [] = Some (float_of_Z 1) /\
  Exporter.error_counter s' "weather" = Exporter.error_counter s "weather".
Proof. vm_compute. repeat split. Qed.

Lemma gauges_hold_parsed_values_witness :
  (fst (Exporter.fetch_exchange_rates Exporter.good_world
          (Exporter.initial_state Exporter.good_world)) = Ok true /\
   Exporter.gauges
     (snd (Exporter.fetch_exchange_rates Exporter.good_world
             (Exporter.initial_state Exporter.good_world)))
     "exchange_rate_usd_kzt" [] = Some (float_of_Z 480) /\
   Exporter.gauges
     (snd (Exporter.fetch_exchange_rates Exporter.good_world
             (Exporter.initial_state Exporter.good_world)))
     "exchange_rate_eur_kzt" [] = Some (float_of_Z 520)) /\
  (fst (Exporter.fetch_weather_data Exporter.good_world
          (Exporter.initial_state Exporter.good_world)) = Ok true /\
   Exporter.raw_visibility Exporter.weather_body = Some (PyFloat (float_of_Z 24140)) /\
   Exporter.gauges
     (snd (Exporter.fetch_weather_data Exporter.good_world
             (Exporter.initial_state Exporter.good_world)))
     "weather_visibility_km" Exporter.astana
   = Some (fdiv (float_of_Z 24140) (float_of_Z 1000))).
Proof.
  destruct (gauges_hold_parsed_values Exporter.good_world
              (Exporter.initial_state Exporter.good_world)) as (Hx & _ & Hw & _).
  split.
  - apply Hx; reflexivity.
  - destruct (Hw 200 Exporter.weather_body eq_refl eq_refl)
      as (Hr & v0 & km & Hv & Hk & Hg).
    vm_compute in Hv. injection Hv as <-.
    vm_compute in Hk. injection Hk as <-.
    split; [exact Hr|]. split; [reflexivity | exact Hg].
Defined.

(** ** Relations kept by every step of a computation *)

Section Respects.
Context {S : Type} (R : S -> S -> Prop) `{!PreOrder R}.

Lemma respects_ret {A} (a : A) : respects R (ret a).
Proof. intros s. reflexivity. Qed.

Lemma respects_lift {A} (r : result A) : respects R (lift r).
Proof. intros s. reflexivity. Qed.

Lemma respects_raise {A} e : respects R (@raise S A e).
Proof. intros s. reflexivity. Qed.

Lemma respects_gets {A} (f : S -> A) : respects R (gets f).
Proof. intros s. reflexivity. Qed.

Lemma respects_modify (f : S -> S) : (forall s, R s (f s)) -> respects R (modify f).
Proof. intros H s. apply H. Qed.

Lemma respects_bind {A B} (m : M S A) (k : A -> M S B) :
  respects R m -> (forall a, respects R (k a)) -> respects R (bind m k).
Proof.
  intros Hm Hk s. unfold bind. specialize (Hm s).
  destruct (m s) as [[a|e] s1]; cbn [snd] in *.
  - etransitivity; [exact Hm | apply Hk].
  - exact Hm.
Qed.

Lemma respects_try_except {A} (body : M S A) (handler : exn -> M S A) :
  respects R body -> (forall e, respects R (handler e)) ->
  respects R (try_except body handler).
Proof.
  intros Hb Hh s. unfold try_except. specialize (Hb s).
  destruct (body s) as [[a|e] s1]; cbn [snd] in *; [exact Hb|].
  destruct (is_Exception e); [|exact Hb].
  etransitivity; [exact Hb | apply Hh].
Qed.

Lemma respects_for_each {A} (l : list A) (body : A -> M S unit) :
  (forall a, respects R (body a)) -> respects R (for_each l body).
Proof.
  intros Hb. induction l as [|a l IH]; cbn [for_each].
  - apply respects_ret.
  - apply respects_bind; [apply Hb | intros; exact IH].
Qed.

Lemma respects_while_true n (body : M S unit) :
  respects R body -> respects R (while_true n body).
Proof.
  intros Hb. induction n as [|n IH]; cbn [while_true].
  - apply respects_ret.
  - apply respects_bind; [exact Hb | intros; exact IH].
Qed.

End Respects.

(** Follows the structure of a computation down to its primitive
    steps, which are left to [leaf]. *)
Ltac respects_with leaf :=
  repeat lazymatch goal with
         | |- PreOrder _ => exact _
         | |- respects _ (bind _ _) => apply respects_bind; [..|intros]
         | |- respects _ (try_except _ _) => apply respects_try_except; [..|intros]
         | |- respects _ (ret _) => apply respects_ret
         | |- respects _ (lift _) => apply respects_lift
         | |- respects _ (raise _) => apply respects_raise
         | |- respects _ (gets _) => apply respects_gets
         | |- respects _ (for_each _ _) => apply respects_for_each; intros
         | |- respects _ (while_true _ _) => apply respects_while_true
         | |- respects _ (if ?b then _ else _) => destruct b
         | |- respects _ _ => leaf
         end.

(** ** More of the alerting script *)

Section AlertScript.
Import Alert.

#[local] Instance continues_preorder : PreOrder continues.
Proof.
  split.
  - intros s. exists [], [], []. rewrite !app_nil_r. repeat split; auto.
  - intros s1 s2 s3
      (c1 & p1 & h1 & Hs1 & Hp1 & Hh1 & Hl1 & Hle1 & Hf1)
      (c2 & p2 & h2 & Hs2 & Hp2 & Hh2 & Hl2 & Hle2 & Hf2).
    exists (c1 ++ c2), (p1 ++ p2), (h1 ++ h2).
    rewrite Hs2, Hs1, Hp2, Hp1, Hh2, Hh1, <- !app_assoc, !length_app.
    repeat split; try lia.
    apply Forall_app. split.
    + eapply Forall_impl; [|exact Hf1]. cbn. intros h [Hst Hin]. split; [exact Hst|].
      rewrite map_app. apply in_or_app. left. exact Hin.
    + eapply Forall_impl; [|exact Hf2]. cbn. intros h [Hst Hin]. split; [exact Hst|].
      rewrite map_app. apply in_or_app. right. exact Hin.
Qed.

#[local] Instance same_counters_preorder : PreOrder same_counters.
Proof.
  split.
  - intros s. split; reflexivity.
  - intros s1 s2 s3 [H1 H2] [H3 H4]. split; congruence.
Qed.

#[local] Instance all_recorded_preorder : PreOrder all_recorded.
Proof.
  split.
  - intros s. unfold all_recorded. lia.
  - intros s1 s2 s3. unfold all_recorded. lia.
Qed.

#[local] Instance same_history_preorder : PreOrder same_history.
Proof.
  split.
  - intros s. reflexivity.
  - intros s1 s2 s3. unfold same_history. congruence.
Qed.

Lemma continues_same s s' :
  sends s' = sends s -> posted s' = posted s -> alert_history s' = alert_history s ->
  continues s s'.
Proof.
  intros H1 H2 H3. exists [], [], []. rewrite H1, H2, H3, !app_nil_r.
  repeat split; auto.
Qed.

(** What one call of [send_alert] leaves behind. *)
Lemma send_alert_state E t m a f s :
  let c := {| title := t; message := m; alert_type := a; facts := f |} in
  sends (snd (send_alert E t m a f s)) = sends s ++ [c] /\
  posted (snd (send_alert E t m a f s)) = posted s ++ [card_of c (clock E (n_clock s))] /\
  alert_history (snd (send_alert E t m a f s)) =
    alert_history s ++
      (if sent_ok E s
       then [{| h_title := t; h_time := clock E (S (n_clock s)); h_status := "sent" |}]
       else []) /\
  n_get (snd (send_alert E t m a f s)) = n_get s /\
  slept (snd (send_alert E t m a f s)) = slept s.
Proof.
  unfold send_alert, sent_ok, card_of, bind, try_except, modify, datetime_now,
    requests_post, request, ret, logger_info, logger_error.
  cbn [fst snd posted add_send count_clock title message alert_type facts].
  destruct (webhook E (List.length (posted s))) as [|status body]; cbn.
  - rewrite app_nil_r. repeat split.
  - destruct (status =? 200); cbn; rewrite ?app_nil_r; repeat split.
Qed.

Lemma send_alert_continues E t m a f : respects continues (send_alert E t m a f).
Proof.
  intros s. destruct (send_alert_state E t m a f s) as (Hs & Hp & Hh & _).
  cbv zeta in *.
  eexists _, _, _. split; [exact Hs|]. split; [exact Hp|]. split; [exact Hh|].
  split; [reflexivity|].
  destruct (sent_ok E s); cbn; split; try lia; repeat constructor.
Qed.

Lemma query_prometheus_continues E q : respects continues (query_prometheus E q).
Proof.
  intros s. destruct (query_prometheus_spec E q s) as (_ & H1 & H2 & H3 & _).
  apply continues_same; assumption.
Qed.

Ltac unfold_alert :=
  unfold start_monitoring, start_monitoring_with, monitoring_round;
  unfold check_alerts, test_all_alerts, handle_alert;
  unfold process_prometheus_alert;
  unfold database_alert, system_alert, api_alert, success_alert, when,
    logger_info, logger_error, sleep.

Ltac continues_leaf :=
  first [ apply send_alert_continues
        | apply query_prometheus_continues
        | intros ?s; apply continues_same; reflexivity ].

Lemma check_alerts_continues E : respects continues (check_alerts E).
Proof. unfold_alert; respects_with continues_leaf. Qed.

(** X1.  A tick of [check_alerts], a request to [POST /alert], the
    start-up test and any number of monitoring rounds only ever append
    to the notifications, to the cards submitted to the webhook and to
    [alert_history]: each notification submits exactly one card, there
    are never more new history entries than new cards, and every new
    entry is marked ["sent"] and carries the title of one of them. *)
Theorem history_is_append_only E s :
  continues s (snd (check_alerts E s)) /\
  (forall body, continues s (snd (handle_alert E body s))) /\
  continues s (snd (test_all_alerts E s)) /\
  (forall n, continues s (snd (start_monitoring E n s))).
Proof.
  split; [|split; [|split]]; intros;
    match goal with
    | |- continues s (snd (?m s)) => revert s; change (respects continues m)
    end;
    unfold_alert; respects_with continues_leaf.
Qed.


(** X2.  Whatever the webhook answers, a call of [send_alert] submits
    exactly one card (there is no retry), built from its arguments.  A
    category other than ["warning"], ["error"] and ["success"] gives
    the colour of ["info"], and [facts=None] gives a card without
    facts. *)
Theorem send_alert_posts_once E t m a f s :
  let c := {| title := t; message := m; alert_type := a; facts := f |} in
  posted (snd (send_alert E t m a f s)) = posted s ++ [card_of c (clock E (n_clock s))] /\
  (a <> "warning" -> a <> "error" -> a <> "success" ->
   themeColor (card_of c (clock E (n_clock s))) = "0076D7") /\
  (f = None -> card_facts (card_of c (clock E (n_clock s))) = []).
Proof.
  intros c. destruct (send_alert_state E t m a f s) as (_ & Hp & _).
  split; [exact Hp|]. split.
  - intros H1 H2 H3. cbn. unfold colors_get.
    apply String.eqb_neq in H1, H2, H3. rewrite H1, H2, H3.
    destruct (String.eqb a "info"); reflexivity.
  - intros ->. reflexivity.
Qed.

(** X3.  [query_prometheus] issues exactly one GET and never raises.
    When the request fails, the status is an HTTP error or the body is
    malformed, it returns [None] and logs one error line; otherwise it
    logs nothing, and it returns [None] exactly when the result set is
    empty: an empty result is absent without any log line. *)
Theorem query_prometheus_logging E q s :
  let reply := prometheus E (n_get s) q in
  let s' := snd (query_prometheus E q s) in
  n_get s' = S (n_get s) /\
  if query_raises E reply
  then fst (query_prometheus E q s) = Ok None /\
       exists e, is_Exception e = true /\
                 log s' = log s ++ [(ERROR, [Lit "Error querying Prometheus: "; FmtExn e])]
  else log s' = log s /\
       exists v, fst (query_prometheus E q s) = Ok v /\
                 (v = None <-> empty_result
                                 match reply with Replied _ b => b | Failed => None end
                               = true).
Proof.
  cbv zeta.
  split; [apply query_prometheus_spec|].
  unfold query_prometheus, try_except, bind, requests_get, lift, ret, logger_error,
    modify, query_raises, malformed, empty_result, result_of, first_value.
  cbn [fst snd n_get].
  destruct (prometheus E (n_get s) q) as [|status body]; cbn [request fst snd is_Exception].
  - split; [reflexivity|]. exists RequestException. split; reflexivity.
  - unfold raise_for_status, http_error_status.
    destruct ((400 <=? status) && (status <? 600))%bool; cbn [fst snd is_Exception orb].
    + split; [reflexivity|]. exists HTTPError. split; reflexivity.
    + destruct body as [b|]; cbn [response_json fst snd is_Exception orb].
      * repeat (first [ next_op | destruct (truthy _) ]; cbn [fst snd negb orb add_log log]);
          try (split; [reflexivity|]; eexists; split; [eassumption || reflexivity | reflexivity]);
          try (split; [reflexivity|]; eexists; split; [reflexivity|]; split;
               [discriminate || reflexivity | discriminate || reflexivity]).
      * split; [reflexivity|]. exists JSONDecodeError. split; reflexivity.
Qed.


Lemma rule_sends_as_filter r v :
  rule_sends r v = map (fun r' => rule_call r' v) (filter (fun r' => fires r' v) [r]).
Proof. unfold rule_sends. cbn. destruct (fires r v); reflexivity. Qed.

(** X4.  A tick of [check_alerts] returns normally, issues exactly
    eight queries and never sleeps.  Its notifications are those of the
    rules that fire, in the order of the rule table, hence at most
    eight, and each of them is one card submitted to the webhook. *)
Theorem tick_is_bounded E s :
  fst (check_alerts E s) = Ok tt /\
  n_get (snd (check_alerts E s)) = (8 + n_get s)%nat /\
  slept (snd (check_alerts E s)) = slept s /\
  tick_sends E s =
    map (fun r => rule_call r (reading E s r))
        (filter (fun r => fires r (reading E s r)) rules) /\
  (List.length (tick_sends E s) <= 8)%nat /\
  List.length (posted (snd (check_alerts E s)))
    = (List.length (posted s) + List.length (tick_sends E s))%nat.
Proof.
  destruct (check_alerts_spec E s) as (Hr & Hs & Hn & Hsl).
  assert (Ht : tick_sends E s =
               map (fun r => rule_call r (reading E s r))
                   (filter (fun r => fires r (reading E s r)) rules)).
  { rewrite tick_sends_table. unfold rules, rule_sends. cbn [map List.concat filter].
    repeat match goal with
           | |- context [fires ?r ?v] => destruct (fires r v)
           end; reflexivity. }
  repeat split; try assumption.
  - rewrite Ht, length_map.
    etransitivity; [apply filter_length_le|]. reflexivity.
  - destruct (check_alerts_continues E s)
      as (calls & cards & entries & Hc & Hp & _ & Hl & _).
    unfold tick_sends. rewrite Hc, Hp, skipn_app, skipn_all, Nat.sub_diag, !length_app.
    cbn. lia.
Qed.

Lemma metric_source_reply E n m q :
  prometheus E n q = prometheus E m q -> metric_source E n q = metric_source E m q.
Proof.
  unfold metric_source, query_prometheus, try_except, bind, requests_get, lift, ret,
    logger_error, modify.
  cbn [fst snd n_get at_get]. intros ->.
  repeat (first [ next_op | destruct (truthy _) ]; cbn [fst snd]); reflexivity.
Qed.

Lemma tick_sends_steady E :
  steady E -> forall s1 s2, tick_sends E s1 = tick_sends E s2.
Proof.
  intros HE s1 s2. rewrite !tick_sends_table. f_equal.
  apply map_ext. intros r. unfold reading. f_equal. apply metric_source_reply, HE.
Qed.

Lemma monitoring_rounds_sends E n :
  steady E ->
  forall s,
    sends (snd (while_true n (monitoring_round (check_alerts E)) s)) =
      sends s ++ List.concat (repeat (tick_sends E s) n).
Proof.
  intros HE. induction n as [|n IH]; intros s; cbn [while_true repeat List.concat].
  - cbn. rewrite app_nil_r. reflexivity.
  - rewrite (bind_run (monitoring_round (check_alerts E)) _ s tt)
      by (rewrite check_alerts_round; reflexivity).
    rewrite check_alerts_round. cbn [snd].
    rewrite IH. cbn [sends add_sleep].
    destruct (check_alerts_spec E s) as (_ & -> & _).
    rewrite <- (tick_sends_table E s), <- app_assoc.
    rewrite (tick_sends_steady E HE (add_sleep _ _) s). reflexivity.
Qed.

(** X5.  There is no suppression: when the replies of the metrics
    backend stay the same, every round of [start_monitoring] sends the
    notifications of the first tick again, so [n] rounds send them [n]
    times. *)
Theorem sustained_breach_resends E n s :
  steady E ->
  sends (snd (start_monitoring E n s)) = sends s ++ List.concat (repeat (tick_sends E s) n).
Proof.
  intros HE. unfold start_monitoring, start_monitoring_with.
  rewrite (bind_run (logger_info _) _ s tt eq_refl).
  rewrite (monitoring_rounds_sends E n HE).
  cbn [sends snd logger_info modify add_log]. f_equal. f_equal. f_equal.
  apply tick_sends_steady, HE.
Qed.

Lemma send_alert_unrecorded E t m a f :
  never_accepts E -> respects same_history (send_alert E t m a f).
Proof.
  intros HE s. destruct (send_alert_state E t m a f s) as (_ & _ & Hh & _).
  unfold same_history. rewrite Hh. unfold sent_ok. specialize (HE (List.length (posted s))).
  destruct (webhook E (List.length (posted s))) as [|status body].
  - apply app_nil_r.
  - apply Z.eqb_neq in HE. rewrite HE. apply app_nil_r.
Qed.

Lemma send_alert_recorded E t m a f :
  always_accepts E -> respects all_recorded (send_alert E t m a f).
Proof.
  intros HE s. destruct (send_alert_state E t m a f s) as (Hs & _ & Hh & _).
  unfold all_recorded. cbv zeta in Hs. rewrite Hh, Hs. unfold sent_ok.
  destruct (HE (List.length (posted s))) as [body ->]. cbn.
  rewrite !length_app. cbn. lia.
Qed.

Lemma query_prometheus_same_history E q : respects same_history (query_prometheus E q).
Proof. intros s. apply query_prometheus_spec. Qed.

Lemma query_prometheus_recorded E q : respects all_recorded (query_prometheus E q).
Proof.
  intros s. destruct (query_prometheus_spec E q s) as (_ & H1 & _ & H3 & _).
  unfold all_recorded. rewrite H1, H3. lia.
Qed.

(** X6.  When the webhook accepts no card (every POST fails or is
    answered with a status other than 200), [alert_history] stays as
    it is through a tick, a request to [POST /alert], the start-up
    test and any number of monitoring rounds. *)
Theorem rejected_cards_are_not_recorded E s :
  never_accepts E ->
  alert_history (snd (check_alerts E s)) = alert_history s /\
  (forall body, alert_history (snd (handle_alert E body s)) = alert_history s) /\
  alert_history (snd (test_all_alerts E s)) = alert_history s /\
  (forall n, alert_history (snd (start_monitoring E n s)) = alert_history s).
Proof.
  intros HE.
  split; [|split; [|split]]; intros;
    match goal with
    | |- alert_history (snd (?m s)) = alert_history s =>
        revert s; change (respects same_history m)
    end;
    unfold_alert;
    respects_with ltac:(first [ apply (send_alert_unrecorded _ _ _ _ _ HE)
                              | apply query_prometheus_same_history
                              | intros ?s; reflexivity ]).
Qed.

(** X7.  When the webhook answers every card with status 200, the
    history grows by exactly one entry per notification, through a
    tick, a request to [POST /alert], the start-up test and any number
    of monitoring rounds. *)
Theorem accepted_cards_are_all_recorded E s :
  always_accepts E ->
  all_recorded s (snd (check_alerts E s)) /\
  (forall body, all_recorded s (snd (handle_alert E body s))) /\
  all_recorded s (snd (test_all_alerts E s)) /\
  (forall n, all_recorded s (snd (start_monitoring E n s))).
Proof.
  intros HE.
  split; [|split; [|split]]; intros;
    match goal with
    | |- all_recorded s (snd (?m s)) => revert s; change (respects all_recorded m)
    end;
    unfold_alert;
    respects_with ltac:(first [ apply (send_alert_recorded _ _ _ _ _ HE)
                              | apply query_prometheus_recorded
                              | intros ?s; unfold all_recorded; reflexivity ]).
Qed.


Lemma same_counters_same s s' :
  n_get s' = n_get s -> slept s' = slept s -> same_counters s s'.
Proof. intros H1 H2. split; assumption. Qed.

Lemma send_alert_same_counters E t m a f : respects same_counters (send_alert E t m a f).
Proof.
  intros s. destruct (send_alert_state E t m a f s) as (_ & _ & _ & Hn & Hsl).
  split; assumption.
Qed.

Lemma handle_alert_same_counters E body : respects same_counters (handle_alert E body).
Proof.
  unfold_alert.
  respects_with ltac:(first [ apply send_alert_same_counters
                            | intros ?s; split; reflexivity ]).
Qed.

Lemma process_outcome E alert s :
  fst (process_prometheus_alert E alert s) = Ok tt \/
  exists e, process_prometheus_alert E alert s = (Raise e, s) /\ is_Exception e = true.
Proof.
  destruct (route alert) as [w|] eqn:Hw.
  - left. apply (process_routed E alert w s Hw).
  - right. apply process_unroutable. exact Hw.
Qed.

Lemma for_each_outcome E l :
  forall s,
    fst (for_each l (process_prometheus_alert E) s) = Ok tt \/
    exists e, fst (for_each l (process_prometheus_alert E) s) = Raise e /\
              is_Exception e = true.
Proof.
  induction l as [|a l IH]; intros s; cbn [for_each].
  - left. reflexivity.
  - destruct (process_outcome E a s) as [Hr | (e & He & Hc)].
    + rewrite (bind_run _ _ _ _ Hr). apply IH.
    + right. exists e. rewrite (bind_raise _ _ s e) by (rewrite He; reflexivity).
      split; [reflexivity | exact Hc].
Qed.

(** X8.  [handle_alert] never raises: every request is answered with
    200 and the success marker, with 400 and ["Invalid alert data"],
    or with 500 and the text of an exception.  A request answered 400
    leaves the state untouched, and no request issues a query to the
    metrics backend or sleeps. *)
Theorem handle_alert_always_answers E body s :
  (exists reply code,
     fst (handle_alert E body s) = Ok (reply, code) /\
     ((code = 200 /\ reply = Success) \/
      (code = 400 /\ reply = ErrorText "Invalid alert data" /\
       snd (handle_alert E body s) = s) \/
      (code = 500 /\ exists e, reply = ErrorOf e))) /\
  n_get (snd (handle_alert E body s)) = n_get s /\
  slept (snd (handle_alert E body s)) = slept s.
Proof.
  split; [|apply handle_alert_same_counters].
  unfold handle_alert, try_except. cbv [bind lift ret].
  destruct body as [data|]; cbn [request_json].
  2:{ eexists _, _. split; [reflexivity|]. right. right. split; [reflexivity|].
      eexists. reflexivity. }
  destruct (truthy data); cbn [negb].
  2:{ eexists _, _. split; [reflexivity|]. right. left. repeat split. }
  destruct (contains_key "alerts" data) as [[|]|e] eqn:Hk.
  - cbn [negb].
    destruct (getitem data "alerts") as [alerts|e] eqn:Hg.
    + destruct (iterate alerts) as [elements|e] eqn:Hi.
      * destruct (for_each_outcome E elements s) as [Hr | (e & Hr & Hc)];
          destruct (for_each elements (process_prometheus_alert E) s) as [r s'];
          cbn [fst snd] in *; subst r.
        -- eexists _, _. split; [reflexivity|]. left. split; reflexivity.
        -- rewrite Hc. eexists _, _. split; [reflexivity|]. right. right.
           split; [reflexivity|]. eexists. reflexivity.
      * apply iterate_catchable in Hi. rewrite Hi.
        eexists _, _. split; [reflexivity|]. right. right. split; [reflexivity|].
        eexists. reflexivity.
    + apply getitem_catchable in Hg. rewrite Hg.
      eexists _, _. split; [reflexivity|]. right. right. split; [reflexivity|].
      eexists. reflexivity.
  - eexists _, _. split; [reflexivity|]. right. left. repeat split.
  - apply contains_key_catchable in Hk. rewrite Hk.
    eexists _, _. split; [reflexivity|]. right. right. split; [reflexivity|].
    eexists. reflexivity.
Qed.

(** X9.  A batch whose elements can all be processed (the empty batch
    included) is answered 200 with the success marker, after exactly
    one notification per element, in the order of the list, and the
    handler itself logs nothing. *)
Theorem batch_is_fully_routed E s d l :
  lookup "alerts" d = Some (PyList l) ->
  Forall (fun a => route a <> None) l ->
  fst (handle_alert E (Json (PyDict d)) s) = Ok (Success, 200) /\
  exists calls,
    sends (snd (handle_alert E (Json (PyDict d)) s)) = sends s ++ calls /\
    Forall2 routed l calls /\
    List.length (posted (snd (handle_alert E (Json (PyDict d)) s)))
      = (List.length (posted s) + List.length l)%nat /\
    log (snd (handle_alert E (Json (PyDict d)) s))
      = log (snd (for_each l (process_prometheus_alert E) s)).
Proof.
  intros Hd Hl. rewrite (handle_alert_list E d l s Hd).
  destruct (for_each_routed E l Hl s) as (Hr & calls & Hs & Hf & Hp).
  destruct (for_each l (process_prometheus_alert E) s) as [r s'].
  cbn [fst snd] in *. subst r. split; [reflexivity|].
  exists calls. auto.
Qed.

(** X10.  The alert name has to be a string only for a firing alert:
    when it is not (a number, say), a resolved alert still goes through
    the recovery wrapper, while a firing one raises [AttributeError]
    before anything is sent. *)
Theorem name_is_needed_only_when_firing E s alert alertname status description :
  element_fields alert = Some (alertname, status, description) ->
  (forall name, alertname <> PyStr name) ->
  if is_str "resolved" status
  then route alert = Some SuccessAlert /\
       fst (process_prometheus_alert E alert s) = Ok tt
  else route alert = None /\
       process_prometheus_alert E alert s = (Raise AttributeError, s).
Proof.
  intros Hf Hname.
  assert (Hroute : route alert =
                   if is_str "resolved" status then Some SuccessAlert else None).
  { unfold route. rewrite Hf. destruct (is_str "resolved" status); [reflexivity|].
    destruct alertname; try reflexivity. exfalso. apply (Hname s0). reflexivity. }
  destruct (is_str "resolved" status) eqn:Hres.
  - split; [exact Hroute|]. apply (process_routed E alert SuccessAlert s Hroute).
  - split; [exact Hroute|].
    unfold element_fields in Hf.
    repeat match type of Hf with
           | context [match ?r with Ok _ => _ | Raise _ => _ end] =>
               destruct r eqn:?; try discriminate Hf
           end.
    injection Hf as -> -> ->.
    unfold process_prometheus_alert. cbv [bind lift ret].
    repeat match goal with
           | H : ?r = Ok _ |- context [?r] => rewrite H
           end.
    rewrite Hres.
    destruct alertname; try reflexivity. exfalso. apply (Hname s0). reflexivity.
Qed.

Lemma success_alert_state E service msg s :
  exists b t,
    fst (success_alert E service msg s) = Ok b /\
    sends (snd (success_alert E service msg s)) =
      sends s ++ [{| title := wrapper_title SuccessAlert; message := msg;
                     alert_type := "success";
                     facts := Some [("Service", service); ("Status", Str "Recovered");
                                    ("Time", FString [FmtTime "%H:%M:%S" t])] |}] /\
    slept (snd (success_alert E service msg s)) = slept s.
Proof.
  unfold success_alert.
  rewrite (bind_run (datetime_now E) _ s _ eq_refl).
  match goal with
  | |- context [send_alert E ?t ?m ?a ?f ?s0] =>
      destruct (send_alert_spec E t m a f s0) as (Hr & Hs & _ & _ & Hsl)
  end.
  eexists _, _. split; [exact Hr|]. split; [exact Hs | exact Hsl].
Qed.

(** X11.  Whatever the webhook answers, [test_all_alerts] returns
    normally after four notifications, through the database, system,
    API and recovery wrappers in this order, with three sleeps of two
    seconds between them and no query to the metrics backend. *)
Theorem test_all_alerts_sends_four E s :
  fst (test_all_alerts E s) = Ok tt /\
  (exists calls,
     sends (snd (test_all_alerts E s)) = sends s ++ calls /\
     map wrapper_of calls =
       [Some DatabaseAlert; Some SystemAlert; Some ApiAlert; Some SuccessAlert] /\
     map message calls =
       [Str "Database connections are above threshold"; Str "High CPU usage detected";
        Str "High temperature in Astana"; Str "Database connections returned to normal"]) /\
  slept (snd (test_all_alerts E s)) = slept s ++ [2; 2; 2] /\
  n_get (snd (test_all_alerts E s)) = n_get s.
Proof.
  unfold test_all_alerts, database_alert, system_alert, api_alert.
  rewrite (bind_run (logger_info _) _ s tt eq_refl).
  set (s0 := snd (logger_info _ s)).
  destruct (send_alert_state E "🚨 Database Alert"
              (Str "Database connections are above threshold") "error"
              (Some [("Metric", Str "Active Connections"); ("Current Value", Obj (PyInt 95));
                     ("Threshold", Obj (PyInt 50)); ("Component", Str "PostgreSQL")]) s0)
    as (Hs1 & _ & _ & Hn1 & Hsl1).
  destruct (send_alert_spec E "🚨 Database Alert"
              (Str "Database connections are above threshold") "error"
              (Some [("Metric", Str "Active Connections"); ("Current Value", Obj (PyInt 95));
                     ("Threshold", Obj (PyInt 50)); ("Component", Str "PostgreSQL")]) s0)
    as (Hr1 & _).
  rewrite (bind_run _ _ s0 _ Hr1).
  set (s1 := snd (send_alert E _ _ _ _ s0)) in *.
  rewrite (bind_run (sleep 2) _ s1 tt eq_refl).
  set (s2 := snd (sleep 2 s1)).
  destruct (send_alert_state E "⚠️ System Alert" (Str "High CPU usage detected") "warning"
              (Some [("Metric", Str "CPU Usage"); ("Current Value", Str "85%");
                     ("Threshold", Str "80%"); ("Component", Str "System Resources")]) s2)
    as (Hs2 & _ & _ & Hn2 & Hsl2).
  destruct (send_alert_spec E "⚠️ System Alert" (Str "High CPU usage detected") "warning"
              (Some [("Metric", Str "CPU Usage"); ("Current Value", Str "85%");
                     ("Threshold", Str "80%"); ("Component", Str "System Resources")]) s2)
    as (Hr2 & _).
  rewrite (bind_run _ _ s2 _ Hr2).
  set (s3 := snd (send_alert E _ _ _ _ s2)) in *.
  rewrite (bind_run (sleep 2) _ s3 tt eq_refl).
  set (s4 := snd (sleep 2 s3)).
  destruct (send_alert_state E "🌐 API Alert" (Str "High temperature in Astana") "info"
              (Some [("Metric", Str "Weather Temperature"); ("Current Value", Str "35°C");
                     ("Component", Str "External APIs")]) s4)
    as (Hs3 & _ & _ & Hn3 & Hsl3).
  destruct (send_alert_spec E "🌐 API Alert" (Str "High temperature in Astana") "info"
              (Some [("Metric", Str "Weather Temperature"); ("Current Value", Str "35°C");
                     ("Component", Str "External APIs")]) s4)
    as (Hr3 & _).
  rewrite (bind_run _ _ s4 _ Hr3).
  set (s5 := snd (send_alert E _ _ _ _ s4)) in *.
  rewrite (bind_run (sleep 2) _ s5 tt eq_refl).
  set (s6 := snd (sleep 2 s5)).
  destruct (success_alert_state E (Str "PostgreSQL")
              (Str "Database connections returned to normal") s6)
    as (b & t & Hr4 & Hs4 & Hsl4).
  rewrite (bind_run _ _ s6 _ Hr4).
  set (s7 := snd (success_alert E _ _ s6)) in *.
  cbv zeta in *.
  assert (Hn4 : n_get s7 = n_get s6).
  { subst s7. unfold success_alert.
    rewrite (bind_run (datetime_now E) _ s6 _ eq_refl).
    match goal with
    | |- context [send_alert E ?t ?m ?a ?f ?s0] =>
        destruct (send_alert_spec E t m a f s0) as (_ & _ & Hn & _)
    end.
    rewrite Hn. reflexivity. }
  cbn [logger_info modify fst snd sends slept n_get add_log].
  split; [reflexivity|]. split; [|split].
  - eexists. split.
    + rewrite Hs4. subst s6. cbn [sleep modify snd sends add_sleep].
      rewrite Hs3. subst s4. cbn [sleep modify snd sends add_sleep].
      rewrite Hs2. subst s2. cbn [sleep modify snd sends add_sleep].
      rewrite Hs1. subst s0. cbn [logger_info modify snd sends add_log].
      rewrite <- !app_assoc. cbn [app]. reflexivity.
    + split; reflexivity.
  - rewrite Hsl4. subst s6. cbn [sleep modify snd slept add_sleep].
    rewrite Hsl3. subst s4. cbn [sleep modify snd slept add_sleep].
    rewrite Hsl2. subst s2. cbn [sleep modify snd slept add_sleep].
    rewrite Hsl1. subst s0. cbn [logger_info modify snd slept add_log].
    rewrite <- !app_assoc. reflexivity.
  - rewrite Hn4. subst s6. cbn [sleep modify snd n_get add_sleep].
    rewrite Hn3. subst s4. cbn [sleep modify snd n_get add_sleep].
    rewrite Hn2. subst s2. cbn [sleep modify snd n_get add_sleep].
    rewrite Hn1. reflexivity.
Qed.

End AlertScript.

(** ** More of the exporter *)

Section Registry.
Import Exporter.

#[local] Instance gauges_outside_preorder owned : PreOrder (gauges_outside owned).
Proof.
  split.
  - intros s name lbls _. reflexivity.
  - intros s1 s2 s3 H1 H2 name lbls Hn. rewrite (H2 name lbls Hn). apply H1, Hn.
Qed.

#[local] Instance same_pace_preorder : PreOrder same_pace.
Proof.
  split.
  - intros s. split; reflexivity.
  - intros s1 s2 s3 [H1 H2] [H3 H4]. split; congruence.
Qed.

Ltac unfold_exporter :=
  unfold main_loop_body;
  unfold fetch_weather_data, fetch_crypto_data, fetch_exchange_rates, fetch_static_data;
  unfold set, labels, observe, logger_info, logger_error, counter_inc, sleep.

Lemma update_gauge_outside name lbls x g name' lbls' :
  name <> name' -> update_gauge name lbls x g name' lbls' = g name' lbls'.
Proof.
  intros Hn. unfold update_gauge. apply String.eqb_neq in Hn. rewrite Hn. reflexivity.
Qed.

Lemma create_child_outside name lbls g name' lbls' :
  name <> name' -> create_child name lbls g name' lbls' = g name' lbls'.
Proof.
  intros Hn. unfold create_child. apply String.eqb_neq in Hn. rewrite Hn. reflexivity.
Qed.

(** A primitive step on gauges named in [owned], or on no gauge. *)
Ltac outside_leaf :=
  intros ?s ?name ?lbls ?Hout;
  first [ reflexivity
        | apply update_gauge_outside; intros <-; apply Hout; cbn; tauto
        | apply create_child_outside; intros <-; apply Hout; cbn; tauto ].

Lemma fetch_weather_outside E :
  respects (gauges_outside weather_gauges) (fetch_weather_data E).
Proof. unfold_exporter; respects_with outside_leaf. Qed.

Lemma fetch_crypto_outside E :
  respects (gauges_outside crypto_gauges) (fetch_crypto_data E).
Proof. unfold_exporter; respects_with outside_leaf. Qed.

Lemma fetch_exchange_outside E :
  respects (gauges_outside exchange_gauges) (fetch_exchange_rates E).
Proof. unfold_exporter; respects_with outside_leaf. Qed.

Lemma fetch_static_outside E :
  respects (gauges_outside static_gauges) (fetch_static_data E).
Proof. unfold_exporter; respects_with outside_leaf. Qed.

(** X12.  Each fetch of the exporter writes only its own gauges,
    whether it succeeds or fails: the weather fetch the four weather
    gauges and the weather status, the crypto fetch the three crypto
    gauges and the crypto status, the exchange-rate fetch the two rate
    gauges, the static fetch the population, timestamp and random
    gauges. *)
Theorem fetches_touch_only_their_gauges E s :
  gauges_outside weather_gauges s (snd (fetch_weather_data E s)) /\
  gauges_outside crypto_gauges s (snd (fetch_crypto_data E s)) /\
  gauges_outside exchange_gauges s (snd (fetch_exchange_rates E s)) /\
  gauges_outside static_gauges s (snd (fetch_static_data E s)).
Proof.
  split; [apply fetch_weather_outside|]. split; [apply fetch_crypto_outside|].
  split; [apply fetch_exchange_outside | apply fetch_static_outside].
Qed.

Lemma to_float_int_zero f : to_float f (PyInt 0) = Ok (S754_zero false).
Proof. reflexivity. Qed.

Lemma to_float_int_one f : to_float f (PyInt 1) = Ok (float_of_Z 1).
Proof. reflexivity. Qed.

Lemma to_float_int_population f : to_float f (PyInt 1300000) = Ok (float_of_Z 1300000).
Proof. reflexivity. Qed.

Ltac unfold_run :=
  unfold fetch_weather_data, fetch_crypto_data, fetch_exchange_rates, fetch_static_data;
  unfold set, labels, time_now, requests_get, observe, logger_info, logger_error,
    counter_inc;
  unfold try_except, bind, lift, ret, modify, gets;
  rewrite ?to_float_int_zero, ?to_float_int_one, ?to_float_int_population;
  cbn [fst snd to_float].

(** X13.  [fetch_weather_data] issues exactly one GET and returns
    [True] exactly when the reply is not a failure (transport failure,
    HTTP error status, malformed body).  It then holds the four
    readings of the body in its gauges, the status gauge stands at 1,
    no error counter moves, and one latency observation, the
    difference of the two clock readings, is recorded under
    ["weather"]. *)
Theorem weather_fetch_succeeds_iff E s :
  let reply := http E (n_get s) weather_url in
  let s' := snd (fetch_weather_data E s) in
  fst (fetch_weather_data E s) = Ok (negb (weather_fails E reply)) /\
  n_get s' = S (n_get s) /\
  (weather_fails E reply = false ->
   exists status body t w h km,
     reply = Replied status (Some body) /\
     entry E body "current_weather" "temperature" = Some t /\
     entry E body "current_weather" "windspeed" = Some w /\
     first_humidity E body = Some h /\
     visibility_km body = Some km /\
     gauges s' "weather_temperature_celsius" astana = Some t /\
     gauges s' "weather_windspeed_kmh" astana = Some w /\
     gauges s' "weather_humidity_percent" astana = Some h /\
     gauges s' "weather_visibility_km" astana = Some km /\
     gauges s' "weather_api_status" [] = Some (float_of_Z 1) /\
     error_counter s' = error_counter s /\
     api_response_time s' =
       api_response_time s ++
         [("weather", fsub (time_time E (S (n_clock s))) (time_time E (n_clock s)))]).
Proof.
  cbv zeta.
  destruct (weather_fails E (http E (n_get s) weather_url)) eqn:Hfail.
  - destruct (fetch_weather_failure E s Hfail) as (Hr & _ & _ & Hn).
    split; [exact Hr|]. split; [exact Hn|]. discriminate.
  - unfold weather_fails, weather_well_formed in Hfail.
    unfold entry, first_humidity, visibility_km, raw_visibility in *.
    unfold_run. cbn [n_get count_clock].
    destruct (http E (n_get s) weather_url) as [|status [body|]];
      cbn [request fst snd response_json is_Exception negb] in *;
      rewrite ?orb_true_r in Hfail; try discriminate Hfail.
    unfold raise_for_status. unfold http_error_status in Hfail.
    destruct ((400 <=? status) && (status <? 600))%bool;
      cbn [fst snd is_Exception orb negb] in *; [discriminate Hfail|].
    run_keep;
      try (exfalso; use_ops Hfail; cbn [is_some negb andb] in Hfail;
           rewrite ?andb_false_r in Hfail; cbn [is_some negb andb] in Hfail;
           discriminate Hfail).
    split; [reflexivity|]. split; [reflexivity|]. intros _.
    exists status, body. do 4 eexists.
    repeat match goal with
           | H1 : ?r = Ok _ |- _ => rewrite H1; clear H1
           end.
    repeat split.
Qed.


(** X14.  The weather gauges are written one by one: once the body has
    its hourly section and a numeric temperature, the temperature gauge
    holds the new value whatever happens next.  In particular, when the
    first hourly visibility cannot be divided ([null], say) the fetch
    fails and the status gauge stands at 0, and yet the temperature
    gauge has been updated. *)
Theorem weather_update_is_not_atomic E s status body hourly t :
  http E (n_get s) weather_url = Replied status (Some body) ->
  http_error_status status = false ->
  getitem body "hourly" = Ok hourly ->
  entry E body "current_weather" "temperature" = Some t ->
  gauges (snd (fetch_weather_data E s)) "weather_temperature_celsius" astana = Some t /\
  (visibility_km body = None ->
   fst (fetch_weather_data E s) = Ok false /\
   gauges (snd (fetch_weather_data E s)) "weather_api_status" [] = Some (S754_zero false)).
Proof.
  intros Hreply Hst Hh Ht.
  split.
  - unfold entry in Ht. unfold_run. cbn [n_get count_clock].
    rewrite Hreply. cbn [request fst snd response_json].
    unfold raise_for_status. unfold http_error_status in Hst. rewrite Hst.
    cbn [fst snd]. rewrite Hh.
    destruct (getitem body "current_weather") as [current|]; [|discriminate Ht].
    destruct (getitem current "temperature") as [v|]; [|discriminate Ht].
    destruct (to_float (float_of_str E) v) as [x|]; [|discriminate Ht].
    injection Ht as ->. cbn [fst snd].
    run_keep; reflexivity.
  - intros Hv.
    assert (Hfail : weather_fails E (http E (n_get s) weather_url) = true).
    { rewrite Hreply. unfold weather_fails, weather_well_formed. rewrite Hv.
      cbn [is_some]. rewrite andb_false_r. apply orb_true_r. }
    destruct (fetch_weather_failure E s Hfail) as (Hr & Hg & _). auto.
Qed.

(** X15.  [fetch_crypto_data] issues exactly one GET and returns
    [True] or [False], never raising.  On [False] the crypto status
    gauge stands at 0 and the error counter ["crypto"] is one more; on
    [True] the two price gauges hold the floats of the two prices, the
    market-cap gauge the float of the sum of the two market caps, the
    status gauge stands at 1 and no error counter moves. *)
Theorem crypto_fetch_outcome E s :
  let s' := snd (fetch_crypto_data E s) in
  n_get s' = S (n_get s) /\
  (fst (fetch_crypto_data E s) = Ok true \/ fst (fetch_crypto_data E s) = Ok false) /\
  (fst (fetch_crypto_data E s) = Ok false ->
   gauges s' "crypto_api_status" [] = Some (S754_zero false) /\
   error_counter s' "crypto" = error_counter s "crypto" + 1) /\
  (fst (fetch_crypto_data E s) = Ok true ->
   exists status body btc eth btc_cap eth_cap total x y z,
     http E (n_get s) crypto_url = Replied status (Some body) /\
     item body "bitcoin" "usd" = Some btc /\
     item body "ethereum" "usd" = Some eth /\
     item body "bitcoin" "usd_market_cap" = Some btc_cap /\
     item body "ethereum" "usd_market_cap" = Some eth_cap /\
     add btc_cap eth_cap = Ok total /\
     to_float (float_of_str E) btc = Ok x /\
     to_float (float_of_str E) eth = Ok y /\
     to_float (float_of_str E) total = Ok z /\
     gauges s' "crypto_bitcoin_price_usd" [] = Some x /\
     gauges s' "crypto_ethereum_price_usd" [] = Some y /\
     gauges s' "crypto_total_market_cap" [] = Some z /\
     gauges s' "crypto_api_status" [] = Some (float_of_Z 1) /\
     error_counter s' = error_counter s).
Proof.
  cbv zeta. unfold item. unfold_run. cbn [n_get count_clock].
  run_keep;
    (split; [reflexivity|]); (split; [auto|]);
    (split; [intros H; try discriminate H; split; reflexivity|]);
    intros H; try discriminate H.
  match goal with
  | H1 : request (http E (n_get s) crypto_url) = Ok ?a,
    J1 : response_json (snd ?a) = Ok ?b1 |- _ =>
      exists (fst a), b1; rewrite (replied_body _ _ _ H1 J1)
  end.
  repeat match goal with
         | H1 : getitem _ _ = Ok _ |- _ => rewrite H1; clear H1
         end.
  do 8 eexists. repeat split; eassumption.
Qed.

(** X16.  [fetch_exchange_rates] by cases on the two replies.  When
    the USD reply yields no rate, the EUR request is not issued, no
    gauge changes and the error counter ["exchange"] is one more.  When
    the USD reply yields a rate and the EUR reply does not, the fetch
    fails with the counter one more, and yet the USD gauge holds the
    new rate while the EUR gauge keeps its value.  When both yield a
    rate the fetch succeeds, the gauges hold the two rates and no
    counter moves. *)
Theorem exchange_fetch_by_cases E s :
  let s' := snd (fetch_exchange_rates E s) in
  let usd := rate_of E (http E (n_get s) usd_url) in
  let eur := rate_of E (http E (S (n_get s)) eur_url) in
  match usd, eur with
  | None, _ =>
      fst (fetch_exchange_rates E s) = Ok false /\
      n_get s' = S (n_get s) /\
      gauges s' = gauges s /\
      error_counter s' "exchange" = error_counter s "exchange" + 1
  | Some x, None =>
      fst (fetch_exchange_rates E s) = Ok false /\
      n_get s' = S (S (n_get s)) /\
      gauges s' "exchange_rate_usd_kzt" [] = Some x /\
      gauges s' "exchange_rate_eur_kzt" [] = gauges s "exchange_rate_eur_kzt" [] /\
      error_counter s' "exchange" = error_counter s "exchange" + 1
  | Some x, Some y =>
      fst (fetch_exchange_rates E s) = Ok true /\
      n_get s' = S (S (n_get s)) /\
      gauges s' "exchange_rate_usd_kzt" [] = Some x /\
      gauges s' "exchange_rate_eur_kzt" [] = Some y /\
      error_counter s' = error_counter s
  end.
Proof.
  cbv zeta. unfold rate_of, kzt_rate.
  unfold_run. cbn [n_get count_clock count_get map_gauges].
  destruct (http E (n_get s) usd_url) as [|st1 [b1|]];
    cbn [request fst snd response_json is_Exception];
    unfold raise_for_status, http_error_status;
    try (destruct ((400 <=? st1) && (st1 <? 600))%bool;
         cbn [fst snd is_Exception]; repeat split; fail);
    try (repeat split; fail).
  destruct ((400 <=? st1) && (st1 <? 600))%bool;
    cbn [fst snd is_Exception]; [repeat split|].
  destruct (getitem b1 "rates") as [r1|e1] eqn:H1; cbn [fst snd];
    [|caught H1; repeat split].
  destruct (getitem r1 "KZT") as [k1|e1] eqn:H2; cbn [fst snd];
    [|caught H2; repeat split].
  destruct (to_float (float_of_str E) k1) as [x|e1] eqn:H3; cbn [fst snd];
    [|caught H3; repeat split].
  cbn [n_get count_clock count_get map_gauges].
  destruct (http E (S (n_get s)) eur_url) as [|st2 [b2|]];
    cbn [request fst snd response_json is_Exception];
    try (destruct ((400 <=? st2) && (st2 <? 600))%bool;
         cbn [fst snd is_Exception]; repeat split; fail);
    try (repeat split; fail).
  destruct ((400 <=? st2) && (st2 <? 600))%bool;
    cbn [fst snd is_Exception]; [repeat split|].
  destruct (getitem b2 "rates") as [r2|e2] eqn:H4; cbn [fst snd];
    [|caught H4; repeat split].
  destruct (getitem r2 "KZT") as [k2|e2] eqn:H5; cbn [fst snd];
    [|caught H5; repeat split].
  destruct (to_float (float_of_str E) k2) as [y|e2] eqn:H6; cbn [fst snd];
    [|caught H6; repeat split].
  repeat split.
Qed.


Ltac counted_leaf :=
  eexists; (split; [reflexivity|]); intros ?name;
  cbn [error_counter map_errors map_gauges add_log add_observation count_get count_clock];
  unfold update_counter;
  try match goal with |- context [String.eqb ?l ?n] => destruct (String.eqb l n) end;
  lia.

Lemma fetch_weather_counted E s :
  exists b, fst (fetch_weather_data E s) = Ok b /\
            counted "weather" b s (snd (fetch_weather_data E s)).
Proof. unfold counted. unfold_run. run_keep; counted_leaf. Qed.

Lemma fetch_crypto_counted E s :
  exists b, fst (fetch_crypto_data E s) = Ok b /\
            counted "crypto" b s (snd (fetch_crypto_data E s)).
Proof. unfold counted. unfold_run. run_keep; counted_leaf. Qed.

Lemma fetch_exchange_counted E s :
  exists b, fst (fetch_exchange_rates E s) = Ok b /\
            counted "exchange" b s (snd (fetch_exchange_rates E s)).
Proof. unfold counted. unfold_run. run_keep; counted_leaf. Qed.

Lemma fetch_static_counted E s :
  fst (fetch_static_data E s) = Ok true /\
  error_counter (snd (fetch_static_data E s)) = error_counter s.
Proof. unfold_run. split; reflexivity. Qed.

Lemma fetch_weather_gets E s :
  n_get (snd (fetch_weather_data E s)) = S (n_get s).
Proof. unfold_run. run_keep; reflexivity. Qed.

Lemma fetch_exchange_gets E s :
  (S (n_get s) <= n_get (snd (fetch_exchange_rates E s)) <= S (S (n_get s)))%nat.
Proof.
  unfold_run. run_keep;
    cbn [n_get count_get count_clock map_gauges map_errors add_observation add_log]; lia.
Qed.

Lemma main_loop_body_same_pace E : respects same_pace (main_loop_body E).
Proof.
  unfold_exporter.
  respects_with ltac:(intros ?s; split; reflexivity).
Qed.

(** One round of the main loop, fetch by fetch. *)
Lemma main_loop_body_steps E s :
  let s0 := before_weather E s in
  let s1 := snd (fetch_weather_data E s0) in
  let s2 := snd (fetch_crypto_data E s1) in
  let s3 := snd (fetch_exchange_rates E s2) in
  let s4 := snd (fetch_static_data E s3) in
  main_loop_body E s =
    (Ok tt, add_log INFO [Lit "✅ All metrics updated successfully"] s4).
Proof.
  intros. apply main_loop_body_run.
  destruct (fetch_weather_counted E (before_weather E s)) as (b & Hb & _).
  exists b. exact Hb.
Qed.

(** X17.  In one round of the main loop every error counter stays or
    grows by one, never more and never less, and a counter under a
    label other than ["weather"], ["crypto"] and ["exchange"] stays. *)
Theorem error_counters_per_round E s name :
  let s' := snd (main_loop_body E s) in
  error_counter s name <= error_counter s' name <= error_counter s name + 1 /\
  (name <> "weather" -> name <> "crypto" -> name <> "exchange" ->
   error_counter s' name = error_counter s name).
Proof.
  cbv zeta. rewrite main_loop_body_steps. cbn [snd error_counter add_log].
  set (s0 := before_weather E s).
  assert (H0 : error_counter s0 = error_counter s) by reflexivity.
  destruct (fetch_weather_counted E s0) as (bw & _ & Hw).
  set (s1 := snd (fetch_weather_data E s0)) in *.
  destruct (fetch_crypto_counted E s1) as (bc & _ & Hc).
  set (s2 := snd (fetch_crypto_data E s1)) in *.
  destruct (fetch_exchange_counted E s2) as (bx & _ & Hx).
  set (s3 := snd (fetch_exchange_rates E s2)) in *.
  destruct (fetch_static_counted E s3) as (_ & Hs).
  rewrite Hs. unfold counted in *.
  assert (Hall : forall n,
            error_counter s3 n =
              error_counter s n
              + (if bw then 0 else if String.eqb "weather" n then 1 else 0)
              + (if bc then 0 else if String.eqb "crypto" n then 1 else 0)
              + (if bx then 0 else if String.eqb "exchange" n then 1 else 0)).
  { intros n. rewrite Hx, Hc, Hw, H0. reflexivity. }
  split.
  - rewrite Hall.
    destruct (String.eqb_spec "weather" name) as [<-|_];
      [cbn; destruct bw, bc, bx; lia|].
    destruct (String.eqb_spec "crypto" name) as [<-|_];
      [cbn; destruct bw, bc, bx; lia|].
    destruct (String.eqb "exchange" name); destruct bw, bc, bx; lia.
  - intros N1 N2 N3. rewrite Hall.
    apply not_eq_sym in N1, N2, N3. apply String.eqb_neq in N1, N2, N3.
    rewrite N1, N2, N3. destruct bw, bc, bx; lia.
Qed.

Lemma main_loop_round_run E s :
  main_loop_round (main_loop_body E) (sleep 20) s =
    (Ok true, add_sleep 20 (snd (main_loop_body E s))).
Proof.
  unfold main_loop_round. rewrite main_loop_body_steps. reflexivity.
Qed.

(** A round whose block lets nothing but [Exception]s out and whose
    pause returns goes on to the next round. *)
Lemma main_loop_round_goes_on (block pause : M state unit) :
  (forall s e, fst (block s) = Raise e -> is_Exception e = true) ->
  (forall s, fst (pause s) = Ok tt) ->
  forall s, fst (main_loop_round block pause s) = Ok true.
Proof.
  intros Hb Hp s. unfold main_loop_round. specialize (Hb s).
  destruct (block s) as [[[]|e] s']; cbn [fst] in Hb.
  - rewrite (bind_run pause _ s' tt (Hp s')). reflexivity.
  - specialize (Hb e eq_refl).
    destruct e; try discriminate Hb; cbn [is_Exception];
      rewrite (bind_run (logger_error _) _ s' tt eq_refl);
      match goal with
      | |- context [bind pause _ ?s1] => rewrite (bind_run pause _ s1 tt (Hp s1))
      end;
      reflexivity.
Qed.

Lemma main_loop_with_running (block pause : M state unit) :
  (forall s e, fst (block s) = Raise e -> is_Exception e = true) ->
  (forall s, fst (pause s) = Ok tt) ->
  forall n s, fst (main_loop_with block pause n s) = Ok true.
Proof.
  intros Hb Hp n. induction n as [|n IH]; intros s; cbn [main_loop_with].
  - reflexivity.
  - rewrite (bind_run (main_loop_round block pause) _ s true)
      by (apply main_loop_round_goes_on; assumption).
    apply IH.
Qed.

(** An interrupt in the [try] block: the handler logs and breaks. *)
Lemma main_loop_with_break (block pause : M state unit) n s :
  fst (block s) = Raise KeyboardInterrupt ->
  main_loop_with block pause (S n) s =
    (Ok false, add_log INFO [Lit "🛑 Exporter stopped by user"] (snd (block s))).
Proof.
  intros Hb. cbn [main_loop_with]. unfold bind at 1. unfold main_loop_round.
  destruct (block s) as [r s']. cbn [fst snd] in *. subst r. reflexivity.
Qed.

(** An exception of the sleep is outside the [try] statement. *)
Lemma main_loop_with_escape (block pause : M state unit) n s e :
  fst (block s) = Ok tt ->
  fst (pause (snd (block s))) = Raise e ->
  main_loop_with block pause (S n) s = (Raise e, snd (pause (snd (block s)))).
Proof.
  intros Hb Hp. cbn [main_loop_with]. unfold bind at 1. unfold main_loop_round.
  destruct (block s) as [r s']. cbn [fst snd] in *. subst r.
  rewrite (bind_raise pause _ s' e Hp). reflexivity.
Qed.


Lemma main_loop_body_gets E s :
  (n_get s + 3 <= n_get (snd (main_loop_body E s)) <= n_get s + 4)%nat.
Proof.
  rewrite main_loop_body_steps. cbn [snd n_get add_log].
  set (s0 := before_weather E s).
  assert (H0 : n_get s0 = n_get s) by reflexivity.
  pose proof (fetch_weather_gets E s0) as Hw.
  set (s1 := snd (fetch_weather_data E s0)) in *.
  destruct (fetch_crypto_frame E s1) as (_ & _ & _ & Hc).
  set (s2 := snd (fetch_crypto_data E s1)) in *.
  pose proof (fetch_exchange_gets E s2) as Hx.
  set (s3 := snd (fetch_exchange_rates E s2)) in *.
  destruct (fetch_static_frame E s3) as (_ & _ & _ & Hs & _).
  lia.
Qed.

Lemma main_loop_body_uptime E s :
  gauges (snd (main_loop_body E s)) "exporter_uptime_seconds" []
    = Some (fsub (time_time E (n_clock s)) (start_time s)).
Proof.
  rewrite main_loop_body_steps. cbn [snd gauges add_log].
  rewrite (fetch_static_outside E) by (cbn; intuition discriminate).
  rewrite (fetch_exchange_outside E) by (cbn; intuition discriminate).
  rewrite (fetch_crypto_outside E) by (cbn; intuition discriminate).
  rewrite (fetch_weather_outside E) by (cbn; intuition discriminate).
  reflexivity.
Qed.

Lemma main_loop_rounds E n :
  forall s,
    fst (main_loop E n s) = Ok true /\
    slept (snd (main_loop E n s)) = slept s ++ repeat 20 n /\
    start_time (snd (main_loop E n s)) = start_time s /\
    (n_get s + 3 * n <= n_get (snd (main_loop E n s)) <= n_get s + 4 * n)%nat.
Proof.
  unfold main_loop.
  induction n as [|n IH]; intros s; cbn [main_loop_with repeat].
  - cbn. rewrite app_nil_r. repeat split; lia.
  - rewrite (bind_run (main_loop_round _ _) _ s true)
      by (rewrite main_loop_round_run; reflexivity).
    rewrite main_loop_round_run. cbn [snd].
    destruct (IH (add_sleep 20 (snd (main_loop_body E s))))
      as (Hr & Hsl & Hst & Hn).
    destruct (main_loop_body_same_pace E s) as (Hsl0 & Hst0).
    pose proof (main_loop_body_gets E s) as Hn0.
    cbn [slept start_time n_get add_sleep] in *.
    split; [exact Hr|]. split; [|split].
    + rewrite Hsl, Hsl0, <- app_assoc. reflexivity.
    + rewrite Hst. exact Hst0.
    + lia.
Qed.

(** X18.  The loop of [main_loop] and Ctrl-C.  Left alone, the
    [try] block of a round always returns, so [n] rounds are [n] sleeps
    of 20 seconds with three to four GETs each (the EUR request is
    skipped when the USD one fails), [start_time] is kept and each
    round sets the uptime gauge to the clock reading minus
    [start_time]: the loop is still running.  More generally the loop
    is still running after any number of rounds in which the block
    lets out nothing but [Exception]s and the sleep returns.  A
    [KeyboardInterrupt] that reaches the [try] block ends the loop by
    [break]: the round logs that the exporter was stopped, does not
    sleep, no later round runs and [main_loop] returns.  An exception
    that reaches the sleep is outside the [try] statement and leaves
    [main_loop] as it is. *)
Theorem exporter_loop_runs_until_interrupted E n s :
  (fst (main_loop E n s) = Ok true /\
   slept (snd (main_loop E n s)) = slept s ++ repeat 20 n /\
   start_time (snd (main_loop E n s)) = start_time s /\
   (n_get s + 3 * n <= n_get (snd (main_loop E n s)) <= n_get s + 4 * n)%nat) /\
  (forall s1,
     fst (main_loop_body E s1) = Ok tt /\
     gauges (snd (main_loop_body E s1)) "exporter_uptime_seconds" []
     = Some (fsub (time_time E (n_clock s1)) (start_time s1))) /\
  (forall block pause : M state unit,
     (forall s0 e, fst (block s0) = Raise e -> is_Exception e = true) ->
     (forall s0, fst (pause s0) = Ok tt) ->
     fst (main_loop_with block pause n s) = Ok true) /\
  (forall block pause : M state unit,
     fst (block s) = Raise KeyboardInterrupt ->
     main_loop_with block pause (S n) s =
       (Ok false, add_log INFO [Lit "🛑 Exporter stopped by user"] (snd (block s)))) /\
  (forall (block pause : M state unit) e,
     fst (block s) = Ok tt ->
     fst (pause (snd (block s))) = Raise e ->
     main_loop_with block pause (S n) s = (Raise e, snd (pause (snd (block s))))).
Proof.
  split; [apply main_loop_rounds|]. split; [|split; [|split]].
  - intros s1. split; [|apply main_loop_body_uptime].
    rewrite main_loop_body_steps. reflexivity.
  - intros block pause Hb Hp. apply main_loop_with_running; assumption.
  - intros block pause. apply main_loop_with_break.
  - intros block pause e. apply main_loop_with_escape.
Qed.

End Registry.

(** ** Instances of the properties above *)

Lemma send_alert_posts_once_witness :
  Alert.themeColor
    (Alert.card_of {| Alert.title := "t"; Alert.message := Str "m";
                      Alert.alert_type := "critical"; Alert.facts := None |}
       (Alert.clock Alert.quiet_world (Alert.n_clock Alert.initial_state)))
  = "0076D7"%string.
Proof.
  apply (proj1 (proj2 (send_alert_posts_once Alert.quiet_world "t" (Str "m") "critical"
                         None Alert.initial_state)));
    discriminate.
Defined.

Lemma sustained_breach_resends_witness :
  Alert.sends (snd (Alert.start_monitoring Alert.busy_world 2 Alert.initial_state))
  = Alert.sends Alert.initial_state
    ++ List.concat (repeat (Alert.tick_sends Alert.busy_world Alert.initial_state) 2).
Proof.
  apply (sustained_breach_resends Alert.busy_world 2 Alert.initial_state).
  intros n m q. reflexivity.
Defined.

Lemma rejected_cards_are_not_recorded_witness :
  Alert.alert_history
    (snd (Alert.check_alerts Alert.unreachable_webhook_world Alert.initial_state))
  = Alert.alert_history Alert.initial_state.
Proof.
  apply (proj1 (rejected_cards_are_not_recorded Alert.unreachable_webhook_world
                  Alert.initial_state (fun k => I))).
Defined.

Lemma accepted_cards_are_all_recorded_witness :
  Alert.all_recorded Alert.initial_state
    (snd (Alert.check_alerts Alert.busy_world Alert.initial_state)).
Proof.
  apply (proj1 (accepted_cards_are_all_recorded Alert.busy_world Alert.initial_state
                  (fun k => ex_intro _ None eq_refl))).
Defined.

Lemma batch_is_fully_routed_witness :
  fst (Alert.handle_alert Alert.quiet_world
         (Alert.Json (PyDict [("alerts", PyList [Alert.database_down_alert;
                                                 Alert.resolved_disk_alert])]))
         Alert.initial_state)
  = Ok (Alert.Success, 200).
Proof.
  refine (proj1 (batch_is_fully_routed Alert.quiet_world Alert.initial_state
                   [("alerts", PyList [Alert.database_down_alert;
                                       Alert.resolved_disk_alert])]
                   [Alert.database_down_alert; Alert.resolved_disk_alert] _ _)).
  - reflexivity.
  - repeat constructor; vm_compute; discriminate.
Defined.

Lemma name_is_needed_only_when_firing_witness :
  Alert.route (Alert.numeric_name_alert "firing") = None /\
  Alert.process_prometheus_alert Alert.quiet_world (Alert.numeric_name_alert "firing")
    Alert.initial_state
  = (Raise AttributeError, Alert.initial_state).
Proof.
  refine (name_is_needed_only_when_firing Alert.quiet_world Alert.initial_state
            (Alert.numeric_name_alert "firing") (PyInt 7) (PyStr "firing") (PyStr "seven")
            _ _).
  - reflexivity.
  - intros name. discriminate.
Defined.

Lemma weather_fetch_succeeds_iff_witness :
  Exporter.gauges
    (snd (Exporter.fetch_weather_data Exporter.good_world
            (Exporter.initial_state Exporter.good_world)))
    "weather_api_status" []
  = Some (float_of_Z 1).
Proof.
  destruct (proj2 (proj2 (weather_fetch_succeeds_iff Exporter.good_world
                            (Exporter.initial_state Exporter.good_world))) eq_refl)
    as (status & body & t & w & h & km & _ & _ & _ & _ & _ & _ & _ & _ & _ & H & _).
  exact H.
Defined.

Lemma weather_update_is_not_atomic_witness :
  Exporter.gauges
    (snd (Exporter.fetch_weather_data Exporter.hazy_world
            (Exporter.initial_state Exporter.hazy_world)))
    "weather_temperature_celsius" Exporter.astana
  = Some (float_of_Z 21) /\
  fst (Exporter.fetch_weather_data Exporter.hazy_world
         (Exporter.initial_state Exporter.hazy_world)) = Ok false.
Proof.
  destruct (weather_update_is_not_atomic Exporter.hazy_world
              (Exporter.initial_state Exporter.hazy_world) 200
              Exporter.weather_body_without_visibility
              (PyDict [("relativehumidity_2m", PyList [PyInt 40]);
                       ("visibility", PyList [PyNone])])
              (float_of_Z 21) eq_refl eq_refl eq_refl eq_refl)
    as (Ht & Hv).
  split; [exact Ht|]. apply Hv. reflexivity.
Defined.

Lemma crypto_fetch_outcome_witness :
  Exporter.gauges
    (snd (Exporter.fetch_crypto_data Exporter.crypto_down_world
            (Exporter.initial_state Exporter.crypto_down_world)))
    "crypto_api_status" []
  = Some (S754_zero false) /\
  Exporter.error_counter
    (snd (Exporter.fetch_crypto_data Exporter.crypto_down_world
            (Exporter.initial_state Exporter.crypto_down_world)))
    "crypto"
  = Exporter.error_counter (Exporter.initial_state Exporter.crypto_down_world) "crypto" + 1.
Proof.
  apply (proj1 (proj2 (proj2 (crypto_fetch_outcome Exporter.crypto_down_world
                                (Exporter.initial_state Exporter.crypto_down_world))))).
  vm_compute. reflexivity.
Defined.

Lemma error_counters_per_round_witness :
  Exporter.error_counter
    (snd (Exporter.main_loop_body Exporter.weather_down_world
            (Exporter.initial_state Exporter.weather_down_world)))
    "static"
  = Exporter.error_counter (Exporter.initial_state Exporter.weather_down_world) "static".
Proof.
  apply (proj2 (error_counters_per_round Exporter.weather_down_world
                  (Exporter.initial_state Exporter.weather_down_world) "static"));
    discriminate.
Defined.

Lemma exporter_loop_runs_until_interrupted_witness :
  fst (Exporter.main_loop_with (raise ValueError) (Exporter.sleep 20) 2
         (Exporter.initial_state Exporter.good_world)) = Ok true /\
  Exporter.main_loop_with (Exporter.interrupted_in_crypto Exporter.good_world)
    (Exporter.sleep 20) 3 (Exporter.initial_state Exporter.good_world)
  = (Ok false,
     Exporter.add_log Exporter.INFO [Lit "🛑 Exporter stopped by user"]
       (snd (Exporter.interrupted_in_crypto Exporter.good_world
               (Exporter.initial_state Exporter.good_world)))).
Proof.
  destruct (exporter_loop_runs_until_interrupted Exporter.good_world 2
              (Exporter.initial_state Exporter.good_world))
    as (_ & _ & Hrun & Hbreak & _).
  split.
  - apply Hrun.
    + intros s0 e H. cbn in H. injection H as <-. reflexivity.
    + intros s0. reflexivity.
  - apply Hbreak. vm_compute. reflexivity.
Defined.
